(** * fastnvmetrics: a Rocq model of the sampling engine

    The development follows [src/engine.cpp] and
    [include/fastnvmetrics/fastnvmetrics.hpp]:

    - machine integers are [Z] with the wrap-around written out;
    - [char] buffers are lists of byte values, a pointer into a buffer is the
      part of the buffer that is still ahead of it;
    - [float] and [double] are IEEE 754 binary32 and binary64 values, through
      the executable specification [SpecFloat] of the standard library;
    - the engine is a record of its data members, the operating system a
      record of open descriptors and written files, and the three sampling
      threads together with the thread that calls [start], [stop] and [sync]
      advance by the labelled steps of [step]. *)

From Stdlib Require Import ZArith Bool Lia String Ascii.
From Stdlib Require Import Floats.SpecFloat.
From stdpp Require Import base tactics option list strings gmap.

Local Open Scope Z_scope.

(** ** Machine integers *)

Module Int.

Definition wrap (bits : Z) (z : Z) : Z := z mod 2 ^ bits.

Definition u8 : Z -> Z := wrap 8.
Definition u16 : Z -> Z := wrap 16.
Definition u32 : Z -> Z := wrap 32.
Definition u64 : Z -> Z := wrap 64.

(** Conversion to a signed integer of [bits] bits (two's complement), as
    [static_cast<int>] does for a value that does not fit. *)
Definition swrap (bits : Z) (z : Z) : Z :=
  (z + 2 ^ (bits - 1)) mod 2 ^ bits - 2 ^ (bits - 1).

Definition i32 : Z -> Z := swrap 32.

Definition LONG_MAX : Z := 2 ^ 63 - 1.
Definition LONG_MIN : Z := - 2 ^ 63.

End Int.

(** ** Floating point

    [float] is binary32 (24 bits of precision), [double] is binary64.  The
    operations round to nearest, ties to even. *)

Module F32.

Definition t : Type := spec_float.

Definition prec : Z := 24.
Definition emax : Z := 128.

Definition of_Z (z : Z) : t := binary_normalize prec emax z 0 false.
Definition zero : t := S754_zero false.
Definition add : t -> t -> t := SFadd prec emax.
Definition mul : t -> t -> t := SFmul prec emax.
Definition div : t -> t -> t := SFdiv prec emax.
Definition ltb : t -> t -> bool := SFltb.

(** [std::clamp(v, lo, hi)]: [lo] if [v < lo], [hi] if [hi < v], else [v]. *)
Definition clamp (v lo hi : t) : t :=
  if ltb v lo then lo else if ltb hi v then hi else v.

(** The 32 bits of the value: sign, 8 bits of biased exponent, 23 bits of
    fraction.  [SpecFloat] has one NaN, encoded as the quiet NaN. *)
Definition bits (x : t) : Z :=
  match x with
  | S754_zero s => if s then 2 ^ 31 else 0
  | S754_infinity s => (if s then 2 ^ 31 else 0) + 255 * 2 ^ 23
  | S754_nan => 255 * 2 ^ 23 + 2 ^ 22
  | S754_finite s m e =>
      (if s then 2 ^ 31 else 0) +
      (if Z.pos m <? 2 ^ 23 then Z.pos m
       else (e + 150) * 2 ^ 23 + (Z.pos m - 2 ^ 23))
  end.

End F32.

Module F64.

Definition t : Type := spec_float.

Definition prec : Z := 53.
Definition emax : Z := 1024.

Definition of_Z (z : Z) : t := binary_normalize prec emax z 0 false.
Definition zero : t := S754_zero false.
Definition add : t -> t -> t := SFadd prec emax.
Definition sub : t -> t -> t := SFsub prec emax.
Definition mul : t -> t -> t := SFmul prec emax.
Definition div : t -> t -> t := SFdiv prec emax.

(** The literal [1e-9]: the double nearest to 10^-9. *)
Definition nano : t := Eval vm_compute in div (of_Z 1) (of_Z 1000000000).

Definition bits (x : t) : Z :=
  match x with
  | S754_zero s => if s then 2 ^ 63 else 0
  | S754_infinity s => (if s then 2 ^ 63 else 0) + 2047 * 2 ^ 52
  | S754_nan => 2047 * 2 ^ 52 + 2 ^ 51
  | S754_finite s m e =>
      (if s then 2 ^ 63 else 0) +
      (if Z.pos m <? 2 ^ 52 then Z.pos m
       else (e + 1075) * 2 ^ 52 + (Z.pos m - 2 ^ 52))
  end.

End F64.

(** ** Characters and C strings *)

Definition char_of (a : ascii) : Z := Z.of_N (N_of_ascii a).

(** The bytes of a string literal. *)
Definition bytes_of (s : string) : list Z := char_of <$> list_ascii_of_string s.

(** [c_str]: the bytes of a [std::string] as a C function sees them, up to
    the first NUL. *)
Fixpoint c_str (l : list Z) : list Z :=
  match l with
  | [] => []
  | c :: r => if c =? 0 then [] else c :: c_str r
  end.

(** The character under a pointer [p] into a NUL-terminated buffer: the
    buffer ends with a NUL, which is what is read once the bytes are used
    up. *)
Definition deref (p : list Z) : Z := hd 0 p.

Definition is_digit (c : Z) : bool := (48 <=? c) && (c <=? 57).
Definition is_blank (c : Z) : bool := (c =? 32) || (c =? 9).
Definition NL : Z := 10.
Definition SP : Z := 32.

(** [skip_past p c]: the pointer after the next [c], or [None] ([nullptr])
    when the string ends first. *)
Fixpoint skip_past (p : list Z) (c : Z) : option (list Z) :=
  match p with
  | [] => None
  | x :: r => if x =? 0 then None else if x =? c then Some r else skip_past r c
  end.

(** The first loop of [parse_u64]: while the character under [p] is a digit
    [d], [v = v * 10 + d] in 64-bit unsigned arithmetic. *)
Fixpoint parse_digits (v : Z) (p : list Z) : Z * list Z :=
  match p with
  | [] => (v, [])
  | x :: r => if is_digit x then parse_digits (Int.u64 (v * 10 + (x - 48))) r
              else (v, p)
  end.

(** The second loop of [parse_u64]: step over spaces and tabs. *)
Fixpoint skip_blanks (p : list Z) : list Z :=
  match p with
  | [] => []
  | x :: r => if is_blank x then skip_blanks r else p
  end.

(** Step over spaces only, as the readers do after a line's label. *)
Fixpoint skip_spaces (p : list Z) : list Z :=
  match p with
  | [] => []
  | x :: r => if x =? SP then skip_spaces r else p
  end.

(** [parse_u64(p)]: the value and the advanced pointer. *)
Definition parse_u64 (p : list Z) : Z * list Z :=
  let '(v, q) := parse_digits 0 p in (v, skip_blanks q).

(** ** Reading pseudo-files *)

(** What the kernel answers at one instant: for a descriptor, the bytes that
    [lseek(fd, 0, SEEK_SET)] followed by [read] would deliver ([None] when
    either call fails), and the reading of [CLOCK_MONOTONIC]. *)
Record Env := {
  env_read : Z -> option (list Z);
  env_sec : Z;
  env_nsec : Z
}.

(** [sysfs_read(fd, buf, bufsize)]: the bytes now in [buf] before the NUL the
    function appends; [None] stands for the return value 0, in which case no
    caller looks at [buf]. *)
Definition sysfs_read (env : Env) (fd : Z) (bufsize : nat) : option (list Z) :=
  if fd <? 0 then None
  else match env_read env fd with
       | None => None
       | Some data =>
           match take (bufsize - 1) data with
           | [] => None
           | got => Some got
           end
       end.

Definition is_space (c : Z) : bool := (c =? 32) || ((9 <=? c) && (c <=? 13)).

Fixpoint skip_isspace (p : list Z) : list Z :=
  match p with
  | [] => []
  | x :: r => if is_space x then skip_isspace r else p
  end.

Fixpoint digits_value (v : Z) (p : list Z) : Z :=
  match p with
  | [] => v
  | x :: r => if is_digit x then digits_value (v * 10 + (x - 48)) r else v
  end.

(** [strtol(s, NULL, 10)]: white space, an optional sign, digits; a value
    that does not fit a [long] becomes [LONG_MAX] or [LONG_MIN]. *)
Definition strtol (p : list Z) : Z :=
  let p := skip_isspace p in
  let '(neg, p) := match p with
                   | 45 :: r => (true, r)
                   | 43 :: r => (false, r)
                   | _ => (false, p)
                   end in
  let v := digits_value 0 p in
  let v := if neg then - v else v in
  Z.max Int.LONG_MIN (Z.min Int.LONG_MAX v).

(** [atoi(s)], which the C library computes as [(int) strtol(s, NULL, 10)]. *)
Definition atoi (p : list Z) : Z := Int.i32 (strtol p).

(** [sysfs_read_int(fd)], with its 32-byte buffer. *)
Definition sysfs_read_int (env : Env) (fd : Z) : Z :=
  match sysfs_read env fd 32 with
  | None => 0
  | Some buf => atoi buf
  end.

(** [std::clamp] on [int]. *)
Definition clamp_int (v lo hi : Z) : Z :=
  if v <? lo then lo else if hi <? v then hi else v.

Definition read_gpu_load (env : Env) (fd_gpu_load_ : Z) : Z :=
  Int.u16 (clamp_int (sysfs_read_int env fd_gpu_load_) 0 1000).

(** *** [/proc/stat] *)

Definition MAX_CPU_CORES : Z := 16.
Definition MAX_POWER_RAILS : Z := 8.
Definition MAX_THERMAL_ZONES : Z := 16.

(** [struct CpuJiffies { total; idle }], zero by default. *)
Record CpuJiffies := { cj_total : Z; cj_idle : Z }.

Definition CpuJiffies0 : CpuJiffies := {| cj_total := 0; cj_idle := 0 |}.

(** [p[0] == 'c' && p[1] == 'p' && p[2] == 'u'] *)
Definition starts_cpu (p : list Z) : bool :=
  match p with
  | 99 :: 112 :: 117 :: _ => true
  | _ => false
  end.

Fixpoint skip_digits (q : list Z) : list Z :=
  match q with
  | [] => []
  | x :: r => if is_digit x then skip_digits r else q
  end.

(** Step over one space, if there is one. *)
Definition skip_one_space (q : list Z) : list Z :=
  match q with
  | x :: r => if x =? SP then r else q
  | [] => []
  end.

(** [for (int i = 0; i < 10 && *q && *q != '\n'; ++i) vals[i] = parse_u64(q);]
    with [n] the iterations left. *)
Fixpoint parse_vals (n : nat) (i : nat) (q : list Z) (vals : list Z)
  : list Z * list Z :=
  match n with
  | O => (vals, q)
  | S n' =>
      if (deref q =? 0) || (deref q =? NL) then (vals, q)
      else let '(v, q') := parse_u64 q in
           parse_vals n' (S i) q' (<[i := v]> vals)
  end.

(** [for (int i = 0; i < 8; ++i) total += vals[i];] *)
Definition sum8 (vals : list Z) : Z :=
  foldl (fun acc v => Int.u64 (acc + v)) 0 (take 8 vals).

(** The utilisation of one core from the deltas, as [read_cpu] computes it. *)
Definition core_util (d_total d_idle : Z) : F32.t :=
  let util :=
    if 0 <? d_total
    then F32.div (F32.mul (F32.of_Z 100) (F32.of_Z (Int.u64 (d_total - d_idle))))
                 (F32.of_Z d_total)
    else F32.zero in
  F32.clamp util F32.zero (F32.of_Z 100).

(** The variables of the per-core loop of [read_cpu]. *)
Record CpuScan := {
  per_core : list F32.t;
  sum_util : F32.t;
  cores_parsed : nat;
  prev_cpu : list CpuJiffies
}.

(** One pass of the body of the per-core loop for core [c], on the line at
    [p] (which starts with [cpu]): the new loop variables and the pointer
    from which the next line is looked for. *)
Definition cpu_line (c : nat) (p : list Z) (st : CpuScan) : CpuScan * list Z :=
  let q := skip_one_space (skip_digits (drop 3 p)) in
  let '(vals, q) := parse_vals 10 0 q (replicate 10 0) in
  let total := sum8 vals in
  let idle_val := Int.u64 (nth 3 vals 0 + nth 4 vals 0) in
  let old := nth c (prev_cpu st) CpuJiffies0 in
  let d_total := Int.u64 (total - cj_total old) in
  let d_idle := Int.u64 (idle_val - cj_idle old) in
  let u := core_util d_total d_idle in
  ({| per_core := <[c := u]> (per_core st);
      sum_util := F32.add (sum_util st) u;
      cores_parsed := S (cores_parsed st);
      prev_cpu := <[c := {| cj_total := total; cj_idle := idle_val |}]> (prev_cpu st) |},
   q).

(** [for (int c = 0; c < num_cpu_cores && p; ++c)], with [n] the cores left;
    the loop is left early at a line that does not start with [cpu]. *)
Fixpoint cpu_loop (n : nat) (c : nat) (p : option (list Z)) (st : CpuScan)
  : CpuScan :=
  match n, p with
  | S n', Some p =>
      if starts_cpu p
      then let '(st', q) := cpu_line c p st in
           cpu_loop n' (S c) (skip_past q NL) st'
      else st
  | _, _ => st
  end.

(** [for (int c = from; c < MAX_CPU_CORES; ++c) per_core[c] = 0.0f;] with
    [n] the slots left. *)
Fixpoint zero_fill (n : nat) (c : nat) (a : list F32.t) : list F32.t :=
  match n with
  | O => a
  | S n' => zero_fill n' (S c) (<[c := F32.zero]> a)
  end.

(** [read_cpu(per_core, aggregate)] on the descriptor of [/proc/stat]: the
    array [per_core] afterwards, the aggregate and the new [prev_cpu_].  The
    aggregate line is parsed by the source into two values that it then
    drops, so nothing of it is kept here. *)
Definition read_cpu (env : Env) (fd_proc_stat_ : Z) (num_cpu_cores : Z)
    (prev_cpu_ : list CpuJiffies) (per_core0 : list F32.t)
  : list F32.t * F32.t * list CpuJiffies :=
  match sysfs_read env fd_proc_stat_ 4096 with
  | None =>
      (* memset of the first num_cpu_cores slots *)
      (zero_fill (Z.to_nat num_cpu_cores) 0 per_core0, F32.zero, prev_cpu_)
  | Some buf =>
      let st := cpu_loop (Z.to_nat num_cpu_cores) 0 (skip_past buf NL)
                  {| per_core := per_core0; sum_util := F32.zero;
                     cores_parsed := 0; prev_cpu := prev_cpu_ |} in
      let filled := zero_fill (Z.to_nat MAX_CPU_CORES - cores_parsed st)
                      (cores_parsed st) (per_core st) in
      let aggregate :=
        if (0 <? cores_parsed st)%nat
        then F32.div (sum_util st) (F32.of_Z (Z.of_nat (cores_parsed st)))
        else F32.zero in
      (filled, aggregate, prev_cpu st)
  end.

(** *** The utilisation of a core in the words of the specification

    A [cpuN] line of [/proc/stat] is the label, the index, and unsigned
    decimal fields separated by single spaces. *)

Record StatLine := {
  sl_index : list Z;          (* the digits of N *)
  sl_fields : list (list Z)   (* user nice system idle iowait irq softirq steal ... *)
}.

Definition digits (ds : list Z) : Prop := Forall (fun x => is_digit x = true) ds.

(** A field is a non-empty string of digits. *)
Definition field_ok (ds : list Z) : Prop := ds <> [] /\ digits ds.

Definition line_ok (l : StatLine) : Prop :=
  digits (sl_index l) /\ Forall field_ok (sl_fields l).

Fixpoint fields_text (fs : list (list Z)) : list Z :=
  match fs with
  | [] => []
  | [f] => f
  | f :: fs' => f ++ SP :: fields_text fs'
  end.

Definition render_line (l : StatLine) : list Z :=
  bytes_of "cpu" ++ sl_index l ++ SP :: fields_text (sl_fields l) ++ [NL].

(** The number a string of digits denotes. *)
Definition decimal (ds : list Z) : Z := foldl (fun v x => v * 10 + (x - 48)) 0 ds.

(** Field [i] of a line as a 64-bit unsigned number; a field the line does
    not have counts as 0. *)
Definition field (l : StatLine) (i : nat) : Z :=
  Int.u64 (decimal (nth i (sl_fields l) [])).

(** [total]: the sum of the first 8 fields. *)
Definition spec_total (l : StatLine) : Z :=
  foldl (fun acc i => Int.u64 (acc + field l i)) 0 (seq 0 8).

(** [idle_sum = idle + iowait] *)
Definition spec_idle_sum (l : StatLine) : Z := Int.u64 (field l 3 + field l 4).

(** The previous values after the tick. *)
Definition spec_jiffies (l : StatLine) : CpuJiffies :=
  {| cj_total := spec_total l; cj_idle := spec_idle_sum l |}.

(** [u = 100 * (d_total - d_idle) / d_total] when [d_total > 0], else 0,
    clamped to [0, 100]; the deltas are 64-bit unsigned differences against
    the previous values. *)
Definition spec_util (l : StatLine) (old : CpuJiffies) : F32.t :=
  let d_total := Int.u64 (spec_total l - cj_total old) in
  let d_idle := Int.u64 (spec_idle_sum l - cj_idle old) in
  let u := if 0 <? d_total
           then F32.div (F32.mul (F32.of_Z 100) (F32.of_Z (Int.u64 (d_total - d_idle))))
                        (F32.of_Z d_total)
           else F32.zero in
  F32.clamp u F32.zero (F32.of_Z 100).

(** The mean of the utilisations: their sum from the left, over their
    number; 0 when there is none. *)
Definition spec_mean (us : list F32.t) : F32.t :=
  match us with
  | [] => F32.zero
  | _ => F32.div (foldl F32.add F32.zero us) (F32.of_Z (Z.of_nat (length us)))
  end.

(** The values [parse_vals] stores for a line's fields. *)
Definition vals_of (fs : list (list Z)) : list Z :=
  (fun f => Int.u64 (decimal f)) <$> fs.


(** *** [/proc/meminfo] *)

(** [strncmp(p, lit, strlen(lit)) == 0] for a literal without NUL. *)
Fixpoint starts_with (lit p : list Z) : bool :=
  match lit, p with
  | [], _ => true
  | c :: lit', x :: p' => (x =? c) && starts_with lit' p'
  | _ :: _, [] => false
  end.

(** The [while] loop of [read_ram]; every pass moves [p] forward, so as many
    passes as the buffer has bytes are enough. *)
Fixpoint ram_loop (fuel : nat) (p : list Z) (mem_total mem_available : Z)
  : Z * Z :=
  match fuel with
  | O => (mem_total, mem_available)
  | S fuel' =>
      if deref p =? 0 then (mem_total, mem_available)
      else if starts_with (bytes_of "MemTotal:") p then
        let '(v, p') := parse_u64 (skip_spaces (drop 9 p)) in
        match skip_past p' NL with
        | None => (v, mem_available)
        | Some nl => ram_loop fuel' nl v mem_available
        end
      else if starts_with (bytes_of "MemAvailable:") p then
        let '(v, _) := parse_u64 (skip_spaces (drop 13 p)) in
        (mem_total, v)
      else
        match skip_past p NL with
        | None => (mem_total, mem_available)
        | Some nl => ram_loop fuel' nl mem_total mem_available
        end
  end.

(** [read_ram(used_kb, available_kb)] *)
Definition read_ram (env : Env) (fd_meminfo_ : Z) : Z * Z :=
  match sysfs_read env fd_meminfo_ 1024 with
  | None => (0, 0)
  | Some buf =>
      let '(mem_total, mem_available) := ram_loop (S (length buf)) buf 0 0 in
      (if mem_available <=? mem_total then mem_total - mem_available else 0,
       mem_available)
  end.

(** *** EMC, power rails, thermal zones *)

Definition read_emc (env : Env) (fd_emc_ : Z) : F32.t :=
  if fd_emc_ <? 0 then F32.of_Z (-1)
  else match sysfs_read env fd_emc_ 64 with
       | None => F32.of_Z (-1)
       | Some buf => F32.clamp (F32.of_Z (atoi buf)) F32.zero (F32.of_Z 100)
       end.

(** [struct MediumSample], 104 bytes. *)
Record MediumSample := {
  m_time_s : F64.t;
  voltage_mv : list Z;        (* uint32_t[MAX_POWER_RAILS] *)
  current_ma : list Z;        (* uint32_t[MAX_POWER_RAILS] *)
  power_mw : list F32.t       (* float[MAX_POWER_RAILS] *)
}.

(** [struct SlowSample], 72 bytes. *)
Record SlowSample := {
  s_time_s : F64.t;
  temp_c : list F32.t         (* float[MAX_THERMAL_ZONES] *)
}.

(** [struct FastSample], 98 bytes. *)
Record FastSample := {
  time_s : F64.t;
  gpu_load : Z;               (* uint16_t *)
  cpu_util : list F32.t;      (* float[MAX_CPU_CORES] *)
  cpu_aggregate : F32.t;
  ram_used_kb : Z;            (* uint64_t *)
  ram_available_kb : Z;       (* uint64_t *)
  emc_util : F32.t
}.

(** [struct SyncPoint], 16 bytes. *)
Record SyncPoint := {
  sync_id : Z;                (* uint64_t *)
  fast_sample_idx : Z         (* uint64_t *)
}.

(** Value initialisation, [T s{}]: every byte 0. *)
Definition MediumSample0 : MediumSample :=
  {| m_time_s := F64.zero; voltage_mv := replicate 8 0;
     current_ma := replicate 8 0; power_mw := replicate 8 F32.zero |}.

Definition SlowSample0 : SlowSample :=
  {| s_time_s := F64.zero; temp_c := replicate 16 F32.zero |}.

Definition FastSample0 : FastSample :=
  {| time_s := F64.zero; gpu_load := 0; cpu_util := replicate 16 F32.zero;
     cpu_aggregate := F32.zero; ram_used_kb := 0; ram_available_kb := 0;
     emc_util := F32.zero |}.

(** The first loop of [read_power] for rail [i]. *)
Definition power_rail (env : Env) (fd_voltage_ fd_current_ : list Z)
    (s : MediumSample) (i : nat) : MediumSample :=
  let v := Int.u32 (sysfs_read_int env (nth i fd_voltage_ (-1))) in
  let c := Int.u32 (sysfs_read_int env (nth i fd_current_ (-1))) in
  {| m_time_s := m_time_s s;
     voltage_mv := <[i := v]> (voltage_mv s);
     current_ma := <[i := c]> (current_ma s);
     power_mw := <[i := F32.div (F32.mul (F32.of_Z v) (F32.of_Z c)) (F32.of_Z 1000)]>
                   (power_mw s) |}.

(** The second loop of [read_power] for the unused slot [i]. *)
Definition power_zero (s : MediumSample) (i : nat) : MediumSample :=
  {| m_time_s := m_time_s s;
     voltage_mv := <[i := 0]> (voltage_mv s);
     current_ma := <[i := 0]> (current_ma s);
     power_mw := <[i := F32.zero]> (power_mw s) |}.

(** [read_power(s.voltage_mv, s.current_ma, s.power_mw)] for [nrails]
    rails. *)
Definition read_power (env : Env) (fd_voltage_ fd_current_ : list Z)
    (nrails : nat) (s : MediumSample) : MediumSample :=
  let s := foldl (power_rail env fd_voltage_ fd_current_) s (seq 0 nrails) in
  foldl power_zero s (seq nrails (Z.to_nat MAX_POWER_RAILS - nrails)).

(** [read_thermals(s.temp_c)] for [nzones] zones. *)
Definition read_thermals (env : Env) (fd_thermal_ : list Z) (nzones : nat)
    (temps : list F32.t) : list F32.t :=
  let temps :=
    foldl (fun t i =>
             <[i := F32.div (F32.of_Z (sysfs_read_int env (nth i fd_thermal_ (-1))))
                            (F32.of_Z 1000)]> t)
          temps (seq 0 nzones) in
  foldl (fun t i => <[i := F32.zero]> t) temps
        (seq nzones (Z.to_nat MAX_THERMAL_ZONES - nzones)).

(** [monotonic_s()] *)
Definition monotonic_s (env : Env) : F64.t :=
  F64.add (F64.of_Z (env_sec env)) (F64.mul (F64.of_Z (env_nsec env)) F64.nano).

(** ** Configuration *)

Record PowerRailConfig := {
  label : string;
  voltage_path : string;
  current_path : string
}.

Record ThermalZoneConfig := {
  name : string;
  temp_path : string
}.

Record BoardConfig := {
  board_name : string;
  num_cpu_cores : Z;                      (* int *)
  gpu_load_path : string;
  emc_actmon_path : string;
  emc_clk_rate_path : string;
  power_rails : list PowerRailConfig;
  thermal_zones : list ThermalZoneConfig
}.

Record EngineConfig := {
  fast_hz : Z;                            (* uint32_t *)
  medium_hz : Z;
  slow_hz : Z
}.

(** The default member initialisers of [EngineConfig]. *)
Definition EngineConfig_default : EngineConfig :=
  {| fast_hz := 1000; medium_hz := 100; slow_hz := 10 |}.

Inductive Exception :=
  | invalid_argument (what : string)
  | runtime_error (what : string).

(** ** Threads *)

(** A [std::thread] member: not a thread (never started, or joined), a
    thread at some point of its function, or a thread whose function has
    returned and that waits to be joined. *)
Inductive Thread (PC : Type) :=
  | NoThread
  | Running (pc : PC)
  | Finished.
Arguments NoThread {PC}.
Arguments Running {PC} pc.
Arguments Finished {PC}.

Definition joinable {PC} (t : Thread PC) : bool :=
  match t with NoThread => false | _ => true end.

(** The points of [run_fast] between which the thread is observed: the head
    of the warmup loop with its variable [i], the block that sets
    [warmed_up_], and the head of the main loop. *)
Inductive FastPC :=
  | FPrimer (i : nat)
  | FPublish
  | FMain.

(** The points of [run_medium] and [run_slow]: inside [wait_for_warmup], and
    the head of the loop. *)
Inductive TierPC :=
  | TWait
  | TLoop.

(** ** The engine

    The data members of [class Engine]; the three atomics are [running_],
    [warmed_up_] and [fast_count_], a descriptor is -1 when it is not open. *)

Record Engine := {
  output_path_ : string;
  board_ : BoardConfig;
  config_ : EngineConfig;
  fast_thread_ : Thread FastPC;
  medium_thread_ : Thread TierPC;
  slow_thread_ : Thread TierPC;
  running_ : bool;
  warmed_up_ : bool;
  fast_count_ : Z;
  sync_points_ : list SyncPoint;
  fast_samples_ : list FastSample;
  medium_samples_ : list MediumSample;
  slow_samples_ : list SlowSample;
  t0_s_ : F64.t;
  fd_gpu_load_ : Z;
  fd_proc_stat_ : Z;
  fd_meminfo_ : Z;
  fd_emc_ : Z;
  fd_voltage_ : list Z;
  fd_current_ : list Z;
  fd_thermal_ : list Z;
  prev_cpu_ : list CpuJiffies
}.

(** Assignments to single members. *)
Definition set_fast_thread (t : Thread FastPC) (e : Engine) : Engine :=
  {| output_path_ := output_path_ e;
     board_ := board_ e;
     config_ := config_ e;
     fast_thread_ := t;
     medium_thread_ := medium_thread_ e;
     slow_thread_ := slow_thread_ e;
     running_ := running_ e;
     warmed_up_ := warmed_up_ e;
     fast_count_ := fast_count_ e;
     sync_points_ := sync_points_ e;
     fast_samples_ := fast_samples_ e;
     medium_samples_ := medium_samples_ e;
     slow_samples_ := slow_samples_ e;
     t0_s_ := t0_s_ e;
     fd_gpu_load_ := fd_gpu_load_ e;
     fd_proc_stat_ := fd_proc_stat_ e;
     fd_meminfo_ := fd_meminfo_ e;
     fd_emc_ := fd_emc_ e;
     fd_voltage_ := fd_voltage_ e;
     fd_current_ := fd_current_ e;
     fd_thermal_ := fd_thermal_ e;
     prev_cpu_ := prev_cpu_ e |}.

Definition set_medium_thread (t : Thread TierPC) (e : Engine) : Engine :=
  {| output_path_ := output_path_ e;
     board_ := board_ e;
     config_ := config_ e;
     fast_thread_ := fast_thread_ e;
     medium_thread_ := t;
     slow_thread_ := slow_thread_ e;
     running_ := running_ e;
     warmed_up_ := warmed_up_ e;
     fast_count_ := fast_count_ e;
     sync_points_ := sync_points_ e;
     fast_samples_ := fast_samples_ e;
     medium_samples_ := medium_samples_ e;
     slow_samples_ := slow_samples_ e;
     t0_s_ := t0_s_ e;
     fd_gpu_load_ := fd_gpu_load_ e;
     fd_proc_stat_ := fd_proc_stat_ e;
     fd_meminfo_ := fd_meminfo_ e;
     fd_emc_ := fd_emc_ e;
     fd_voltage_ := fd_voltage_ e;
     fd_current_ := fd_current_ e;
     fd_thermal_ := fd_thermal_ e;
     prev_cpu_ := prev_cpu_ e |}.

Definition set_slow_thread (t : Thread TierPC) (e : Engine) : Engine :=
  {| output_path_ := output_path_ e;
     board_ := board_ e;
     config_ := config_ e;
     fast_thread_ := fast_thread_ e;
     medium_thread_ := medium_thread_ e;
     slow_thread_ := t;
     running_ := running_ e;
     warmed_up_ := warmed_up_ e;
     fast_count_ := fast_count_ e;
     sync_points_ := sync_points_ e;
     fast_samples_ := fast_samples_ e;
     medium_samples_ := medium_samples_ e;
     slow_samples_ := slow_samples_ e;
     t0_s_ := t0_s_ e;
     fd_gpu_load_ := fd_gpu_load_ e;
     fd_proc_stat_ := fd_proc_stat_ e;
     fd_meminfo_ := fd_meminfo_ e;
     fd_emc_ := fd_emc_ e;
     fd_voltage_ := fd_voltage_ e;
     fd_current_ := fd_current_ e;
     fd_thermal_ := fd_thermal_ e;
     prev_cpu_ := prev_cpu_ e |}.

Definition set_running (b : bool) (e : Engine) : Engine :=
  {| output_path_ := output_path_ e;
     board_ := board_ e;
     config_ := config_ e;
     fast_thread_ := fast_thread_ e;
     medium_thread_ := medium_thread_ e;
     slow_thread_ := slow_thread_ e;
     running_ := b;
     warmed_up_ := warmed_up_ e;
     fast_count_ := fast_count_ e;
     sync_points_ := sync_points_ e;
     fast_samples_ := fast_samples_ e;
     medium_samples_ := medium_samples_ e;
     slow_samples_ := slow_samples_ e;
     t0_s_ := t0_s_ e;
     fd_gpu_load_ := fd_gpu_load_ e;
     fd_proc_stat_ := fd_proc_stat_ e;
     fd_meminfo_ := fd_meminfo_ e;
     fd_emc_ := fd_emc_ e;
     fd_voltage_ := fd_voltage_ e;
     fd_current_ := fd_current_ e;
     fd_thermal_ := fd_thermal_ e;
     prev_cpu_ := prev_cpu_ e |}.

Definition set_warmed_up (b : bool) (e : Engine) : Engine :=
  {| output_path_ := output_path_ e;
     board_ := board_ e;
     config_ := config_ e;
     fast_thread_ := fast_thread_ e;
     medium_thread_ := medium_thread_ e;
     slow_thread_ := slow_thread_ e;
     running_ := running_ e;
     warmed_up_ := b;
     fast_count_ := fast_count_ e;
     sync_points_ := sync_points_ e;
     fast_samples_ := fast_samples_ e;
     medium_samples_ := medium_samples_ e;
     slow_samples_ := slow_samples_ e;
     t0_s_ := t0_s_ e;
     fd_gpu_load_ := fd_gpu_load_ e;
     fd_proc_stat_ := fd_proc_stat_ e;
     fd_meminfo_ := fd_meminfo_ e;
     fd_emc_ := fd_emc_ e;
     fd_voltage_ := fd_voltage_ e;
     fd_current_ := fd_current_ e;
     fd_thermal_ := fd_thermal_ e;
     prev_cpu_ := prev_cpu_ e |}.

(** [sync_points_.push_back(p)] *)
Definition push_sync (p : SyncPoint) (e : Engine) : Engine :=
  {| output_path_ := output_path_ e;
     board_ := board_ e;
     config_ := config_ e;
     fast_thread_ := fast_thread_ e;
     medium_thread_ := medium_thread_ e;
     slow_thread_ := slow_thread_ e;
     running_ := running_ e;
     warmed_up_ := warmed_up_ e;
     fast_count_ := fast_count_ e;
     sync_points_ := sync_points_ e ++ [p];
     fast_samples_ := fast_samples_ e;
     medium_samples_ := medium_samples_ e;
     slow_samples_ := slow_samples_ e;
     t0_s_ := t0_s_ e;
     fd_gpu_load_ := fd_gpu_load_ e;
     fd_proc_stat_ := fd_proc_stat_ e;
     fd_meminfo_ := fd_meminfo_ e;
     fd_emc_ := fd_emc_ e;
     fd_voltage_ := fd_voltage_ e;
     fd_current_ := fd_current_ e;
     fd_thermal_ := fd_thermal_ e;
     prev_cpu_ := prev_cpu_ e |}.

(** [fast_samples_.push_back(s); fast_count_.fetch_add(1)], with the
    [prev_cpu_] that [read_cpu] left while [s] was filled. *)
Definition push_fast (s : FastSample) (prev : list CpuJiffies) (e : Engine) : Engine :=
  {| output_path_ := output_path_ e;
     board_ := board_ e;
     config_ := config_ e;
     fast_thread_ := fast_thread_ e;
     medium_thread_ := medium_thread_ e;
     slow_thread_ := slow_thread_ e;
     running_ := running_ e;
     warmed_up_ := warmed_up_ e;
     fast_count_ := Int.u64 (fast_count_ e + 1);
     sync_points_ := sync_points_ e;
     fast_samples_ := fast_samples_ e ++ [s];
     medium_samples_ := medium_samples_ e;
     slow_samples_ := slow_samples_ e;
     t0_s_ := t0_s_ e;
     fd_gpu_load_ := fd_gpu_load_ e;
     fd_proc_stat_ := fd_proc_stat_ e;
     fd_meminfo_ := fd_meminfo_ e;
     fd_emc_ := fd_emc_ e;
     fd_voltage_ := fd_voltage_ e;
     fd_current_ := fd_current_ e;
     fd_thermal_ := fd_thermal_ e;
     prev_cpu_ := prev |}.

(** [medium_samples_.push_back(s)] *)
Definition push_medium (s : MediumSample) (e : Engine) : Engine :=
  {| output_path_ := output_path_ e;
     board_ := board_ e;
     config_ := config_ e;
     fast_thread_ := fast_thread_ e;
     medium_thread_ := medium_thread_ e;
     slow_thread_ := slow_thread_ e;
     running_ := running_ e;
     warmed_up_ := warmed_up_ e;
     fast_count_ := fast_count_ e;
     sync_points_ := sync_points_ e;
     fast_samples_ := fast_samples_ e;
     medium_samples_ := medium_samples_ e ++ [s];
     slow_samples_ := slow_samples_ e;
     t0_s_ := t0_s_ e;
     fd_gpu_load_ := fd_gpu_load_ e;
     fd_proc_stat_ := fd_proc_stat_ e;
     fd_meminfo_ := fd_meminfo_ e;
     fd_emc_ := fd_emc_ e;
     fd_voltage_ := fd_voltage_ e;
     fd_current_ := fd_current_ e;
     fd_thermal_ := fd_thermal_ e;
     prev_cpu_ := prev_cpu_ e |}.

(** [slow_samples_.push_back(s)] *)
Definition push_slow (s : SlowSample) (e : Engine) : Engine :=
  {| output_path_ := output_path_ e;
     board_ := board_ e;
     config_ := config_ e;
     fast_thread_ := fast_thread_ e;
     medium_thread_ := medium_thread_ e;
     slow_thread_ := slow_thread_ e;
     running_ := running_ e;
     warmed_up_ := warmed_up_ e;
     fast_count_ := fast_count_ e;
     sync_points_ := sync_points_ e;
     fast_samples_ := fast_samples_ e;
     medium_samples_ := medium_samples_ e;
     slow_samples_ := slow_samples_ e ++ [s];
     t0_s_ := t0_s_ e;
     fd_gpu_load_ := fd_gpu_load_ e;
     fd_proc_stat_ := fd_proc_stat_ e;
     fd_meminfo_ := fd_meminfo_ e;
     fd_emc_ := fd_emc_ e;
     fd_voltage_ := fd_voltage_ e;
     fd_current_ := fd_current_ e;
     fd_thermal_ := fd_thermal_ e;
     prev_cpu_ := prev_cpu_ e |}.

(** The assignments to the descriptor members. *)
Definition set_fds (gpu stat mem emc : Z) (fdv fdc fdt : list Z) (e : Engine)
  : Engine :=
  {| output_path_ := output_path_ e;
     board_ := board_ e;
     config_ := config_ e;
     fast_thread_ := fast_thread_ e;
     medium_thread_ := medium_thread_ e;
     slow_thread_ := slow_thread_ e;
     running_ := running_ e;
     warmed_up_ := warmed_up_ e;
     fast_count_ := fast_count_ e;
     sync_points_ := sync_points_ e;
     fast_samples_ := fast_samples_ e;
     medium_samples_ := medium_samples_ e;
     slow_samples_ := slow_samples_ e;
     t0_s_ := t0_s_ e;
     fd_gpu_load_ := gpu;
     fd_proc_stat_ := stat;
     fd_meminfo_ := mem;
     fd_emc_ := emc;
     fd_voltage_ := fdv;
     fd_current_ := fdc;
     fd_thermal_ := fdt;
     prev_cpu_ := prev_cpu_ e |}.

(** [sample_count()] and [is_running()] *)
Definition sample_count (e : Engine) : Z := fast_count_ e.
Definition is_running (e : Engine) : bool := running_ e.

(** Modelled from the spec: [engine.cpp] uses the member [fd_emc_], which the
    header under [include/] does not declare; it is taken to be a descriptor
    like the others (a handle that is absent until [start] opens it), so its
    initial value is -1. *)
Definition fd_emc_initial : Z := -1.

(** [Engine::Engine(output_path, board, config)]: the checks of the
    constructor body on the copied [board_], after the members took their
    default values. *)
Definition Engine_new (output_path : string) (board : BoardConfig)
    (config : EngineConfig) : Exception + Engine :=
  if (num_cpu_cores board <=? 0) || (MAX_CPU_CORES <? num_cpu_cores board) then
    inl (invalid_argument "num_cpu_cores must be 1–16")
  else if MAX_POWER_RAILS <? Int.i32 (Z.of_nat (length (power_rails board))) then
    inl (invalid_argument "Too many power rails (max 8)")
  else if MAX_THERMAL_ZONES <? Int.i32 (Z.of_nat (length (thermal_zones board))) then
    inl (invalid_argument "Too many thermal zones (max 16)")
  else
    inr {| output_path_ := output_path;
           board_ := board;
           config_ := config;
           fast_thread_ := NoThread;
           medium_thread_ := NoThread;
           slow_thread_ := NoThread;
           running_ := false;
           warmed_up_ := false;
           fast_count_ := 0;
           sync_points_ := [];
           fast_samples_ := [];
           medium_samples_ := [];
           slow_samples_ := [];
           t0_s_ := F64.zero;
           fd_gpu_load_ := -1;
           fd_proc_stat_ := -1;
           fd_meminfo_ := -1;
           fd_emc_ := fd_emc_initial;
           fd_voltage_ := [];
           fd_current_ := [];
           fd_thermal_ := [];
           prev_cpu_ := [] |}.

(** [sync()]: the id returned and the engine afterwards. *)
Definition sync (e : Engine) : Z * Engine :=
  let id := Int.u64 (Z.of_nat (length (sync_points_ e)) + 1) in
  (id, push_sync {| sync_id := id; fast_sample_idx := fast_count_ e |} e).

(** The predicate on which [wait_for_warmup()] waits: the call returns once
    it holds, and blocks as long as it does not. *)
Definition warmup_released (e : Engine) : bool := warmed_up_ e.

(** ** The operating system *)

(** The descriptors that are open in the process, the number [open] hands
    out next, and the files written so far. *)
Record World := {
  open_fds : gset Z;
  next_fd : nat;
  files : gmap string (list Z)
}.

(** [open(path, O_RDONLY)] where [readable] tells whether the call
    succeeds. *)
Definition os_open (readable : string -> bool) (path : string) (w : World)
  : Z * World :=
  if readable path
  then (Z.of_nat (next_fd w),
        {| open_fds := {[ Z.of_nat (next_fd w) ]} ∪ open_fds w;
           next_fd := S (next_fd w);
           files := files w |})
  else (-1, w).

(** [close(fd)] *)
Definition os_close (fd : Z) (w : World) : World :=
  {| open_fds := open_fds w ∖ {[ fd ]}; next_fd := next_fd w; files := files w |}.

(** The lambda [try_open] of [open_fds]. *)
Definition try_open (readable : string -> bool) (path : string) (w : World)
  : Z * World :=
  if String.eqb path "" then (-1, w) else os_open readable path w.

(** The lambda [try_close] of [close_fds]: the descriptor afterwards. *)
Definition try_close (fd : Z) (w : World) : Z * World :=
  if 0 <=? fd then (-1, os_close fd w) else (fd, w).

(** [try_open] over the paths of a vector, pushing each descriptor. *)
Fixpoint open_all (readable : string -> bool) (paths : list string)
    (fds : list Z) (w : World) : list Z * World :=
  match paths with
  | [] => (fds, w)
  | p :: ps => let '(fd, w) := try_open readable p w in
               open_all readable ps (fds ++ [fd]) w
  end.

(** The loop over the rails pushes a voltage and a current descriptor in
    turn. *)
Fixpoint open_rails (readable : string -> bool) (rails : list PowerRailConfig)
    (fdv fdc : list Z) (w : World) : list Z * list Z * World :=
  match rails with
  | [] => (fdv, fdc, w)
  | r :: rs =>
      let '(v, w) := try_open readable (voltage_path r) w in
      let '(c, w) := try_open readable (current_path r) w in
      open_rails readable rs (fdv ++ [v]) (fdc ++ [c]) w
  end.

(** [try_close] over a vector. *)
Fixpoint close_all (fds : list Z) (w : World) : list Z * World :=
  match fds with
  | [] => ([], w)
  | fd :: r => let '(fd', w) := try_close fd w in
               let '(r', w) := close_all r w in
               (fd' :: r', w)
  end.

(** [open_fds()] *)
Definition do_open_fds (readable : string -> bool) (e : Engine) (w : World)
  : Engine * World :=
  let '(gpu, w) := try_open readable (gpu_load_path (board_ e)) w in
  let '(stat, w) := try_open readable "/proc/stat" w in
  let '(mem, w) := try_open readable "/proc/meminfo" w in
  let '(emc, w) := try_open readable (emc_actmon_path (board_ e)) w in
  let '(fdv, fdc, w) :=
    open_rails readable (power_rails (board_ e)) (fd_voltage_ e) (fd_current_ e) w in
  let '(fdt, w) :=
    open_all readable (temp_path <$> thermal_zones (board_ e)) (fd_thermal_ e) w in
  (set_fds gpu stat mem emc fdv fdc fdt e, w).

(** [close_fds()] *)
Definition close_fds (e : Engine) (w : World) : Engine * World :=
  let '(gpu, w) := try_close (fd_gpu_load_ e) w in
  let '(stat, w) := try_close (fd_proc_stat_ e) w in
  let '(mem, w) := try_close (fd_meminfo_ e) w in
  let '(emc, w) := try_close (fd_emc_ e) w in
  let '(_, w) := close_all (fd_voltage_ e) w in
  let '(_, w) := close_all (fd_current_ e) w in
  let '(_, w) := close_all (fd_thermal_ e) w in
  (set_fds gpu stat mem emc [] [] [] e, w).

(** The stores and [clear()] calls with which [start()] begins. *)
Definition start_reset (e : Engine) : Engine :=
  {| output_path_ := output_path_ e;
     board_ := board_ e;
     config_ := config_ e;
     fast_thread_ := fast_thread_ e;
     medium_thread_ := medium_thread_ e;
     slow_thread_ := slow_thread_ e;
     running_ := true;
     warmed_up_ := false;
     fast_count_ := 0;
     sync_points_ := [];
     fast_samples_ := [];
     medium_samples_ := [];
     slow_samples_ := [];
     t0_s_ := t0_s_ e;
     fd_gpu_load_ := fd_gpu_load_ e;
     fd_proc_stat_ := fd_proc_stat_ e;
     fd_meminfo_ := fd_meminfo_ e;
     fd_emc_ := fd_emc_ e;
     fd_voltage_ := fd_voltage_ e;
     fd_current_ := fd_current_ e;
     fd_thermal_ := fd_thermal_ e;
     prev_cpu_ := prev_cpu_ e |}.

(** The end of [start()]: [prev_cpu_.assign], [t0_s_], and the three
    threads. *)
Definition start_spawn (env : Env) (e : Engine) : Engine :=
  {| output_path_ := output_path_ e;
     board_ := board_ e;
     config_ := config_ e;
     fast_thread_ := Running (FPrimer 0);
     medium_thread_ := Running TWait;
     slow_thread_ := Running TWait;
     running_ := running_ e;
     warmed_up_ := warmed_up_ e;
     fast_count_ := fast_count_ e;
     sync_points_ := sync_points_ e;
     fast_samples_ := fast_samples_ e;
     medium_samples_ := medium_samples_ e;
     slow_samples_ := slow_samples_ e;
     t0_s_ := monotonic_s env;
     fd_gpu_load_ := fd_gpu_load_ e;
     fd_proc_stat_ := fd_proc_stat_ e;
     fd_meminfo_ := fd_meminfo_ e;
     fd_emc_ := fd_emc_ e;
     fd_voltage_ := fd_voltage_ e;
     fd_current_ := fd_current_ e;
     fd_thermal_ := fd_thermal_ e;
     prev_cpu_ := replicate (Z.to_nat (num_cpu_cores (board_ e))) CpuJiffies0 |}.

(** ** Taking samples *)

(** The reads of a tick of [run_fast], from [FastSample s{}] to
    [s.emc_util = read_emc()]: the sample, and the values [read_cpu] leaves
    in [prev_cpu_]. *)
Definition read_fast_sample (env : Env) (e : Engine)
  : FastSample * list CpuJiffies :=
  let t := F64.sub (monotonic_s env) (t0_s_ e) in
  let gpu := read_gpu_load env (fd_gpu_load_ e) in
  let '(cpu, agg, prev) :=
    read_cpu env (fd_proc_stat_ e) (num_cpu_cores (board_ e)) (prev_cpu_ e)
             (cpu_util FastSample0) in
  let '(used, avail) := read_ram env (fd_meminfo_ e) in
  let emc := read_emc env (fd_emc_ e) in
  ({| time_s := t; gpu_load := gpu; cpu_util := cpu;
      cpu_aggregate := agg; ram_used_kb := used;
      ram_available_kb := avail; emc_util := emc |}, prev).

(** The body of the loops of [run_fast] up to the sleep. *)
Definition take_fast_sample (env : Env) (e : Engine) : Engine :=
  let '(s, prev) := read_fast_sample env e in push_fast s prev e.

(** [static_cast<int>(v.size())] as a number of loop passes. *)
Definition int_size {A} (v : list A) : nat := Z.to_nat (Int.i32 (Z.of_nat (length v))).

(** The body of the loop of [run_medium] up to the sleep. *)
Definition take_medium_sample (env : Env) (e : Engine) : Engine :=
  let s0 := {| m_time_s := F64.sub (monotonic_s env) (t0_s_ e);
               voltage_mv := voltage_mv MediumSample0;
               current_ma := current_ma MediumSample0;
               power_mw := power_mw MediumSample0 |} in
  push_medium (read_power env (fd_voltage_ e) (fd_current_ e)
                 (int_size (power_rails (board_ e))) s0) e.

(** The body of the loop of [run_slow] up to the sleep. *)
Definition take_slow_sample (env : Env) (e : Engine) : Engine :=
  push_slow {| s_time_s := F64.sub (monotonic_s env) (t0_s_ e);
               temp_c := read_thermals env (fd_thermal_ e)
                           (int_size (thermal_zones (board_ e)))
                           (temp_c SlowSample0) |} e.

(** ** The trace file *)

Definition MAGIC : Z := 0x4E564D54.
Definition VERSION : Z := 1.

(** The [n] bytes of an unsigned integer, least significant first. *)
Fixpoint le_bytes (n : nat) (z : Z) : list Z :=
  match n with
  | O => []
  | S n' => z mod 256 :: le_bytes n' (z / 256)
  end.

Definition f32_bytes (x : F32.t) : list Z := le_bytes 4 (F32.bits x).
Definition f64_bytes (x : F64.t) : list Z := le_bytes 8 (F64.bits x).

(** The packed structs as they lie in memory. *)
Definition FastSample_bytes (s : FastSample) : list Z :=
  f64_bytes (time_s s) ++ le_bytes 2 (gpu_load s)
  ++ concat (f32_bytes <$> cpu_util s) ++ f32_bytes (cpu_aggregate s)
  ++ le_bytes 8 (ram_used_kb s) ++ le_bytes 8 (ram_available_kb s)
  ++ f32_bytes (emc_util s).

Definition MediumSample_bytes (s : MediumSample) : list Z :=
  f64_bytes (m_time_s s) ++ concat (le_bytes 4 <$> voltage_mv s)
  ++ concat (le_bytes 4 <$> current_ma s) ++ concat (f32_bytes <$> power_mw s).

Definition SlowSample_bytes (s : SlowSample) : list Z :=
  f64_bytes (s_time_s s) ++ concat (f32_bytes <$> temp_c s).

Definition SyncPoint_bytes (p : SyncPoint) : list Z :=
  le_bytes 8 (sync_id p) ++ le_bytes 8 (fast_sample_idx p).

(** [struct FileHeader], 728 bytes. *)
Module Header.

Record t := {
  magic : Z;                              (* uint32_t *)
  version : Z;                            (* uint32_t *)
  board_name : list Z;                    (* char[32] *)
  num_cpu_cores : Z;                      (* uint8_t *)
  num_power_rails : Z;                    (* uint8_t *)
  num_thermal_zones : Z;                  (* uint8_t *)
  emc_available : Z;                      (* uint8_t *)
  fast_hz : Z;                            (* uint32_t *)
  medium_hz : Z;                          (* uint32_t *)
  slow_hz : Z;                            (* uint32_t *)
  num_fast_samples : Z;                   (* uint64_t *)
  num_medium_samples : Z;                 (* uint64_t *)
  num_slow_samples : Z;                   (* uint64_t *)
  num_sync_points : Z;                    (* uint64_t *)
  power_rail_names : list (list Z);       (* char[MAX_POWER_RAILS][24] *)
  thermal_zone_names : list (list Z);     (* char[MAX_THERMAL_ZONES][24] *)
  reserved : list Z                       (* uint8_t[64] *)
}.

Definition bytes (h : t) : list Z :=
  le_bytes 4 (magic h) ++ le_bytes 4 (version h) ++ board_name h
  ++ le_bytes 1 (num_cpu_cores h) ++ le_bytes 1 (num_power_rails h)
  ++ le_bytes 1 (num_thermal_zones h) ++ le_bytes 1 (emc_available h)
  ++ le_bytes 4 (fast_hz h) ++ le_bytes 4 (medium_hz h) ++ le_bytes 4 (slow_hz h)
  ++ le_bytes 8 (num_fast_samples h) ++ le_bytes 8 (num_medium_samples h)
  ++ le_bytes 8 (num_slow_samples h) ++ le_bytes 8 (num_sync_points h)
  ++ concat (power_rail_names h) ++ concat (thermal_zone_names h)
  ++ reserved h.

End Header.

(** [strncpy(dst, src, n)]: the first [n] characters of the C string [src],
    padded with NULs up to [n]; the rest of [dst] stays. *)
Definition strncpy (dst src : list Z) (n : nat) : list Z :=
  take n (c_str src ++ replicate n 0) ++ drop n dst.

(** [for (size_t i = 0; i < names.size(); ++i) strncpy(table[i], names[i], 23);]
    from index [i] on.  A slot beyond the table lies outside the array; the
    bounds the constructor checks keep the loops of [write_file] inside. *)
Fixpoint copy_names (i : nat) (names : list string) (table : list (list Z))
  : list (list Z) :=
  match names with
  | [] => table
  | n :: ns =>
      copy_names (S i) ns
        (<[i := strncpy (nth i table []) (bytes_of n) 23]> table)
  end.

(** The header [write_file] builds from a zeroed [FileHeader]. *)
Definition build_header (e : Engine) : Header.t :=
  {| Header.magic := MAGIC;
     Header.version := VERSION;
     Header.board_name :=
       strncpy (replicate 32 0) (bytes_of (board_name (board_ e))) 31;
     Header.num_cpu_cores := Int.u8 (num_cpu_cores (board_ e));
     Header.num_power_rails := Int.u8 (Z.of_nat (length (power_rails (board_ e))));
     Header.num_thermal_zones := Int.u8 (Z.of_nat (length (thermal_zones (board_ e))));
     Header.emc_available := if 0 <=? fd_emc_ e then 1 else 0;
     Header.fast_hz := fast_hz (config_ e);
     Header.medium_hz := medium_hz (config_ e);
     Header.slow_hz := slow_hz (config_ e);
     Header.num_fast_samples := Z.of_nat (length (fast_samples_ e));
     Header.num_medium_samples := Z.of_nat (length (medium_samples_ e));
     Header.num_slow_samples := Z.of_nat (length (slow_samples_ e));
     Header.num_sync_points := Z.of_nat (length (sync_points_ e));
     Header.power_rail_names :=
       copy_names 0 (label <$> power_rails (board_ e))
                  (replicate 8 (replicate 24 0));
     Header.thermal_zone_names :=
       copy_names 0 (name <$> thermal_zones (board_ e))
                  (replicate 16 (replicate 24 0));
     Header.reserved := replicate 64 0 |}.

(** [fwrite(data, size, count, fp)] appends to what the stream holds. *)
Definition fwrite (data : list Z) (fp : list Z) : list Z := fp ++ data.

(** What [write_file] sends through the stream it opened. *)
Definition file_image (e : Engine) : list Z :=
  let fp := [] in
  let fp := fwrite (Header.bytes (build_header e)) fp in
  let fp := fwrite (concat (FastSample_bytes <$> fast_samples_ e)) fp in
  let fp := fwrite (concat (MediumSample_bytes <$> medium_samples_ e)) fp in
  let fp := fwrite (concat (SlowSample_bytes <$> slow_samples_ e)) fp in
  let fp := fwrite (concat (SyncPoint_bytes <$> sync_points_ e)) fp in
  fp.

(** [write_file()], where [can_create] tells whether [fopen(path, "wb")]
    succeeds: the exception thrown, or the world with the file. *)
Definition write_file (can_create : bool) (e : Engine) (w : World)
  : Exception + World :=
  if can_create
  then inr {| open_fds := open_fds w; next_fd := next_fd w;
              files := <[output_path_ e := file_image e]> (files w) |}
  else inl (runtime_error ("Cannot open " ++ output_path_ e)).

(** ** The engine at work

    A system is the engine, the operating system, and where the thread that
    drives the engine stands inside [stop()], if it is inside.  [start],
    [stop] and the destructor are called from that one thread; [sync] and
    [wait_for_warmup] may be called from any thread. *)

(** The blocking points of [stop()] after the store to [running_]: the three
    joins, and the part from [write_file()] on. *)
Inductive StopPC :=
  | JoinFast
  | JoinMedium
  | JoinSlow
  | WriteClose.

Record System := {
  engine : Engine;
  os : World;
  stopping : option StopPC
}.

Definition with_engine (e : Engine) (s : System) : System :=
  {| engine := e; os := os s; stopping := stopping s |}.

(** What a step lets its caller see. *)
Inductive Event :=
  | Silent
  | StartReturned
  | StopReturned
  | SyncReturned (id : Z)
  | WaitReturned
  | Threw (e : Exception).

(** The steps: calls of the public functions, the continuation of a [stop()]
    under way, and one step of a sampling thread.  A step carries what the
    operating system answers while it is taken. *)
Inductive Label :=
  | CallStart (readable : string -> bool) (env : Env)
  | CallStop
  | StopStep (can_create : bool)
  | CallSync
  | CallWait
  | FastStep (env : Env)
  | MediumStep (env : Env)
  | SlowStep (env : Env).

(** [start()].  With a thread still joinable the assignment to the
    [std::thread] member ends the program ([std::terminate]): no next
    state. *)
Definition start (readable : string -> bool) (env : Env) (s : System)
  : option (System * Event) :=
  let e := engine s in
  if running_ e then Some (s, Threw (runtime_error "Engine already running"))
  else if joinable (fast_thread_ e) || joinable (medium_thread_ e)
          || joinable (slow_thread_ e) then None
  else
    let '(e, w) := do_open_fds readable (start_reset e) (os s) in
    Some ({| engine := start_spawn env e; os := w; stopping := stopping s |},
          StartReturned).

(** [1'000'000'000L / hz] for a rate of type [uint32_t]: the division is
    made in [long] and has no value for the rate 0, where it ends the
    program (a division by zero, SIGFPE on the target). *)
Definition NSEC_PER_SEC : Z := 1000000000.

Definition interval_ns (hz : Z) : option Z :=
  if Int.u32 hz =? 0 then None else Some (Z.quot NSEC_PER_SEC (Int.u32 hz)).

(** The division a sampling thread makes before its loop has no value. *)
Definition no_interval (hz : Z) : bool :=
  match interval_ns hz with
  | None => true
  | Some _ => false
  end.

(** One step of [run_fast]: a pass of the warmup loop or its exit, the block
    that publishes [warmed_up_] (the [notify_all] wakes the waiters, which
    then find their predicate true), a pass of the main loop or its exit.
    The first step of the thread begins with [interval_ns = 1'000'000'000L /
    config_.fast_hz]: for the rate 0 the thread takes no step, and nothing
    of the program runs on. *)
Definition fast_step (env : Env) (e : Engine) : option Engine :=
  match fast_thread_ e with
  | Running (FPrimer i) =>
      if (i =? 0)%nat && no_interval (fast_hz (config_ e)) then None
      else if (i <? 10)%nat && running_ e
      then Some (set_fast_thread (Running (FPrimer (S i))) (take_fast_sample env e))
      else Some (set_fast_thread (Running FPublish) e)
  | Running FPublish =>
      Some (set_fast_thread (Running FMain) (set_warmed_up true e))
  | Running FMain =>
      if running_ e then Some (take_fast_sample env e)
      else Some (set_fast_thread Finished e)
  | _ => None
  end.

(** Whether the next step of the fast thread is a tick: a pass of one of its
    two loops, which reads the sensors and records a sample. *)
Definition takes_sample (e : Engine) : bool :=
  match fast_thread_ e with
  | Running (FPrimer i) => (i <? 10)%nat && running_ e
  | Running FMain => running_ e
  | _ => false
  end.

(** One step of [run_medium]: it leaves [wait_for_warmup] when the predicate
    holds and is blocked before; then a pass of the loop or its exit.  The
    step that leaves the wait goes on to [interval_ns = 1'000'000'000L /
    config_.medium_hz], which for the rate 0 ends the program. *)
Definition medium_step (env : Env) (e : Engine) : option Engine :=
  match medium_thread_ e with
  | Running TWait =>
      if warmup_released e
      then if no_interval (medium_hz (config_ e)) then None
           else Some (set_medium_thread (Running TLoop) e)
      else None
  | Running TLoop =>
      if running_ e then Some (take_medium_sample env e)
      else Some (set_medium_thread Finished e)
  | _ => None
  end.

(** One step of [run_slow], with [config_.slow_hz]. *)
Definition slow_step (env : Env) (e : Engine) : option Engine :=
  match slow_thread_ e with
  | Running TWait =>
      if warmup_released e
      then if no_interval (slow_hz (config_ e)) then None
           else Some (set_slow_thread (Running TLoop) e)
      else None
  | Running TLoop =>
      if running_ e then Some (take_slow_sample env e)
      else Some (set_slow_thread Finished e)
  | _ => None
  end.

(** [if (t.joinable()) t.join();]: nothing to do without a thread, blocked
    while the thread runs. *)
Definition join {PC} (t : Thread PC) : option (Thread PC) :=
  match t with
  | NoThread => Some NoThread
  | Finished => Some NoThread
  | Running _ => None
  end.

(** The entry of [stop()]: the store to [running_]. *)
Definition stop_begin (s : System) : System :=
  {| engine := set_running false (engine s); os := os s;
     stopping := Some JoinFast |}.

(** The end of [stop()]: [write_file(); close_fds();].  The exception of
    [write_file] leaves [stop()] at once. *)
Definition stop_finish (can_create : bool) (s : System) : System * Event :=
  match write_file can_create (engine s) (os s) with
  | inl exn => ({| engine := engine s; os := os s; stopping := None |}, Threw exn)
  | inr w =>
      let '(e, w) := close_fds (engine s) w in
      ({| engine := e; os := w; stopping := None |}, StopReturned)
  end.

(** The next step of a [stop()] that stands at [pc]. *)
Definition stop_step (can_create : bool) (pc : StopPC) (s : System)
  : option (System * Event) :=
  let e := engine s in
  match pc with
  | JoinFast =>
      t ← join (fast_thread_ e);
      Some ({| engine := set_fast_thread t e; os := os s;
               stopping := Some JoinMedium |}, Silent)
  | JoinMedium =>
      t ← join (medium_thread_ e);
      Some ({| engine := set_medium_thread t e; os := os s;
               stopping := Some JoinSlow |}, Silent)
  | JoinSlow =>
      t ← join (slow_thread_ e);
      Some ({| engine := set_slow_thread t e; os := os s;
               stopping := Some WriteClose |}, Silent)
  | WriteClose => Some (stop_finish can_create s)
  end.

(** The step function: [None] when the step cannot be taken (a blocked
    thread, a call the driving thread cannot make where it stands). *)
Definition step (l : Label) (s : System) : option (System * Event) :=
  match l with
  | CallStart readable env =>
      match stopping s with
      | None => start readable env s
      | Some _ => None
      end
  | CallStop =>
      match stopping s with
      | None => Some (stop_begin s, Silent)
      | Some _ => None
      end
  | StopStep can_create =>
      pc ← stopping s; stop_step can_create pc s
  | CallSync =>
      let '(id, e) := sync (engine s) in Some (with_engine e s, SyncReturned id)
  | CallWait =>
      if warmup_released (engine s) then Some (s, WaitReturned) else None
  | FastStep env =>
      e ← fast_step env (engine s); Some (with_engine e s, Silent)
  | MediumStep env =>
      e ← medium_step env (engine s); Some (with_engine e s, Silent)
  | SlowStep env =>
      e ← slow_step env (engine s); Some (with_engine e s, Silent)
  end.

(** A run: the steps taken one after the other. *)
Fixpoint run (ls : list Label) (s : System) : option System :=
  match ls with
  | [] => Some s
  | l :: ls' =>
      match step l s with
      | Some (s', _) => run ls' s'
      | None => None
      end
  end.

(** The system right after the constructor returned [e]. *)
Definition boot (e : Engine) (w : World) : System :=
  {| engine := e; os := w; stopping := None |}.

(** A whole [stop()] on a system whose threads are not running: the entry,
    the three joins, the end. *)
Definition stop_now (can_create : bool) (s : System) : option (System * Event) :=
  match stopping s with
  | Some _ => None
  | None =>
      s1 ← fst <$> stop_step can_create JoinFast (stop_begin s);
      s2 ← fst <$> stop_step can_create JoinMedium s1;
      s3 ← fst <$> stop_step can_create JoinSlow s2;
      stop_step can_create WriteClose s3
  end.

(** ** Statements about the constructor *)

(** The bounds of the data model. *)
Definition board_in_bounds (b : BoardConfig) : Prop :=
  1 <= num_cpu_cores b <= 16
  /\ (length (power_rails b) <= 8)%nat
  /\ (length (thermal_zones b) <= 16)%nat.


(** ** Statements about the configuration *)

(** What the constructor fixed stays: the path, the board and the rates; and
    once the fast thread was started, [prev_cpu_] has one entry per core. *)
Definition config_inv (e0 e : Engine) : Prop :=
  output_path_ e = output_path_ e0 /\ board_ e = board_ e0
  /\ config_ e = config_ e0
  /\ (fast_thread_ e <> NoThread ->
      length (prev_cpu_ e) = Z.to_nat (num_cpu_cores (board_ e0))).

(** ** Statements about the buffers *)

(** The arrays of a sample have the sizes of their declarations. *)
Definition fast_ok (s : FastSample) : Prop := length (cpu_util s) = 16%nat.

Definition medium_ok (s : MediumSample) : Prop :=
  length (voltage_mv s) = 8%nat /\ length (current_ma s) = 8%nat
  /\ length (power_mw s) = 8%nat.

Definition slow_ok (s : SlowSample) : Prop := length (temp_c s) = 16%nat.

Definition buffers_ok (e : Engine) : Prop :=
  Forall fast_ok (fast_samples_ e) /\ Forall medium_ok (medium_samples_ e)
  /\ Forall slow_ok (slow_samples_ e).

(** ** Statements about sync points *)

(** What the engine keeps true of the counter and of the sync points:
    [fast_count_] is the size of the fast buffer as a 64-bit number; the ids
    count from 1 in the order of insertion; the indices do not exceed the
    size of the fast buffer and do not decrease. *)
Definition sync_inv (e : Engine) : Prop :=
  fast_count_ e = Int.u64 (Z.of_nat (length (fast_samples_ e)))
  /\ (Z.of_nat (length (sync_points_ e)) < 2 ^ 64 ->
      forall i p, sync_points_ e !! i = Some p -> sync_id p = Z.of_nat i + 1)
  /\ (Z.of_nat (length (fast_samples_ e)) < 2 ^ 64 ->
      (forall i p, sync_points_ e !! i = Some p ->
                   fast_sample_idx p <= Z.of_nat (length (fast_samples_ e)))
      /\ (forall i j pi pj, (i <= j)%nat ->
            sync_points_ e !! i = Some pi -> sync_points_ e !! j = Some pj ->
            fast_sample_idx pi <= fast_sample_idx pj)).

(** ** Statements about warmup *)

Definition is_start (l : Label) : bool :=
  match l with CallStart _ _ => true | _ => false end.

Definition is_fast_step (l : Label) : bool :=
  match l with FastStep _ => true | _ => false end.

Definition is_sync (l : Label) : bool :=
  match l with CallSync => true | _ => false end.

(** The steps of a list that satisfy a test. *)
Definition count_steps (f : Label -> bool) (ls : list Label) : nat :=
  length (filter (fun l => f l = true) ls).

(** A sampling thread that has not gone past its wait. *)
Definition not_past_wait (t : Thread TierPC) : Prop :=
  t = NoThread \/ t = Running TWait.

(** What the engine keeps true of the warmup: in the warmup loop the flag is
    down and the loop variable counts the samples; before the flag goes up
    there are ten samples unless [running_] is down; while the flag is down
    the fast thread, if there is one, has not published, and the other two
    have neither passed their wait nor sampled. *)
Definition warm_inv (e : Engine) : Prop :=
  (forall i, fast_thread_ e = Running (FPrimer i) ->
     warmed_up_ e = false /\ length (fast_samples_ e) = i /\ (i <= 10)%nat)
  /\ (fast_thread_ e = Running FPublish ->
        warmed_up_ e = false
        /\ (length (fast_samples_ e) = 10%nat \/ running_ e = false))
  /\ (warmed_up_ e = false ->
        fast_thread_ e <> Running FMain /\ fast_thread_ e <> Finished
        /\ not_past_wait (medium_thread_ e) /\ not_past_wait (slow_thread_ e)
        /\ medium_samples_ e = [] /\ slow_samples_ e = []).

(** The steps of the fast thread that are left before the flag is up. *)
Definition warm_distance (e : Engine) : nat :=
  if warmed_up_ e then 0%nat
  else match fast_thread_ e with
       | Running (FPrimer _) => 2%nat
       | Running FPublish => 1%nat
       | _ => 0%nat
       end.

(** An engine on which [start()] has not been called. *)
Definition never_started (e : Engine) : Prop :=
  fast_thread_ e = NoThread /\ medium_thread_ e = NoThread
  /\ slow_thread_ e = NoThread /\ running_ e = false /\ warmed_up_ e = false
  /\ fast_count_ e = 0 /\ fast_samples_ e = [] /\ medium_samples_ e = []
  /\ slow_samples_ e = [].

(** Along the steps [ls] from [s], [running_] is up in every state in which
    the flag is down: the run is not stopped during warmup. *)
Fixpoint never_cold_stop (ls : list Label) (s : System) : bool :=
  (warmed_up_ (engine s) || running_ (engine s))
  && match ls with
     | [] => true
     | l :: ls' =>
         match step l s with
         | Some (s', _) => never_cold_stop ls' s'
         | None => true
         end
     end.

(** What is true between the store of [stop()] to [running_] and the join
    of the fast thread: [running_] is down, and the flag is up or the fast
    thread is still before its publication. *)
Definition stopping_inv (e : Engine) : Prop :=
  running_ e = false
  /\ (warmed_up_ e = true
      \/ (exists i, fast_thread_ e = Running (FPrimer i))
      \/ fast_thread_ e = Running FPublish).

(** ** Statements about the life cycle *)

(** No sampling thread is left to join. *)
Definition joined (e : Engine) : Prop :=
  fast_thread_ e = NoThread /\ medium_thread_ e = NoThread
  /\ slow_thread_ e = NoThread.

(** A thread whose function has not returned. *)
Definition alive {PC} (t : Thread PC) : Prop := exists pc, t = Running pc.

(** What holds between [running_], the threads and a [stop()] under way:
    while [running_] is up no [stop()] is under way and the three threads
    are in their functions; a [stop()] under way has lowered [running_] and
    has joined the threads before the point where it stands. *)
Definition life_inv (s : System) : Prop :=
  (running_ (engine s) = true ->
   stopping s = None /\ alive (fast_thread_ (engine s))
   /\ alive (medium_thread_ (engine s)) /\ alive (slow_thread_ (engine s)))
  /\ match stopping s with
     | None => True
     | Some JoinFast => running_ (engine s) = false
     | Some JoinMedium =>
         running_ (engine s) = false /\ fast_thread_ (engine s) = NoThread
     | Some JoinSlow =>
         running_ (engine s) = false /\ fast_thread_ (engine s) = NoThread
         /\ medium_thread_ (engine s) = NoThread
     | Some WriteClose => running_ (engine s) = false /\ joined (engine s)
     end.

(** How the destructor ends: it returns, or the program is ended
    ([std::terminate]). *)
Inductive Destructor :=
  | DtorDone
  | DtorTerminates.

(** The members are destroyed after the body of the destructor; destroying
    a [std::thread] that is still joinable ends the program. *)
Definition destroy_members (e : Engine) : Destructor :=
  if joinable (fast_thread_ e) || joinable (medium_thread_ e)
     || joinable (slow_thread_ e) then DtorTerminates
  else DtorDone.

(** The steps [ls] of the program while a [stop()] is under way, up to the
    step that ends it, with the state and the event of that step; no answer
    when the steps do not bring [stop()] to its end. *)
Fixpoint stop_to_end (ls : list Label) (s : System) : option (System * Event) :=
  match ls with
  | [] => None
  | l :: ls' =>
      match step l s with
      | Some (s', ev) =>
          match stopping s' with
          | None => Some (s', ev)
          | Some _ => stop_to_end ls' s'
          end
      | None => None
      end
  end.

(** [~Engine()]: [if (running_) stop();], and then the members are
    destroyed.  The destructor is [noexcept], as every destructor that is
    not declared otherwise: an exception that leaves [stop()] ends the
    program.  [ls] are the steps taken while the destructor is inside
    [stop()], those of [stop()] and those of the threads it waits for. *)
Definition destructor (ls : list Label) (s : System) : option Destructor :=
  if running_ (engine s)
  then match stop_to_end ls (stop_begin s) with
       | Some (_, Threw _) => Some DtorTerminates
       | Some (s', _) => Some (destroy_members (engine s'))
       | None => None
       end
  else Some (destroy_members (engine s)).

(** With [running_] down and no [stop()] under way there is no thread. *)
Definition idle_inv (s : System) : Prop :=
  running_ (engine s) = false -> stopping s = None -> joined (engine s).

(** ** Statements about descriptors *)

(** The descriptor members of the engine, in the order of [close_fds]. *)
Definition held (e : Engine) : list Z :=
  [fd_gpu_load_ e; fd_proc_stat_ e; fd_meminfo_ e; fd_emc_ e]
  ++ fd_voltage_ e ++ fd_current_ e ++ fd_thermal_ e.

(** The descriptors among [fds] that stand for an open file. *)
Definition live (fds : list Z) : gset Z :=
  list_to_set (filter (fun fd => 0 <= fd) fds).

(** [open] hands out numbers above every descriptor that is open. *)
Definition world_ok (w : World) : Prop :=
  forall fd, fd ∈ open_fds w -> fd < Z.of_nat (next_fd w).

(** A step that is not held up by the output file: a [stop()] step taken
    where [fopen] of the output path succeeds, or any other step. *)
Definition writable (l : Label) : bool :=
  match l with
  | StopStep can_create => can_create
  | _ => true
  end.

(** What holds of the descriptors in a process that had [base] open when the
    engine was made: what is open is [base] and what the engine holds, the
    two apart; and an engine that is neither running nor inside [stop()]
    holds nothing. *)
Definition fd_inv (base : gset Z) (s : System) : Prop :=
  world_ok (os s)
  /\ open_fds (os s) = base ∪ live (held (engine s))
  /\ base ## live (held (engine s))
  /\ (running_ (engine s) = false -> stopping s = None ->
      live (held (engine s)) = ∅ /\ fd_voltage_ (engine s) = []
      /\ fd_current_ (engine s) = [] /\ fd_thermal_ (engine s) = []).

(** ** Statements about [/proc/meminfo] *)

(** Text inside a line: no NUL and no line feed. *)
Definition plain (l : list Z) : Prop := Forall (fun x => x <> 0 /\ x <> NL) l.

(** The line begins with the label. *)
Definition labelled (lit l : list Z) : Prop := take (length lit) l = lit.

(** A line of [/proc/meminfo] that [read_ram] passes over. *)
Definition other_line (l : list Z) : Prop :=
  plain l /\ ~ labelled (bytes_of "MemTotal:") l
  /\ ~ labelled (bytes_of "MemAvailable:") l.

(** Lines, each ended by a line feed. *)
Definition unlines (ls : list (list Z)) : list Z :=
  concat ((fun l => l ++ [NL]) <$> ls).

(** ** Statements about the values of the samples *)

(** A single-precision value that compares neither below 0 nor above 100. *)
Definition percent (x : F32.t) : Prop :=
  F32.ltb x F32.zero = false /\ F32.ltb (F32.of_Z 100) x = false.

(** A fast sample taken with [nc] cores: the GPU load is in 0..1000, every
    utilisation is a percentage, the slots of the cores the board does not
    have are 0.0, the two amounts of memory fit 64 bits, and the EMC
    utilisation is -1 or a percentage. *)
Definition fast_in_range (nc : nat) (s : FastSample) : Prop :=
  0 <= gpu_load s <= 1000
  /\ Forall percent (cpu_util s)
  /\ (forall i, (nc <= i < 16)%nat -> cpu_util s !! i = Some F32.zero)
  /\ 0 <= ram_used_kb s < 2 ^ 64 /\ 0 <= ram_available_kb s < 2 ^ 64
  /\ (emc_util s = F32.of_Z (-1) \/ percent (emc_util s)).

(** A medium sample taken with [nr] rails: the readings fit 32 bits, and the
    slots of the rails the board does not have are 0. *)
Definition medium_in_range (nr : nat) (s : MediumSample) : Prop :=
  Forall (fun v => 0 <= v < 2 ^ 32) (voltage_mv s)
  /\ Forall (fun c => 0 <= c < 2 ^ 32) (current_ma s)
  /\ (forall i, (nr <= i < 8)%nat ->
        voltage_mv s !! i = Some 0 /\ current_ma s !! i = Some 0
        /\ power_mw s !! i = Some F32.zero).

(** A slow sample taken with [nz] zones. *)
Definition slow_in_range (nz : nat) (s : SlowSample) : Prop :=
  forall i, (nz <= i < 16)%nat -> temp_c s !! i = Some F32.zero.

Definition range_inv (board : BoardConfig) (e : Engine) : Prop :=
  board_ e = board
  /\ Forall (fast_in_range (Z.to_nat (num_cpu_cores board))) (fast_samples_ e)
  /\ Forall (medium_in_range (int_size (power_rails board))) (medium_samples_ e)
  /\ Forall (slow_in_range (int_size (thermal_zones board))) (slow_samples_ e).

(** ** Statements about the file read back *)

(** The unsigned number that bytes in memory stand for on the little-endian
    target, as a reader of the file gets it from a field of the struct. *)
Definition le_value (bs : list Z) : Z := foldr (fun b acc => b + 256 * acc) 0 bs.

(** The field of [n] bytes at offset [off] of the file. *)
Definition field_at (off n : nat) (img : list Z) : Z :=
  le_value (take n (drop off img)).

(** ** The deadlines of the sampling loops *)

(** [struct timespec] *)
Record timespec := { tv_sec : Z; tv_nsec : Z }.

(** The [while] loop of [timespec_add_ns].  A pass lowers [tv_nsec] by a
    second, so [fuel] passes are enough whenever [fuel] exceeds the seconds
    held in [tv_nsec]; [None] stands for fuel used up or for a [tv_sec]
    that cannot be incremented. *)
Fixpoint timespec_carry (fuel : nat) (ts : timespec) : option timespec :=
  if NSEC_PER_SEC <=? tv_nsec ts then
    match fuel with
    | O => None
    | S fuel' =>
        if tv_sec ts <? Int.LONG_MAX
        then timespec_carry fuel'
               {| tv_sec := tv_sec ts + 1; tv_nsec := tv_nsec ts - NSEC_PER_SEC |}
        else None
    end
  else Some ts.

(** [timespec_add_ns(ts, ns)]; the sum is formed in [long], and a sum that
    does not fit has no defined value. *)
Definition timespec_add_ns (fuel : nat) (ts : timespec) (ns : Z)
  : option timespec :=
  let sum := tv_nsec ts + ns in
  if (Int.LONG_MIN <=? sum) && (sum <=? Int.LONG_MAX)
  then timespec_carry fuel {| tv_sec := tv_sec ts; tv_nsec := sum |}
  else None.

(** ** Board configurations ([config.cpp]) *)

(** What the configuration code asks of the machine: the content of a file
    that can be opened for reading, and whether [access(path, R_OK)]
    succeeds. *)
Record Host := {
  host_file : string -> option string;
  host_readable : string -> bool
}.

(** [std::getline(f, s, '\0')] on a fresh stream: the characters before the
    first NUL. *)
Fixpoint until_nul (s : string) : string :=
  match s with
  | EmptyString => EmptyString
  | String c r => if Ascii.eqb c "000" then EmptyString else String c (until_nul r)
  end.

(** [read_file_string(path)]: empty when the file cannot be opened. *)
Definition read_file_string (h : Host) (path : string) : string :=
  match host_file h path with
  | None => EmptyString
  | Some s => until_nul s
  end.

Definition path_readable (h : Host) (path : string) : bool := host_readable h path.

(** The lines [while (std::getline(f, line))] delivers for the rest [s] of
    a stream, [line] being what was read of the current line: a line ends at
    a line feed, and a last line without one is delivered if it is not
    empty. *)
Fixpoint getlines (s : string) (line : string) : list string :=
  match s with
  | EmptyString => match line with EmptyString => [] | _ => [line] end
  | String c r =>
      if Ascii.eqb c "010" then line :: getlines r EmptyString
      else getlines r (line ++ String c EmptyString)
  end.

(** The test of the loop of [count_cpu_cores]: at least 4 characters,
    [cpu], and a digit. *)
Definition is_cpu_line (line : string) : bool :=
  match line with
  | String "c" (String "p" (String "u" (String d _))) => is_digit (char_of d)
  | _ => false
  end.

(** [count_cpu_cores()]; the counter is an [int], which a file of fewer than
    2^31 lines cannot overflow. *)
Definition count_cpu_cores (h : Host) : Z :=
  match host_file h "/proc/stat" with
  | None => 0
  | Some s =>
      foldl (fun count line => if is_cpu_line line then count + 1 else count)
            0 (getlines s EmptyString)
  end.

Definition make_agx_orin : BoardConfig :=
  let h0 := "/sys/bus/i2c/drivers/ina3221/1-0040/hwmon/hwmon3" in
  let h1 := "/sys/bus/i2c/drivers/ina3221/1-0041/hwmon/hwmon4" in
  {| board_name := "agx_orin";
     num_cpu_cores := 12;
     gpu_load_path := "/sys/devices/platform/bus@0/17000000.gpu/load";
     emc_actmon_path := "/sys/kernel/debug/cactmon/mc_all";
     emc_clk_rate_path := "";
     power_rails :=
       [ {| label := "VDD_GPU_SOC"; voltage_path := h0 ++ "/in1_input";
            current_path := h0 ++ "/curr1_input" |};
         {| label := "VDD_CPU_CV"; voltage_path := h0 ++ "/in2_input";
            current_path := h0 ++ "/curr2_input" |};
         {| label := "VIN_SYS_5V0"; voltage_path := h0 ++ "/in3_input";
            current_path := h0 ++ "/curr3_input" |} ]
       ++ [ {| label := "VDDQ_VDD2_1V8AO"; voltage_path := h1 ++ "/in2_input";
               current_path := h1 ++ "/curr2_input" |} ];
     thermal_zones :=
       [ {| name := "cpu-thermal"; temp_path := "/sys/class/thermal/thermal_zone0/temp" |};
         {| name := "gpu-thermal"; temp_path := "/sys/class/thermal/thermal_zone1/temp" |};
         {| name := "cv0-thermal"; temp_path := "/sys/class/thermal/thermal_zone2/temp" |};
         {| name := "cv1-thermal"; temp_path := "/sys/class/thermal/thermal_zone3/temp" |};
         {| name := "cv2-thermal"; temp_path := "/sys/class/thermal/thermal_zone4/temp" |};
         {| name := "soc0-thermal"; temp_path := "/sys/class/thermal/thermal_zone5/temp" |};
         {| name := "soc1-thermal"; temp_path := "/sys/class/thermal/thermal_zone6/temp" |};
         {| name := "soc2-thermal"; temp_path := "/sys/class/thermal/thermal_zone7/temp" |};
         {| name := "tj-thermal"; temp_path := "/sys/class/thermal/thermal_zone8/temp" |};
         {| name := "tboard-thermal"; temp_path := "/sys/class/thermal/thermal_zone9/temp" |};
         {| name := "tdiode-thermal"; temp_path := "/sys/class/thermal/thermal_zone10/temp" |} ]
  |}.

Definition make_orin_nx : BoardConfig :=
  let h0 := "/sys/bus/i2c/drivers/ina3221/1-0040/hwmon/hwmon3" in
  {| board_name := "orin_nx";
     num_cpu_cores := 8;
     gpu_load_path := "/sys/devices/platform/bus@0/17000000.gpu/load";
     emc_actmon_path := "/sys/kernel/debug/cactmon/mc_all";
     emc_clk_rate_path := "";
     power_rails :=
       [ {| label := "VDD_GPU_SOC"; voltage_path := h0 ++ "/in1_input";
            current_path := h0 ++ "/curr1_input" |};
         {| label := "VDD_CPU_CV"; voltage_path := h0 ++ "/in2_input";
            current_path := h0 ++ "/curr2_input" |};
         {| label := "VIN_SYS_5V0"; voltage_path := h0 ++ "/in3_input";
            current_path := h0 ++ "/curr3_input" |} ];
     thermal_zones :=
       [ {| name := "cpu-thermal"; temp_path := "/sys/class/thermal/thermal_zone0/temp" |};
         {| name := "gpu-thermal"; temp_path := "/sys/class/thermal/thermal_zone1/temp" |};
         {| name := "cv0-thermal"; temp_path := "/sys/class/thermal/thermal_zone2/temp" |};
         {| name := "cv1-thermal"; temp_path := "/sys/class/thermal/thermal_zone3/temp" |};
         {| name := "cv2-thermal"; temp_path := "/sys/class/thermal/thermal_zone4/temp" |};
         {| name := "soc0-thermal"; temp_path := "/sys/class/thermal/thermal_zone5/temp" |};
         {| name := "soc1-thermal"; temp_path := "/sys/class/thermal/thermal_zone6/temp" |};
         {| name := "soc2-thermal"; temp_path := "/sys/class/thermal/thermal_zone7/temp" |};
         {| name := "tj-thermal"; temp_path := "/sys/class/thermal/thermal_zone8/temp" |};
         {| name := "tboard-thermal"; temp_path := "/sys/class/thermal/thermal_zone9/temp" |} ]
  |}.

(** [get_board_config(name)] *)
Definition get_board_config (board : string) : Exception + BoardConfig :=
  if String.eqb board "agx_orin" then inr make_agx_orin
  else if String.eqb board "orin_nx" then inr make_orin_nx
  else inl (runtime_error ("Unknown board: " ++ board)).

(** [v.erase(std::remove_if(v.begin(), v.end(), pred), v.end())]: the
    elements for which [pred] is false, in their order. *)
Fixpoint remove_if {A} (pred : A -> bool) (v : list A) : list A :=
  match v with
  | [] => []
  | x :: r => if pred x then remove_if pred r else x :: remove_if pred r
  end.

(** [validate_config(c)] *)
Definition validate_config (h : Host) (c : BoardConfig) : BoardConfig :=
  let cores := count_cpu_cores h in
  {| board_name := board_name c;
     num_cpu_cores := if 0 <? cores then cores else num_cpu_cores c;
     gpu_load_path :=
       if path_readable h (gpu_load_path c) then gpu_load_path c else "";
     emc_actmon_path :=
       if path_readable h (emc_actmon_path c) then emc_actmon_path c else "";
     emc_clk_rate_path := emc_clk_rate_path c;
     power_rails :=
       remove_if (fun r => negb (path_readable h (voltage_path r))
                           || negb (path_readable h (current_path r)))
                 (power_rails c);
     thermal_zones :=
       remove_if (fun z => negb (path_readable h (temp_path z)))
                 (thermal_zones c) |}.

(** [s.find(pat) != std::string::npos] *)
Fixpoint found_in (pat s : string) : bool :=
  String.prefix pat s
  || match s with
     | EmptyString => false
     | String _ r => found_in pat r
     end.

(** [detect_board()] *)
Definition detect_board (h : Host) : Exception + BoardConfig :=
  let compat := read_file_string h "/proc/device-tree/compatible" in
  if found_in "p3701" compat then inr (validate_config h make_agx_orin)
  else if found_in "p3767" compat then inr (validate_config h make_orin_nx)
  else inl (runtime_error
              ("Unrecognized Jetson board. Compatible string: " ++ compat
               ++ String "010"
                    "Use get_board_config() with an explicit board name, or add a new config. See docs/adding_a_board.md")).

(** ** The engine at work, statement by statement

    The steps of [step] take [start()], the two statements with which a tick
    records its sample, and the writer with [close_fds()] each as one block.
    The other threads of the program can run between the statements of
    these blocks: a caller of [sync()], [wait_for_warmup()],
    [sample_count()] or [is_running()] while the driving thread is inside
    [start()] or inside [write_file()], and any of them between the
    [push_back] and the [fetch_add] of the fast thread.  The steps below
    stop at these points.  [sync()] holds [sync_mtx_] from its first
    statement to its last and stays one step; [write_file()] and [start()]
    do not take that mutex. *)

(** [fast_samples_.push_back(s)], with the values [read_cpu] left in
    [prev_cpu_] during the reads before it. *)
Definition push_back_fast (s : FastSample) (prev : list CpuJiffies) (e : Engine)
  : Engine :=
  {| output_path_ := output_path_ e;
     board_ := board_ e;
     config_ := config_ e;
     fast_thread_ := fast_thread_ e;
     medium_thread_ := medium_thread_ e;
     slow_thread_ := slow_thread_ e;
     running_ := running_ e;
     warmed_up_ := warmed_up_ e;
     fast_count_ := fast_count_ e;
     sync_points_ := sync_points_ e;
     fast_samples_ := fast_samples_ e ++ [s];
     medium_samples_ := medium_samples_ e;
     slow_samples_ := slow_samples_ e;
     t0_s_ := t0_s_ e;
     fd_gpu_load_ := fd_gpu_load_ e;
     fd_proc_stat_ := fd_proc_stat_ e;
     fd_meminfo_ := fd_meminfo_ e;
     fd_emc_ := fd_emc_ e;
     fd_voltage_ := fd_voltage_ e;
     fd_current_ := fd_current_ e;
     fd_thermal_ := fd_thermal_ e;
     prev_cpu_ := prev |}.

(** [fast_count_.fetch_add(1)] *)
Definition fetch_add_fast_count (e : Engine) : Engine :=
  {| output_path_ := output_path_ e;
     board_ := board_ e;
     config_ := config_ e;
     fast_thread_ := fast_thread_ e;
     medium_thread_ := medium_thread_ e;
     slow_thread_ := slow_thread_ e;
     running_ := running_ e;
     warmed_up_ := warmed_up_ e;
     fast_count_ := Int.u64 (fast_count_ e + 1);
     sync_points_ := sync_points_ e;
     fast_samples_ := fast_samples_ e;
     medium_samples_ := medium_samples_ e;
     slow_samples_ := slow_samples_ e;
     t0_s_ := t0_s_ e;
     fd_gpu_load_ := fd_gpu_load_ e;
     fd_proc_stat_ := fd_proc_stat_ e;
     fd_meminfo_ := fd_meminfo_ e;
     fd_emc_ := fd_emc_ e;
     fd_voltage_ := fd_voltage_ e;
     fd_current_ := fd_current_ e;
     fd_thermal_ := fd_thermal_ e;
     prev_cpu_ := prev_cpu_ e |}.

(** The stores and [clear()] calls of [start()] that follow
    [running_.store(true)]. *)
Definition start_clear (e : Engine) : Engine :=
  {| output_path_ := output_path_ e;
     board_ := board_ e;
     config_ := config_ e;
     fast_thread_ := fast_thread_ e;
     medium_thread_ := medium_thread_ e;
     slow_thread_ := slow_thread_ e;
     running_ := running_ e;
     warmed_up_ := false;
     fast_count_ := 0;
     sync_points_ := [];
     fast_samples_ := [];
     medium_samples_ := [];
     slow_samples_ := [];
     t0_s_ := t0_s_ e;
     fd_gpu_load_ := fd_gpu_load_ e;
     fd_proc_stat_ := fd_proc_stat_ e;
     fd_meminfo_ := fd_meminfo_ e;
     fd_emc_ := fd_emc_ e;
     fd_voltage_ := fd_voltage_ e;
     fd_current_ := fd_current_ e;
     fd_thermal_ := fd_thermal_ e;
     prev_cpu_ := prev_cpu_ e |}.

(** [prev_cpu_.assign(board_.num_cpu_cores, CpuJiffies{}); t0_s_ =
    monotonic_s();] *)
Definition start_clock (env : Env) (e : Engine) : Engine :=
  {| output_path_ := output_path_ e;
     board_ := board_ e;
     config_ := config_ e;
     fast_thread_ := fast_thread_ e;
     medium_thread_ := medium_thread_ e;
     slow_thread_ := slow_thread_ e;
     running_ := running_ e;
     warmed_up_ := warmed_up_ e;
     fast_count_ := fast_count_ e;
     sync_points_ := sync_points_ e;
     fast_samples_ := fast_samples_ e;
     medium_samples_ := medium_samples_ e;
     slow_samples_ := slow_samples_ e;
     t0_s_ := monotonic_s env;
     fd_gpu_load_ := fd_gpu_load_ e;
     fd_proc_stat_ := fd_proc_stat_ e;
     fd_meminfo_ := fd_meminfo_ e;
     fd_emc_ := fd_emc_ e;
     fd_voltage_ := fd_voltage_ e;
     fd_current_ := fd_current_ e;
     fd_thermal_ := fd_thermal_ e;
     prev_cpu_ := replicate (Z.to_nat (num_cpu_cores (board_ e))) CpuJiffies0 |}.

Module Fine.

(** Where the driving thread stands: outside [start()] and [stop()]; in
    [start()] before the stores and clears that follow
    [running_.store(true)], before [open_fds()], before each of the three
    thread constructions; in [stop()] before each of the three joins, in
    [write_file()] before [fopen], after the [fwrite] of the header, of the
    fast, of the medium and of the slow samples, and before
    [close_fds()]. *)
Inductive DriverPC :=
  | Idle
  | StartClear
  | StartOpen
  | SpawnFast
  | SpawnMedium
  | SpawnSlow
  | JoinFast
  | JoinMedium
  | JoinSlow
  | WriteOpen
  | WriteFast
  | WriteMedium
  | WriteSlow
  | WriteSync
  | CloseFds.

(** The engine, the operating system, the driving thread, whether the fast
    thread stands between its [push_back] and its [fetch_add], and what
    [write_file] has sent so far through the stream it opened. *)
Record System := {
  engine : Engine;
  os : World;
  driver : DriverPC;
  counting : bool;
  stream : list Z
}.

Inductive Label :=
  | CallStart
  | StartStep (readable : string -> bool) (env : Env)
  | CallStop
  | StopStep (can_create : bool)
  | CallSync
  | CallWait
  | FastStep (env : Env)
  | MediumStep (env : Env)
  | SlowStep (env : Env).

Definition with_engine (e : Engine) (s : System) : System :=
  {| engine := e; os := os s; driver := driver s; counting := counting s;
     stream := stream s |}.

Definition at_pc (pc : DriverPC) (e : Engine) (s : System) : System :=
  {| engine := e; os := os s; driver := pc; counting := counting s;
     stream := stream s |}.

(** The entry of [start()]: the check and [running_.store(true)]. *)
Definition start_begin (s : System) : System * Event :=
  if running_ (engine s)
  then (s, Threw (runtime_error "Engine already running"))
  else (at_pc StartClear (set_running true (engine s)) s, Silent).

(** The next step of a [start()] that stands at [pc].  The assignment to a
    [std::thread] member that is still joinable ends the program
    ([std::terminate]): no next state. *)
Definition start_step (readable : string -> bool) (env : Env) (pc : DriverPC)
    (s : System) : option (System * Event) :=
  let e := engine s in
  match pc with
  | StartClear => Some (at_pc StartOpen (start_clear e) s, Silent)
  | StartOpen =>
      let '(e, w) := do_open_fds readable e (os s) in
      Some ({| engine := start_clock env e; os := w; driver := SpawnFast;
               counting := counting s; stream := stream s |}, Silent)
  | SpawnFast =>
      if joinable (fast_thread_ e) then None
      else Some (at_pc SpawnMedium (set_fast_thread (Running (FPrimer 0)) e) s,
                 Silent)
  | SpawnMedium =>
      if joinable (medium_thread_ e) then None
      else Some (at_pc SpawnSlow (set_medium_thread (Running TWait) e) s, Silent)
  | SpawnSlow =>
      if joinable (slow_thread_ e) then None
      else Some (at_pc Idle (set_slow_thread (Running TWait) e) s, StartReturned)
  | _ => None
  end.

(** One step of [run_fast].  A pass of a loop is two steps: the reads with
    the [push_back], and the [fetch_add]. *)
Definition fast_step (env : Env) (s : System) : option System :=
  let e := engine s in
  let sampled :=
    let '(smp, prev) := read_fast_sample env e in
    {| engine := push_back_fast smp prev e; os := os s; driver := driver s;
       counting := true; stream := stream s |} in
  let counted (e' : Engine) :=
    {| engine := e'; os := os s; driver := driver s; counting := false;
       stream := stream s |} in
  match fast_thread_ e with
  | Running (FPrimer i) =>
      if counting s
      then Some (counted (set_fast_thread (Running (FPrimer (S i)))
                            (fetch_add_fast_count e)))
      else if (i =? 0)%nat && no_interval (fast_hz (config_ e)) then None
      else if (i <? 10)%nat && running_ e then Some sampled
      else Some (with_engine (set_fast_thread (Running FPublish) e) s)
  | Running FPublish =>
      Some (with_engine (set_fast_thread (Running FMain) (set_warmed_up true e)) s)
  | Running FMain =>
      if counting s then Some (counted (fetch_add_fast_count e))
      else if running_ e then Some sampled
      else Some (with_engine (set_fast_thread Finished e) s)
  | _ => None
  end.

(** The entry of [stop()]: the store to [running_]. *)
Definition stop_begin (s : System) : System :=
  at_pc JoinFast (set_running false (engine s)) s.

(** The files after [fopen(path, "wb")] created or emptied the file. *)
Definition fopen_wb (path : string) (w : World) : World :=
  {| open_fds := open_fds w; next_fd := next_fd w;
     files := <[path := []]> (files w) |}.

(** The files after [fclose(fp)], which hands what the stream holds to the
    file. *)
Definition fclose (path : string) (fp : list Z) (w : World) : World :=
  {| open_fds := open_fds w; next_fd := next_fd w;
     files := <[path := fp]> (files w) |}.

(** The next step of a [stop()] that stands at [pc].  The step at
    [WriteOpen] is [fopen] (whose failure throws and leaves [stop()]), the
    header built from the sizes the vectors have then, and its [fwrite];
    the step at [WriteSync] sends [sync_points_.size()] records, the size
    read anew, and closes the stream. *)
Definition stop_step (can_create : bool) (pc : DriverPC) (s : System)
    : option (System * Event) :=
  let e := engine s in
  let sent (data : list Z) (pc' : DriverPC) :=
    {| engine := e; os := os s; driver := pc'; counting := counting s;
       stream := fwrite data (stream s) |} in
  match pc with
  | JoinFast =>
      t ← join (fast_thread_ e);
      Some (at_pc JoinMedium (set_fast_thread t e) s, Silent)
  | JoinMedium =>
      t ← join (medium_thread_ e);
      Some (at_pc JoinSlow (set_medium_thread t e) s, Silent)
  | JoinSlow =>
      t ← join (slow_thread_ e);
      Some (at_pc WriteOpen (set_slow_thread t e) s, Silent)
  | WriteOpen =>
      if can_create
      then Some ({| engine := e; os := fopen_wb (output_path_ e) (os s);
                    driver := WriteFast; counting := counting s;
                    stream := fwrite (Header.bytes (build_header e)) [] |},
                 Silent)
      else Some (at_pc Idle e s,
                 Threw (runtime_error ("Cannot open " ++ output_path_ e)))
  | WriteFast =>
      Some (sent (concat (FastSample_bytes <$> fast_samples_ e)) WriteMedium, Silent)
  | WriteMedium =>
      Some (sent (concat (MediumSample_bytes <$> medium_samples_ e)) WriteSlow,
            Silent)
  | WriteSlow =>
      Some (sent (concat (SlowSample_bytes <$> slow_samples_ e)) WriteSync, Silent)
  | WriteSync =>
      let fp := fwrite (concat (SyncPoint_bytes <$> sync_points_ e)) (stream s) in
      Some ({| engine := e; os := fclose (output_path_ e) fp (os s);
               driver := CloseFds; counting := counting s; stream := fp |},
            Silent)
  | CloseFds =>
      let '(e, w) := close_fds e (os s) in
      Some ({| engine := e; os := w; driver := Idle; counting := counting s;
               stream := stream s |}, StopReturned)
  | _ => None
  end.

(** The step function.  [start()] and [stop()] are called by the driving
    thread when it is in neither; [sync()] and [wait_for_warmup()] are
    called from other threads at any time. *)
Definition step (l : Label) (s : System) : option (System * Event) :=
  match l with
  | CallStart =>
      match driver s with
      | Idle => Some (start_begin s)
      | _ => None
      end
  | StartStep readable env => start_step readable env (driver s) s
  | CallStop =>
      match driver s with
      | Idle => Some (stop_begin s, Silent)
      | _ => None
      end
  | StopStep can_create => stop_step can_create (driver s) s
  | CallSync =>
      let '(id, e) := sync (engine s) in Some (with_engine e s, SyncReturned id)
  | CallWait =>
      if warmup_released (engine s) then Some (s, WaitReturned) else None
  | FastStep env =>
      s' ← fast_step env s; Some (s', Silent)
  | MediumStep env =>
      e ← medium_step env (engine s); Some (with_engine e s, Silent)
  | SlowStep env =>
      e ← slow_step env (engine s); Some (with_engine e s, Silent)
  end.

Fixpoint run (ls : list Label) (s : System) : option System :=
  match ls with
  | [] => Some s
  | l :: ls' =>
      match step l s with
      | Some (s', _) => run ls' s'
      | None => None
      end
  end.

(** The system right after the constructor returned [e]. *)
Definition boot (e : Engine) (w : World) : System :=
  {| engine := e; os := w; driver := Idle; counting := false; stream := [] |}.

Definition is_sync (l : Label) : bool :=
  match l with CallSync => true | _ => false end.

Definition is_start (l : Label) : bool :=
  match l with CallStart => true | _ => false end.

(** The driving thread is inside [start()]. *)
Definition in_start (pc : DriverPC) : bool :=
  match pc with
  | StartClear | StartOpen | SpawnFast | SpawnMedium | SpawnSlow => true
  | _ => false
  end.

(** The driving thread is inside [write_file()] with the header sent. *)
Definition header_sent (pc : DriverPC) : bool :=
  match pc with
  | WriteFast | WriteMedium | WriteSlow | WriteSync => true
  | _ => false
  end.

End Fine.

(** The blocks of [step] as the steps they are made of: the state of the
    statement-wise system at which a block begins or ends, and the steps of
    a block. *)
Definition refine_pc (pc : option StopPC) : Fine.DriverPC :=
  match pc with
  | None => Fine.Idle
  | Some JoinFast => Fine.JoinFast
  | Some JoinMedium => Fine.JoinMedium
  | Some JoinSlow => Fine.JoinSlow
  | Some WriteClose => Fine.WriteOpen
  end.

Definition refines (s : System) (sf : Fine.System) : Prop :=
  Fine.engine sf = engine s /\ Fine.os sf = os s
  /\ Fine.driver sf = refine_pc (stopping s) /\ Fine.counting sf = false.

Definition refine_label (s : System) (l : Label) : list Fine.Label :=
  match l with
  | CallStart readable env =>
      if running_ (engine s) then [Fine.CallStart]
      else Fine.CallStart :: replicate 5 (Fine.StartStep readable env)
  | CallStop => [Fine.CallStop]
  | StopStep can_create =>
      match stopping s with
      | Some WriteClose =>
          if can_create then replicate 6 (Fine.StopStep true)
          else [Fine.StopStep false]
      | _ => [Fine.StopStep can_create]
      end
  | CallSync => [Fine.CallSync]
  | CallWait => [Fine.CallWait]
  | FastStep env =>
      if takes_sample (engine s) then [Fine.FastStep env; Fine.FastStep env]
      else [Fine.FastStep env]
  | MediumStep env => [Fine.MediumStep env]
  | SlowStep env => [Fine.SlowStep env]
  end.

(** ** Statements about the statement-wise system *)

(** What holds between [running_], the threads and the driving thread.  The
    fast thread stands between its [push_back] and its [fetch_add] only
    while it is in its function.  Outside [start()] and [stop()] the three
    threads are in their functions when [running_] is up and there is none
    when it is down; inside [start()] [running_] is up and the threads
    constructed so far are in their functions; inside [stop()] [running_]
    is down and the threads before the point where it stands are joined. *)
Definition fine_life (s : Fine.System) : Prop :=
  let e := Fine.engine s in
  (Fine.counting s = true -> alive (fast_thread_ e))
  /\ match Fine.driver s with
     | Fine.Idle =>
         (running_ e = true ->
          alive (fast_thread_ e) /\ alive (medium_thread_ e)
          /\ alive (slow_thread_ e))
         /\ (running_ e = false -> joined e)
     | Fine.StartClear | Fine.StartOpen | Fine.SpawnFast =>
         running_ e = true /\ joined e
     | Fine.SpawnMedium =>
         running_ e = true /\ alive (fast_thread_ e)
         /\ medium_thread_ e = NoThread /\ slow_thread_ e = NoThread
     | Fine.SpawnSlow =>
         running_ e = true /\ alive (fast_thread_ e)
         /\ alive (medium_thread_ e) /\ slow_thread_ e = NoThread
     | Fine.JoinFast => running_ e = false
     | Fine.JoinMedium => running_ e = false /\ fast_thread_ e = NoThread
     | Fine.JoinSlow =>
         running_ e = false /\ fast_thread_ e = NoThread
         /\ medium_thread_ e = NoThread
     | _ => running_ e = false /\ joined e
     end.

(** What the constructor fixed stays, and [prev_cpu_] has one entry per core
    from the point of [start()] where the fast thread is constructed. *)
Definition fine_config (e0 : Engine) (s : Fine.System) : Prop :=
  let e := Fine.engine s in
  output_path_ e = output_path_ e0 /\ board_ e = board_ e0
  /\ config_ e = config_ e0
  /\ (fast_thread_ e <> NoThread \/ Fine.driver s = Fine.SpawnFast ->
      length (prev_cpu_ e) = Z.to_nat (num_cpu_cores (board_ e0))).

(** [fast_count_] is the number of samples in the fast buffer, less the one
    whose [fetch_add] is still to come. *)
Definition fine_count (s : Fine.System) : Prop :=
  fast_count_ (Fine.engine s)
  = Int.u64 (Z.of_nat (length (fast_samples_ (Fine.engine s)))
             - (if Fine.counting s then 1 else 0))
  /\ (Fine.counting s = true -> fast_samples_ (Fine.engine s) <> []).

(** The ids of the sync points count from 1 in the order of insertion. *)
Definition ids_dense (e : Engine) : Prop :=
  forall i p, sync_points_ e !! i = Some p -> sync_id p = Int.u64 (Z.of_nat i + 1).

(** What [write_file] has still to send before the sync points. *)
Definition to_send (pc : Fine.DriverPC) (e : Engine) : list Z :=
  match pc with
  | Fine.WriteFast =>
      concat (FastSample_bytes <$> fast_samples_ e)
      ++ concat (MediumSample_bytes <$> medium_samples_ e)
      ++ concat (SlowSample_bytes <$> slow_samples_ e)
  | Fine.WriteMedium =>
      concat (MediumSample_bytes <$> medium_samples_ e)
      ++ concat (SlowSample_bytes <$> slow_samples_ e)
  | Fine.WriteSlow => concat (SlowSample_bytes <$> slow_samples_ e)
  | _ => []
  end.

(** The driving thread has left [write_file()] and not entered [stop()]
    again. *)
Definition past_writer (pc : Fine.DriverPC) : bool :=
  match pc with
  | Fine.CloseFds | Fine.Idle => true
  | _ => Fine.in_start pc
  end.

Definition count_fine (f : Fine.Label -> bool) (ls : list Fine.Label) : nat :=
  length (filter (fun l => f l = true) ls).

Definition is_stop (l : Fine.Label) : bool :=
  match l with Fine.CallStop => true | _ => false end.


(** What every state of a run of the statement-wise system satisfies. *)
Definition fine_inv (e0 : Engine) (s : Fine.System) : Prop :=
  fine_life s /\ fine_count s /\ ids_dense (Fine.engine s)
  /\ buffers_ok (Fine.engine s) /\ fine_config e0 s.

(** ** Sample inputs *)

(** A reading of [/proc/stat] on a machine with two cores. *)
Definition stat_sample : list Z :=
  bytes_of "cpu  10 0 10 80 0 0 0 0 0 0
cpu0 4 0 6 40 0 0 0 0 0 0
cpu1 6 0 4 40 0 0 0 0 0 0
intr 12345".

Definition env_sample : Env :=
  {| env_read := fun fd => if fd =? 4 then Some stat_sample else None;
     env_sec := 100; env_nsec := 5 |}.

Definition lines_sample : list StatLine :=
  [ {| sl_index := bytes_of "0";
       sl_fields := bytes_of <$> ["4"; "0"; "6"; "40"; "0"; "0"; "0"; "0"; "0"; "0"]%string |};
    {| sl_index := bytes_of "1";
       sl_fields := bytes_of <$> ["6"; "0"; "4"; "40"; "0"; "0"; "0"; "0"; "0"; "0"]%string |} ].


(** A board with two cores, one power rail and one thermal zone, without an
    EMC path. *)
Definition board_sample : BoardConfig :=
  {| board_name := "agx_orin";
     num_cpu_cores := 2;
     gpu_load_path := "/sys/devices/gpu/load";
     emc_actmon_path := "";
     emc_clk_rate_path := "";
     power_rails :=
       [ {| label := "VDD_GPU_SOC";
            voltage_path := "/sys/hwmon/in1_input";
            current_path := "/sys/hwmon/curr1_input" |} ];
     thermal_zones :=
       [ {| name := "cpu-thermal"; temp_path := "/sys/thermal/zone0/temp" |} ] |}.

(** A process with the three standard descriptors open. *)
Definition world_sample : World :=
  {| open_fds := {[ 0; 1; 2 ]}; next_fd := 3; files := ∅ |}.

(** A configuration whose fast rate is 0. *)
Definition config_zero_hz : EngineConfig :=
  {| fast_hz := 0; medium_hz := 100; slow_hz := 10 |}.

(** A board whose vector of rails has 2^31 entries. *)
Definition board_huge : BoardConfig :=
  {| board_name := "huge";
     num_cpu_cores := 4;
     gpu_load_path := "";
     emc_actmon_path := "";
     emc_clk_rate_path := "";
     power_rails :=
       replicate (Z.to_nat 2147483648)
                 {| label := ""; voltage_path := ""; current_path := "" |};
     thermal_zones := [] |}.

(** Every configured path can be opened except the current of the rail. *)
Definition readable_sample (p : string) : bool :=
  negb (String.eqb p "/sys/hwmon/curr1_input").

(** What the descriptors 3 to 7 deliver during a tick: the GPU load,
    [/proc/stat], [/proc/meminfo], the voltage of the rail, the temperature
    of the zone. *)
Definition env_tick : Env :=
  {| env_read := fun fd =>
       if fd =? 3 then Some (bytes_of "457")
       else if fd =? 4 then Some stat_sample
       else if fd =? 5 then Some (bytes_of "MemTotal:       64349376 kB
MemFree:        35131272 kB
MemAvailable:   57722372 kB
")
       else if fd =? 6 then Some (bytes_of "5000")
       else if fd =? 7 then Some (bytes_of "45500")
       else None;
     env_sec := 100; env_nsec := 5000000 |}.

(** A run that is stopped after warmup: [start], the ten primer samples, the
    release of the barrier, samples of the three tiers, two sync points, and
    [stop] up to the point where the file is about to be written. *)
Definition trace_run : list Label :=
  [CallStart readable_sample env_sample]
  ++ replicate 10 (FastStep env_tick)
  ++ [FastStep env_tick; FastStep env_tick; CallWait; CallSync;
      MediumStep env_tick; MediumStep env_tick; FastStep env_tick;
      SlowStep env_tick; SlowStep env_tick; MediumStep env_tick; CallSync;
      CallStop; FastStep env_tick; MediumStep env_tick; SlowStep env_tick;
      StopStep true; StopStep true; StopStep true].

(** A run that is stopped after the first primer sample. *)
Definition trace_early_stop : list Label :=
  [CallStart readable_sample env_sample; FastStep env_tick; CallSync;
   CallStop; FastStep env_tick; FastStep env_tick; MediumStep env_tick;
   MediumStep env_tick; SlowStep env_tick; SlowStep env_tick;
   FastStep env_tick; StopStep true; StopStep true; StopStep true].

(** A Jetson AGX Orin on which every file but the EMC monitor can be read. *)
Definition host_sample : Host :=
  {| host_file := fun p =>
       if String.eqb p "/proc/device-tree/compatible"
       then Some ("nvidia,p3737-0000+p3701-0005" ++ String "000"
                  ("nvidia,p3701-0005" ++ String "000" "nvidia,tegra234"))%string
       else if String.eqb p "/proc/stat"
       then Some ("cpu  10 0 10 80 0 0 0 0 0 0" ++ String "010"
                  ("cpu0 5 0 5 40 0 0 0 0 0 0" ++ String "010"
                   ("cpu1 5 0 5 40 0 0 0 0 0 0" ++ String "010" "intr 0")))%string
       else None;
     host_readable := fun p =>
       negb (String.eqb p "") && negb (String.eqb p "/sys/kernel/debug/cactmon/mc_all") |}.

(** The same machine with a compatible file cut after its first entry. *)
Definition host_first_entry : Host :=
  {| host_file := fun p =>
       if String.eqb p "/proc/device-tree/compatible"
       then Some "nvidia,p3737-0000+p3701-0005"
       else host_file host_sample p;
     host_readable := host_readable host_sample |}.

(** A run, statement by statement, up to the point where [stop()] enters
    [write_file()]: [start()], the ten primer samples, the release of the
    barrier, one more fast sample, a sync point, a medium and a slow sample,
    and [stop()] with its three joins. *)
Definition trace_to_writer : list Fine.Label :=
  [Fine.CallStart] ++ replicate 5 (Fine.StartStep readable_sample env_sample)
  ++ replicate 20 (Fine.FastStep env_tick)
  ++ [Fine.FastStep env_tick; Fine.FastStep env_tick;
      Fine.FastStep env_tick; Fine.FastStep env_tick;
      Fine.CallWait; Fine.CallSync;
      Fine.MediumStep env_tick; Fine.MediumStep env_tick;
      Fine.SlowStep env_tick; Fine.SlowStep env_tick;
      Fine.CallStop;
      Fine.FastStep env_tick; Fine.MediumStep env_tick; Fine.SlowStep env_tick;
      Fine.StopStep true; Fine.StopStep true; Fine.StopStep true].

(** The writer up to the sync points, with a call of [sync()] from another
    thread after the header was sent. *)
Definition sync_in_writer : list Fine.Label :=
  [Fine.StopStep true; Fine.CallSync;
   Fine.StopStep true; Fine.StopStep true; Fine.StopStep true].

(** The writer up to the sync points when no other thread runs. *)
Definition quiet_writer : list Fine.Label :=
  [Fine.StopStep true; Fine.StopStep true; Fine.StopStep true; Fine.StopStep true].

(** * Properties *)

(** ** Machine integers *)

Module IntFacts.
Import Int.

Lemma u64_range z : 0 <= u64 z < 2 ^ 64.
Proof. apply Z.mod_pos_bound. lia. Qed.

Lemma u64_small z : 0 <= z < 2 ^ 64 -> u64 z = z.
Proof. apply Z.mod_small. Qed.

Lemma u8_small z : 0 <= z < 2 ^ 8 -> u8 z = z.
Proof. apply Z.mod_small. Qed.

Lemma i32_small z : - 2 ^ 31 <= z < 2 ^ 31 -> i32 z = z.
Proof.
  intros H. unfold i32, swrap. rewrite Z.mod_small; lia.
Qed.

Lemma i32_range z : - 2 ^ 31 <= i32 z < 2 ^ 31.
Proof.
  unfold i32, swrap.
  pose proof (Z.mod_pos_bound (z + 2 ^ (32 - 1)) (2 ^ 32)). lia.
Qed.

End IntFacts.

(** ** Parsing [/proc/stat] *)

Section Parsing.

Lemma is_digit_spec x : is_digit x = true <-> 48 <= x <= 57.
Proof. unfold is_digit. rewrite andb_true_iff, !Z.leb_le. tauto. Qed.

Lemma digit_not_blank x : is_digit x = true -> is_blank x = false.
Proof.
  rewrite is_digit_spec. intros H. unfold is_blank.
  apply orb_false_iff. split; apply Z.eqb_neq; lia.
Qed.

Lemma skip_past_line (l r : list Z) (c : Z) :
  c <> 0 -> Forall (fun x => x <> 0 /\ x <> c) l ->
  skip_past (l ++ c :: r) c = Some r.
Proof.
  intros Hc. induction 1 as [|x l [H0 H1] _ IH]; simpl.
  - apply Z.eqb_neq in Hc. rewrite Hc, Z.eqb_refl. reflexivity.
  - apply Z.eqb_neq in H0, H1. rewrite H0, H1. exact IH.
Qed.

(** The loop of [parse_u64] computes modulo 2^64 what [decimal] computes. *)
Lemma parse_digits_app (ds r : list Z) (v : Z) :
  digits ds -> is_digit (deref r) = false ->
  parse_digits v (ds ++ r)
  = (foldl (fun v x => Int.u64 (v * 10 + (x - 48))) v ds, r).
Proof.
  intros Hd Hr. revert v. induction Hd as [|x ds Hx _ IH]; intros v; simpl.
  - destruct r as [|y r]; [reflexivity|]. simpl in Hr. simpl. rewrite Hr. reflexivity.
  - rewrite Hx. apply IH.
Qed.

Lemma foldl_u64_decimal (ds : list Z) (v : Z) :
  foldl (fun v x => Int.u64 (v * 10 + (x - 48))) (Int.u64 v) ds
  = Int.u64 (foldl (fun v x => v * 10 + (x - 48)) v ds).
Proof.
  revert v. induction ds as [|x ds IH]; intros v; simpl; [reflexivity|].
  rewrite <- IH. f_equal. unfold Int.u64, Int.wrap.
  rewrite Z.add_mod by lia. rewrite Z.mul_mod_idemp_l by lia.
  rewrite <- Z.add_mod by lia. reflexivity.
Qed.

Lemma parse_u64_field (ds r : list Z) :
  digits ds -> is_digit (deref r) = false ->
  parse_u64 (ds ++ r) = (Int.u64 (decimal ds), skip_blanks r).
Proof.
  intros Hd Hr. unfold parse_u64. rewrite parse_digits_app by assumption.
  change 0 with (Int.u64 0) at 1. rewrite foldl_u64_decimal. reflexivity.
Qed.

Lemma skip_digits_app (ds r : list Z) :
  digits ds -> is_digit (deref r) = false -> skip_digits (ds ++ r) = r.
Proof.
  intros Hd Hr. induction Hd as [|x ds Hx _ IH]; simpl.
  - destruct r as [|y r]; [reflexivity|]. simpl in *. rewrite Hr. reflexivity.
  - rewrite Hx. exact IH.
Qed.

(** The text of the fields has neither a NUL nor a newline. *)
Lemma digits_clean (ds : list Z) :
  digits ds -> Forall (fun x => x <> 0 /\ x <> NL) ds.
Proof.
  intros H. eapply Forall_impl; [exact H|].
  intros x Hx. apply is_digit_spec in Hx. unfold NL. lia.
Qed.

Lemma fields_text_clean (fs : list (list Z)) :
  Forall field_ok fs -> Forall (fun x => x <> 0 /\ x <> NL) (fields_text fs).
Proof.
  induction 1 as [|f fs [_ Hf] Hfs IH]; [constructor|].
  destruct fs as [|g fs]; simpl.
  - apply digits_clean, Hf.
  - apply Forall_app. split; [apply digits_clean, Hf|].
    constructor; [unfold SP, NL; lia | exact IH].
Qed.

Lemma fields_text_head (fs : list (list Z)) (r : list Z) :
  Forall field_ok fs ->
  is_digit (deref (fields_text fs ++ NL :: r)) = true
  \/ fields_text fs ++ NL :: r = NL :: r.
Proof.
  intros H. destruct H as [|f fs [Hne Hf] Hfs]; [right; reflexivity|left].
  destruct f as [|x f]; [done|]. inversion Hf; subst.
  destruct fs; simpl; assumption.
Qed.

Lemma parse_vals_fields (fs : list (list Z)) (rest : list Z) :
  Forall field_ok fs ->
  forall (n : nat) (done : list Z),
  exists q',
    parse_vals n (length done) (fields_text fs ++ NL :: rest)
               (done ++ replicate n 0)
    = (done ++ take n (vals_of fs) ++ replicate (n - length fs) 0, q')
    /\ skip_past q' NL = Some rest.
Proof.
  induction 1 as [|f fs [Hne Hf] Hfs IH]; intros n done.
  - exists (NL :: rest). split; [|reflexivity].
    destruct n; reflexivity.
  - destruct n as [|n].
    + eexists. split; [reflexivity|].
      apply skip_past_line; [unfold NL; lia|].
      apply fields_text_clean. constructor; [split|]; assumption.
    + assert (Hhead : exists x f', f = x :: f' /\ is_digit x = true).
      { destruct f as [|x f']; [done|]. inversion Hf; subst. eauto. }
      destruct Hhead as (x & f' & -> & Hx).
      assert (Htxt : exists tl, fields_text ((x :: f') :: fs) ++ NL :: rest
                                = (x :: f') ++ tl
                                /\ is_digit (deref tl) = false
                                /\ skip_blanks tl = fields_text fs ++ NL :: rest).
      { destruct fs as [|g fs].
        - exists (NL :: rest). simpl. repeat split; reflexivity.
        - exists (SP :: fields_text (g :: fs) ++ NL :: rest).
          split; [simpl; rewrite <- !app_assoc; reflexivity|].
          split; [reflexivity|].
          change (skip_blanks (SP :: ?t)) with (skip_blanks t).
          destruct (fields_text_head (g :: fs) rest Hfs) as [Hd|Hd].
          + destruct (fields_text (g :: fs) ++ NL :: rest) as [|y t]; [reflexivity|].
            simpl in *. rewrite (digit_not_blank _ Hd). reflexivity.
          + rewrite Hd. reflexivity. }
      destruct Htxt as (tl & -> & Htl & Hskip).
      cbn [parse_vals].
      assert (Hx0 : (deref ((x :: f') ++ tl) =? 0) || (deref ((x :: f') ++ tl) =? NL) = false).
      { simpl. apply is_digit_spec in Hx. apply orb_false_iff.
        split; apply Z.eqb_neq; unfold NL; lia. }
      rewrite Hx0. rewrite parse_u64_field by assumption. rewrite Hskip.
      destruct (IH n (done ++ [Int.u64 (decimal (x :: f'))])) as (q' & Heq & Hq').
      exists q'. split; [|exact Hq'].
      rewrite length_app in Heq. simpl in Heq.
      replace (S (length done)) with (length done + 1)%nat by lia.
      replace (<[length done := Int.u64 (decimal (x :: f'))]> (done ++ replicate (S n) 0))
        with ((done ++ [Int.u64 (decimal (x :: f'))]) ++ replicate n 0).
      2:{ rewrite insert_app_r_alt by lia. rewrite Nat.sub_diag. simpl.
          rewrite <- app_assoc. reflexivity. }
      rewrite Heq. rewrite <- !app_assoc. reflexivity.
Qed.

End Parsing.

(** ** [read_cpu] on well-formed lines *)

Section ReadCpu.

Lemma nth_replicate_same {A} (x : A) (m i : nat) : nth i (replicate m x) x = x.
Proof. revert i. induction m; intros [|i]; simpl; auto. Qed.

Lemma nth_vals (fs : list (list Z)) :
  forall n i : nat, (i < n)%nat ->
  nth i (take n (vals_of fs) ++ replicate (n - length fs) 0) 0
  = Int.u64 (decimal (nth i fs [])).
Proof.
  induction fs as [|f fs IH]; intros n i Hi.
  - change (vals_of []) with (@nil Z). rewrite take_nil. simpl app.
    rewrite nth_replicate_same.
    destruct i; reflexivity.
  - destruct n as [|n]; [lia|]. destruct i as [|i]; [reflexivity|].
    simpl. apply IH. lia.
Qed.

Lemma length_vals (fs : list (list Z)) (n : nat) :
  length (take n (vals_of fs) ++ replicate (n - length fs) 0) = n.
Proof.
  rewrite length_app, length_take, length_replicate.
  unfold vals_of. rewrite length_fmap. lia.
Qed.

Lemma sum8_nth (vals : list Z) :
  length vals = 10%nat ->
  sum8 vals = foldl (fun acc i => Int.u64 (acc + nth i vals 0)) 0 (seq 0 8).
Proof.
  intros H. do 11 (destruct vals as [|? vals]; try discriminate H).
  unfold sum8. cbn [take foldl seq nth]. reflexivity.
Qed.

Lemma cpu_line_render (l : StatLine) (rest : list Z) (c : nat) (st : CpuScan) :
  line_ok l ->
  exists q',
    cpu_line c (render_line l ++ rest) st
    = ({| per_core := <[c := spec_util l (nth c (prev_cpu st) CpuJiffies0)]> (per_core st);
          sum_util := F32.add (sum_util st)
                        (spec_util l (nth c (prev_cpu st) CpuJiffies0));
          cores_parsed := S (cores_parsed st);
          prev_cpu := <[c := spec_jiffies l]> (prev_cpu st) |}, q')
    /\ skip_past q' NL = Some rest.
Proof.
  intros [Hidx Hfs]. unfold cpu_line, render_line.
  change (bytes_of "cpu") with [99; 112; 117].
  cbn [app drop].
  rewrite <- !app_assoc. cbn [app].
  rewrite drop_0.
  rewrite skip_digits_app by (assumption || reflexivity).
  cbn [skip_one_space]. rewrite Z.eqb_refl.
  rewrite <- !app_assoc. cbn [app].
  destruct (parse_vals_fields (sl_fields l) rest Hfs 10 []) as (q' & Heq & Hq').
  cbn [length app] in Heq. rewrite Heq.
  exists q'. split; [|exact Hq'].
  set (vals := take 10 (vals_of (sl_fields l)) ++ replicate (10 - length (sl_fields l)) 0).
  assert (Htot : sum8 vals = spec_total l).
  { rewrite sum8_nth by apply length_vals. unfold spec_total, field, vals.
    cbn [seq foldl]. rewrite !nth_vals by lia. reflexivity. }
  assert (Hidle : Int.u64 (nth 3 vals 0 + nth 4 vals 0) = spec_idle_sum l).
  { unfold spec_idle_sum, field, vals. rewrite !nth_vals by lia. reflexivity. }
  rewrite Htot, Hidle. unfold spec_util, core_util, spec_jiffies.
  reflexivity.
Qed.

Lemma starts_cpu_render (l : StatLine) (rest : list Z) :
  starts_cpu (render_line l ++ rest) = true.
Proof. reflexivity. Qed.

(** The lines the loop goes through: at most [n], and no more than there
    are. *)
Lemma cpu_loop_lines (lines : list StatLine) (rest : list Z) :
  Forall line_ok lines ->
  forall (n c : nat) (st : CpuScan),
  (n <= length lines)%nat \/ starts_cpu rest = false ->
  (c + min n (length lines) <= length (per_core st))%nat ->
  (c + min n (length lines) <= length (prev_cpu st))%nat ->
  let k := min n (length lines) in
  let us := zip_with spec_util (take k lines) (drop c (prev_cpu st)) in
  cpu_loop n c (Some (concat (render_line <$> lines) ++ rest)) st
  = {| per_core := take c (per_core st) ++ us ++ drop (c + k) (per_core st);
       sum_util := foldl F32.add (sum_util st) us;
       cores_parsed := cores_parsed st + k;
       prev_cpu := take c (prev_cpu st) ++ (spec_jiffies <$> take k lines)
                   ++ drop (c + k) (prev_cpu st) |}.
Proof.
  induction 1 as [|l lines Hl Hlines IH]; intros n c st Hstop Hpc Hprev.
  - cbn [fmap list_fmap concat app length]. rewrite Nat.min_0_r.
    cbn [take zip_with app foldl fmap list_fmap]. rewrite !Nat.add_0_r, !take_drop.
    destruct st as [pc su cp pr].
    destruct n as [|n]; [reflexivity|].
    destruct Hstop as [Hn|Hr]; [simpl in Hn; lia|].
    cbn [cpu_loop]. rewrite Hr. reflexivity.
  - destruct n as [|n].
    + cbn [cpu_loop Nat.min take zip_with app foldl fmap list_fmap].
      rewrite !Nat.add_0_r, !take_drop. destruct st; reflexivity.
    + cbn [fmap list_fmap concat]. rewrite <- app_assoc.
      cbn [cpu_loop]. rewrite starts_cpu_render.
      destruct (cpu_line_render l (concat (render_line <$> lines) ++ rest) c st Hl)
        as (q' & Heq & Hq').
      rewrite Heq, Hq'. clear Heq Hq'.
      cbn [length Nat.min] in Hpc, Hprev |- *.
      rewrite IH; cbn [per_core prev_cpu sum_util cores_parsed].
      2:{ destruct Hstop as [Hn|Hr]; [left; simpl in Hn; lia | right; exact Hr]. }
      2,3: rewrite length_insert; lia.
      assert (Hc1 : (c < length (per_core st))%nat) by lia.
      assert (Hc2 : (c < length (prev_cpu st))%nat) by lia.
      destruct (lookup_lt_is_Some_2 _ _ Hc2) as [old Hold].
      rewrite (nth_lookup_Some _ _ _ _ Hold).
      rewrite (drop_S _ _ _ Hold).
      cbn [take zip_with fmap list_fmap foldl].
      rewrite !drop_insert_lt by lia.
      rewrite (take_S_r (<[c:=spec_util l old]> (per_core st)) c (spec_util l old))
        by (apply list_lookup_insert_eq; exact Hc1).
      rewrite (take_S_r (<[c:=spec_jiffies l]> (prev_cpu st)) c (spec_jiffies l))
        by (apply list_lookup_insert_eq; exact Hc2).
      rewrite !take_insert_ge by lia.
      rewrite <- !app_assoc. cbn [app].
      replace (S c + min n (length lines))%nat with (c + S (min n (length lines)))%nat by lia.
      f_equal. lia.
Qed.

Lemma zero_fill_spec (n : nat) :
  forall (c : nat) (a : list F32.t),
  (c + n <= length a)%nat ->
  zero_fill n c a = take c a ++ replicate n F32.zero ++ drop (c + n) a.
Proof.
  induction n as [|n IH]; intros c a Hlen; cbn [zero_fill replicate app].
  - rewrite Nat.add_0_r, take_drop. reflexivity.
  - rewrite IH by (rewrite length_insert; lia).
    rewrite drop_insert_lt by lia.
    assert (Hc : (c < length a)%nat) by lia.
    rewrite (take_S_r (<[c:=F32.zero]> a) c F32.zero)
      by (apply list_lookup_insert_eq; exact Hc).
    rewrite take_insert_ge by lia.
    rewrite <- app_assoc. cbn [app].
    replace (S c + n)%nat with (c + S n)%nat by lia. reflexivity.
Qed.

Lemma length_zip_utils (ls : list StatLine) (prev : list CpuJiffies) :
  (length ls <= length prev)%nat ->
  length (zip_with spec_util ls prev) = length ls.
Proof. intros H. rewrite length_zip_with. lia. Qed.

End ReadCpu.

(** [read_cpu] on a well-formed text: when the text read from [/proc/stat]
    is a first line followed by well-formed [cpuN] lines (and then by
    something that is not such a line, unless there are at least
    [num_cpu_cores] of them), the cores parsed are the first
    [k = min num_cpu_cores (number of lines)] ones.  For each of them the
    utilisation is [100 * (d_total - d_idle) / d_total] clamped to [0, 100]
    when [d_total > 0] and 0 otherwise, with [total] the sum of the first 8
    fields, [idle_sum = idle + iowait], and the deltas taken against the
    previous values passed in ([spec_util]); the previous values of these
    cores become [(total, idle_sum)] ([spec_jiffies]) and the others stay;
    the slots from [k] to 15 hold 0.0; the aggregate is the mean of the [k]
    utilisations ([spec_mean]). *)
Lemma read_cpu_utilisation
    (env : Env) (fd nc : Z) (prev : list CpuJiffies) (pc0 : list F32.t)
    (first : list Z) (lines : list StatLine) (rest : list Z) :
  sysfs_read env fd 4096
    = Some (first ++ NL :: concat (render_line <$> lines) ++ rest) ->
  Forall (fun x => x <> 0 /\ x <> NL) first ->
  Forall line_ok lines ->
  (Z.to_nat nc <= length lines)%nat \/ starts_cpu rest = false ->
  0 < nc <= MAX_CPU_CORES ->
  length prev = Z.to_nat nc ->
  length pc0 = 16%nat ->
  let k := min (Z.to_nat nc) (length lines) in
  let us := zip_with spec_util (take k lines) prev in
  read_cpu env fd nc prev pc0
  = (us ++ replicate (16 - k) F32.zero,
     spec_mean us,
     (spec_jiffies <$> take k lines) ++ drop k prev).
Proof.
  intros Hread Hfirst Hlines Hstop Hnc Hprev Hpc k us.
  unfold MAX_CPU_CORES in Hnc.
  assert (Hk : (k <= 16)%nat) by (unfold k; lia).
  assert (Hkn : (k <= length prev)%nat) by (unfold k; lia).
  unfold read_cpu. rewrite Hread.
  rewrite (skip_past_line first _ NL) by (first [assumption | unfold NL; lia]).
  rewrite (cpu_loop_lines lines rest Hlines); cbn [per_core prev_cpu sum_util cores_parsed].
  2: exact Hstop.
  2,3: fold k; lia.
  fold k. rewrite drop_0. fold us. cbn [take app]. rewrite !Nat.add_0_l.
  assert (Hus : length us = k).
  { unfold us. rewrite length_zip_utils; rewrite length_take; lia. }
  change (Z.to_nat MAX_CPU_CORES) with 16%nat.
  rewrite !take_0. cbn [app].
  rewrite zero_fill_spec by (rewrite length_app, length_drop; lia).
  rewrite take_app_length' by (symmetry; exact Hus).
  rewrite (drop_ge (us ++ drop k pc0)) by (rewrite length_app, length_drop; lia).
  rewrite app_nil_r.
  f_equal. f_equal.
  unfold spec_mean. rewrite <- Hus.
  destruct us as [|u us']; reflexivity.
Qed.

Example read_cpu_two_cores :
  read_cpu env_sample 4 4 (replicate 4 CpuJiffies0) (replicate 16 F32.zero)
  = (F32.of_Z 20 :: F32.of_Z 20 :: replicate 14 F32.zero,
     F32.of_Z 20,
     [ {| cj_total := 50; cj_idle := 40 |}; {| cj_total := 50; cj_idle := 40 |};
       CpuJiffies0; CpuJiffies0 ]).
Proof.
  refine (eq_trans
    (read_cpu_utilisation env_sample 4 4 (replicate 4 CpuJiffies0)
       (replicate 16 F32.zero) (bytes_of "cpu  10 0 10 80 0 0 0 0 0 0")
       lines_sample (bytes_of "intr 12345") _ _ _ _ _ _ _) _).
  - vm_compute. reflexivity.
  - vm_compute. repeat constructor; discriminate.
  - repeat constructor; try discriminate; vm_compute; reflexivity.
  - right. reflexivity.
  - unfold MAX_CPU_CORES. lia.
  - reflexivity.
  - reflexivity.
  - vm_compute. reflexivity.
Defined.

(** ** The constructor *)

Section Constructor.

Variables (output_path : string) (board : BoardConfig) (config : EngineConfig).

Lemma i32_of_small_size (n : nat) : (n <= 16)%nat -> Int.i32 (Z.of_nat n) = Z.of_nat n.
Proof. intros H. apply IntFacts.i32_small. lia. Qed.

(** What the constructor returns when it returns an engine. *)
Lemma Engine_new_inr (e : Engine) :
  Engine_new output_path board config = inr e ->
  output_path_ e = output_path /\ board_ e = board /\ config_ e = config
  /\ running_ e = false /\ warmed_up_ e = false /\ fast_count_ e = 0
  /\ fast_thread_ e = NoThread /\ medium_thread_ e = NoThread
  /\ slow_thread_ e = NoThread
  /\ fast_samples_ e = [] /\ medium_samples_ e = [] /\ slow_samples_ e = []
  /\ sync_points_ e = [].
Proof.
  unfold Engine_new. intros H.
  repeat match type of H with
         | (if ?c then _ else _) = _ => destruct c; [discriminate H|]
         end.
  inversion H; subst; clear H. cbn. tauto.
Qed.

(** A configuration within the bounds is accepted. *)
Lemma Engine_new_accepts :
  board_in_bounds board ->
  exists e, Engine_new output_path board config = inr e.
Proof.
  intros (Hc & Hr & Hz). unfold Engine_new, MAX_CPU_CORES, MAX_POWER_RAILS,
    MAX_THERMAL_ZONES.
  rewrite !i32_of_small_size by lia.
  destruct (Z.leb_spec (num_cpu_cores board) 0); [lia|].
  destruct (Z.ltb_spec 16 (num_cpu_cores board)); [lia|].
  destruct (Z.ltb_spec 8 (Z.of_nat (length (power_rails board)))); [lia|].
  destruct (Z.ltb_spec 16 (Z.of_nat (length (thermal_zones board)))); [lia|].
  cbn. eauto.
Qed.

(** A failure of the constructor is an [invalid_argument], and then a bound
    is violated. *)
Lemma Engine_new_rejects (x : Exception) :
  Engine_new output_path board config = inl x ->
  (exists what, x = invalid_argument what) /\ ~ board_in_bounds board.
Proof.
  unfold Engine_new, MAX_CPU_CORES, MAX_POWER_RAILS, MAX_THERMAL_ZONES.
  intros H. unfold board_in_bounds.
  destruct (orb _ _) eqn:Hc.
  { inversion H. split; [eauto|]. apply orb_true_iff in Hc. lia. }
  destruct (Z.ltb_spec 8 (Int.i32 (Z.of_nat (length (power_rails board))))) as [Hr|Hr].
  { inversion H. split; [eauto|]. intros (_ & Hr' & _).
    rewrite i32_of_small_size in Hr by lia. lia. }
  destruct (Z.ltb_spec 16 (Int.i32 (Z.of_nat (length (thermal_zones board))))) as [Hz|Hz].
  { inversion H. split; [eauto|]. intros (_ & _ & Hz').
    rewrite i32_of_small_size in Hz by lia. lia. }
  discriminate H.
Qed.

(** For vectors whose size fits an [int] the constructor fails exactly when
    a bound is violated. *)
Lemma Engine_new_fails_iff :
  Z.of_nat (length (power_rails board)) < 2 ^ 31 ->
  Z.of_nat (length (thermal_zones board)) < 2 ^ 31 ->
  (exists x, Engine_new output_path board config = inl x)
  <-> ~ board_in_bounds board.
Proof.
  intros Hr Hz. split.
  - intros [x Hx]. apply (Engine_new_rejects x Hx).
  - intros Hb. destruct (Engine_new output_path board config) as [x|e] eqn:He; [eauto|].
    exfalso. apply Hb. revert He.
    unfold Engine_new, MAX_CPU_CORES, MAX_POWER_RAILS, MAX_THERMAL_ZONES.
    rewrite !IntFacts.i32_small by lia.
    destruct (Z.leb_spec (num_cpu_cores board) 0); [discriminate|].
    destruct (Z.ltb_spec 16 (num_cpu_cores board)); [discriminate|].
    destruct (Z.ltb_spec 8 (Z.of_nat (length (power_rails board)))); [discriminate|].
    destruct (Z.ltb_spec 16 (Z.of_nat (length (thermal_zones board)))); [discriminate|].
    intros _. unfold board_in_bounds. lia.
Qed.


End Constructor.

(** C7.  The constructor accepts a board whose vector of power rails has
    2^31 entries, far more than 8: [static_cast<int>] turns the size into
    -2^31, which is not greater than [MAX_POWER_RAILS]. *)
Theorem Engine_new_accepts_huge_rail_vector :
  8 < Z.of_nat (length (power_rails board_huge))
  /\ exists e, Engine_new "/tmp/trace.bin" board_huge EngineConfig_default = inr e.
Proof.
  assert (Hlen : Z.of_nat (length (power_rails board_huge)) = 2147483648).
  { unfold board_huge. cbn [power_rails]. rewrite length_replicate.
    apply Z2Nat.id. lia. }
  split; [rewrite Hlen; lia|].
  unfold Engine_new. rewrite Hlen.
  change (Int.i32 2147483648) with (-2147483648).
  cbn. eauto.
Qed.

(** The constructor does not look at the sampling rates: whatever it
    answers for one configuration it answers for every other, and the engine
    it returns holds the configuration it was given. *)
Lemma Engine_new_ignores_rates
    (output_path : string) (board : BoardConfig) (config config' : EngineConfig)
    (e : Engine) :
  Engine_new output_path board config = inr e ->
  exists e', Engine_new output_path board config' = inr e' /\ config_ e' = config'.
Proof.
  unfold Engine_new. intros H.
  repeat case_match; try discriminate. eexists. split; reflexivity.
Qed.

(** C8.  The constructor accepts a configuration whose fast rate is 0, and
    the engine it returns holds that rate: the invariant of the data model
    (all three rates greater than 0) is not established.  The first use of
    the rate shows what follows: after [start()] the fast thread stands
    before [1'000'000'000L / config_.fast_hz], a division that has no value,
    so that the thread takes no step whatever the operating system
    answers. *)
Theorem Engine_new_accepts_zero_rate :
  exists e0 s,
    Engine_new "/tmp/trace.bin" board_sample config_zero_hz = inr e0
    /\ fast_hz (config_ e0) = 0
    /\ ~ (0 < fast_hz (config_ e0) /\ 0 < medium_hz (config_ e0)
          /\ 0 < slow_hz (config_ e0))
    /\ step (CallStart readable_sample env_sample) (boot e0 world_sample)
       = Some (s, StartReturned)
    /\ fast_thread_ (engine s) = Running (FPrimer 0)
    /\ interval_ns (fast_hz (config_ (engine s))) = None
    /\ forall env, step (FastStep env) s = None.
Proof.
  eexists _, _.
  split; [reflexivity|].
  split; [reflexivity|].
  split; [cbn; lia|].
  split; [vm_compute; reflexivity|].
  split; [reflexivity|].
  split; [reflexivity|].
  intros env. reflexivity.
Qed.

(** ** The layout of the trace file *)

Section Layout.

Lemma length_le_bytes (n : nat) (z : Z) : length (le_bytes n z) = n.
Proof. revert z. induction n as [|n IH]; intros z; simpl; [|rewrite IH]; reflexivity. Qed.

(** Every byte written is a byte. *)
Lemma le_bytes_range (n : nat) (z : Z) :
  Forall (fun b => 0 <= b < 256) (le_bytes n z).
Proof.
  revert z. induction n as [|n IH]; intros z; simpl; constructor.
  - apply Z.mod_pos_bound. lia.
  - apply IH.
Qed.

Lemma length_concat_fixed {A} (f : A -> list Z) (k : nat) (l : list A) :
  Forall (fun x => length (f x) = k) l ->
  length (concat (f <$> l)) = (k * length l)%nat.
Proof.
  induction 1 as [|x l Hx _ IH]; [simpl; lia|].
  rewrite fmap_cons. cbn [concat length]. rewrite length_app, Hx, IH. lia.
Qed.

Lemma length_f32_array (l : list F32.t) :
  length (concat (f32_bytes <$> l)) = (4 * length l)%nat.
Proof.
  apply length_concat_fixed, Forall_forall. intros x _. apply length_le_bytes.
Qed.

Lemma length_u32_array (l : list Z) :
  length (concat (le_bytes 4 <$> l)) = (4 * length l)%nat.
Proof.
  apply length_concat_fixed, Forall_forall. intros x _. apply length_le_bytes.
Qed.

Lemma length_FastSample_bytes (s : FastSample) :
  fast_ok s -> length (FastSample_bytes s) = 98%nat.
Proof.
  unfold fast_ok, FastSample_bytes, f64_bytes, f32_bytes. intros H.
  rewrite !length_app, !length_le_bytes.
  change (length (concat ((fun x => le_bytes 4 (F32.bits x)) <$> cpu_util s)))
    with (length (concat (f32_bytes <$> cpu_util s))).
  rewrite length_f32_array, H. reflexivity.
Qed.

Lemma length_MediumSample_bytes (s : MediumSample) :
  medium_ok s -> length (MediumSample_bytes s) = 104%nat.
Proof.
  unfold medium_ok, MediumSample_bytes, f64_bytes. intros (Hv & Hc & Hp).
  rewrite !length_app, length_le_bytes, !length_u32_array, length_f32_array.
  rewrite Hv, Hc, Hp. reflexivity.
Qed.

Lemma length_SlowSample_bytes (s : SlowSample) :
  slow_ok s -> length (SlowSample_bytes s) = 72%nat.
Proof.
  unfold slow_ok, SlowSample_bytes, f64_bytes. intros H.
  rewrite !length_app, length_le_bytes, length_f32_array, H. reflexivity.
Qed.

Lemma length_SyncPoint_bytes (p : SyncPoint) : length (SyncPoint_bytes p) = 16%nat.
Proof. unfold SyncPoint_bytes. rewrite length_app, !length_le_bytes. reflexivity. Qed.

(** [strncpy] writes inside its destination. *)
Lemma length_strncpy (dst src : list Z) (n : nat) :
  (n <= length dst)%nat -> length (strncpy dst src n) = length dst.
Proof.
  intros H. unfold strncpy.
  rewrite length_app, length_take, length_app, length_replicate, length_drop. lia.
Qed.

Lemma copy_names_shape (names : list string) :
  forall (i : nat) (table : list (list Z)),
  Forall (fun slot => length slot = 24%nat) table ->
  length (copy_names i names table) = length table
  /\ Forall (fun slot => length slot = 24%nat) (copy_names i names table).
Proof.
  induction names as [|n names IH]; intros i table Ht; simpl; [auto|].
  destruct (IH (S i) (<[i:=strncpy (nth i table []) (bytes_of n) 23]> table)) as [Hl Hf].
  - destruct (decide (i < length table)%nat) as [Hi|Hi].
    + apply Forall_insert; [exact Ht|].
      destruct (lookup_lt_is_Some_2 _ _ Hi) as [slot Hslot].
      rewrite (nth_lookup_Some _ _ _ _ Hslot).
      rewrite Forall_lookup in Ht. specialize (Ht _ _ Hslot). simpl in Ht.
      rewrite length_strncpy; lia.
    + rewrite list_insert_ge by lia. exact Ht.
  - rewrite length_insert in Hl. auto.
Qed.

Lemma length_name_table (names : list string) (n : nat) :
  length (concat (copy_names 0 names (replicate n (replicate 24 0)))) = (24 * n)%nat.
Proof.
  destruct (copy_names_shape names 0 (replicate n (replicate 24 0))) as [Hl Hf].
  { apply Forall_replicate. apply length_replicate. }
  rewrite length_replicate in Hl.
  pose proof (length_concat_fixed (fun x : list Z => x) 24 _ Hf) as Hc.
  rewrite list_fmap_id in Hc. rewrite Hc, Hl. reflexivity.
Qed.

(** The header is 728 bytes whatever the engine holds. *)
Lemma length_header (e : Engine) : length (Header.bytes (build_header e)) = 728%nat.
Proof.
  unfold Header.bytes, build_header. cbn [Header.magic Header.version
    Header.board_name Header.num_cpu_cores Header.num_power_rails
    Header.num_thermal_zones Header.emc_available Header.fast_hz
    Header.medium_hz Header.slow_hz Header.num_fast_samples
    Header.num_medium_samples Header.num_slow_samples Header.num_sync_points
    Header.power_rail_names Header.thermal_zone_names Header.reserved].
  rewrite !length_app, !length_le_bytes, !length_name_table.
  rewrite length_strncpy by (rewrite length_replicate; lia).
  rewrite !length_replicate. reflexivity.
Qed.

(** The size of the image [write_file] produces. *)
Lemma length_file_image (e : Engine) :
  buffers_ok e ->
  Z.of_nat (length (file_image e))
  = 728 + 98 * Z.of_nat (length (fast_samples_ e))
    + 104 * Z.of_nat (length (medium_samples_ e))
    + 72 * Z.of_nat (length (slow_samples_ e))
    + 16 * Z.of_nat (length (sync_points_ e)).
Proof.
  intros (Hf & Hm & Hs). unfold file_image, fwrite. cbn [app].
  rewrite !length_app, length_header.
  rewrite (length_concat_fixed FastSample_bytes 98)
    by (eapply Forall_impl; [exact Hf|apply length_FastSample_bytes]).
  rewrite (length_concat_fixed MediumSample_bytes 104)
    by (eapply Forall_impl; [exact Hm|apply length_MediumSample_bytes]).
  rewrite (length_concat_fixed SlowSample_bytes 72)
    by (eapply Forall_impl; [exact Hs|apply length_SlowSample_bytes]).
  rewrite (length_concat_fixed SyncPoint_bytes 16)
    by (apply Forall_forall; intros; apply length_SyncPoint_bytes).
  lia.
Qed.

End Layout.

(** ** Steps and runs *)

Section Runs.

Lemma run_app (l1 l2 : list Label) (s : System) :
  run (l1 ++ l2) s = run l1 s ≫= run l2.
Proof.
  revert s. induction l1 as [|l l1 IH]; intros s; simpl; [reflexivity|].
  destruct (step l s) as [[s' ev]|]; [apply IH|reflexivity].
Qed.

(** A property that holds at the start and that every step keeps holds
    after every run. *)
Lemma run_invariant (P : System -> Prop) :
  (forall l s s' ev, P s -> step l s = Some (s', ev) -> P s') ->
  forall ls s0 s, P s0 -> run ls s0 = Some s -> P s.
Proof.
  intros Hstep. induction ls as [|l ls IH]; intros s0 s H0 Hrun; simpl in Hrun.
  - congruence.
  - destruct (step l s0) as [[s1 ev]|] eqn:Hs; [|discriminate].
    eapply IH; [|exact Hrun]. eapply Hstep; eauto.
Qed.

End Runs.

(** What the operations do to the engine. *)

Section Frames.

Lemma length_cpu_line (c : nat) (p : list Z) (st : CpuScan) :
  length (per_core (cpu_line c p st).1) = length (per_core st)
  /\ length (prev_cpu (cpu_line c p st).1) = length (prev_cpu st).
Proof.
  unfold cpu_line. destruct (parse_vals _ _ _ _) as [vals q]. cbn.
  rewrite !length_insert. auto.
Qed.

Lemma length_cpu_loop (n : nat) :
  forall (c : nat) (p : option (list Z)) (st : CpuScan),
  length (per_core (cpu_loop n c p st)) = length (per_core st)
  /\ length (prev_cpu (cpu_loop n c p st)) = length (prev_cpu st).
Proof.
  induction n as [|n IH]; intros c p st; [destruct p; auto|].
  destruct p as [p|]; [|auto]. cbn [cpu_loop].
  destruct (starts_cpu p); [|auto].
  pose proof (length_cpu_line c p st) as [H1 H2].
  destruct (cpu_line c p st) as [st' q]. cbn in H1, H2.
  destruct (IH (S c) (skip_past q NL) st') as [H3 H4]. split; congruence.
Qed.

Lemma length_zero_fill (n : nat) :
  forall (c : nat) (a : list F32.t), length (zero_fill n c a) = length a.
Proof.
  induction n as [|n IH]; intros c a; simpl; [reflexivity|].
  rewrite IH, length_insert. reflexivity.
Qed.

(** [read_cpu] keeps the sizes of [per_core] and of [prev_cpu_]. *)
Lemma length_read_cpu (env : Env) (fd nc : Z) (prev : list CpuJiffies)
    (pc0 : list F32.t) :
  length (read_cpu env fd nc prev pc0).1.1 = length pc0
  /\ length (read_cpu env fd nc prev pc0).2 = length prev.
Proof.
  unfold read_cpu. destruct (sysfs_read env fd 4096) as [buf|]; cbn.
  - rewrite length_zero_fill.
    apply (length_cpu_loop _ 0 _
             {| per_core := pc0; sum_util := F32.zero; cores_parsed := 0;
                prev_cpu := prev |}).
  - rewrite length_zero_fill. auto.
Qed.

Lemma take_fast_sample_push (env : Env) (e : Engine) :
  exists smp prev,
    take_fast_sample env e = push_fast smp prev e
    /\ fast_ok smp /\ length prev = length (prev_cpu_ e).
Proof.
  unfold take_fast_sample, read_fast_sample.
  pose proof (length_read_cpu env (fd_proc_stat_ e) (num_cpu_cores (board_ e))
                (prev_cpu_ e) (cpu_util FastSample0)) as [H1 H2].
  destruct (read_cpu _ _ _ _ _) as [[cpu agg] prev]. cbn in H1, H2.
  destruct (read_ram env (fd_meminfo_ e)) as [used avail].
  eexists _, _. split; [reflexivity|]. split; [|exact H2].
  unfold fast_ok. cbn. rewrite H1. reflexivity.
Qed.


Lemma read_power_ok (env : Env) (fdv fdc : list Z) (n : nat) (s : MediumSample) :
  medium_ok s -> medium_ok (read_power env fdv fdc n s).
Proof.
  assert (Hfold : forall (f : MediumSample -> nat -> MediumSample) l s,
             (forall s i, medium_ok s -> medium_ok (f s i)) ->
             medium_ok s -> medium_ok (foldl f s l)).
  { intros f l. induction l as [|i l IH]; intros s0 Hf H0; simpl; auto. }
  intros H. unfold read_power. apply Hfold; [|apply Hfold; [|exact H]].
  - intros s0 i (H1 & H2 & H3). unfold medium_ok, power_zero. cbn.
    rewrite !length_insert. auto.
  - intros s0 i (H1 & H2 & H3). unfold medium_ok, power_rail. cbn.
    rewrite !length_insert. auto.
Qed.

Lemma length_read_thermals (env : Env) (fdt : list Z) (n : nat) (t : list F32.t) :
  length (read_thermals env fdt n t) = length t.
Proof.
  assert (Hfold : forall (f : list F32.t -> nat -> list F32.t) l t,
             (forall t i, length (f t i) = length t) ->
             length (foldl f t l) = length t).
  { intros f l. induction l as [|i l IH]; intros t0 Hf; simpl; [reflexivity|].
    rewrite IH by exact Hf. apply Hf. }
  unfold read_thermals. rewrite !Hfold; [reflexivity| |];
    intros; apply length_insert.
Qed.

Lemma take_medium_sample_push (env : Env) (e : Engine) :
  exists smp, take_medium_sample env e = push_medium smp e /\ medium_ok smp.
Proof.
  eexists. split; [reflexivity|]. apply read_power_ok. repeat split.
Qed.

Lemma take_slow_sample_push (env : Env) (e : Engine) :
  exists smp, take_slow_sample env e = push_slow smp e /\ slow_ok smp.
Proof.
  eexists. split; [reflexivity|]. unfold slow_ok. cbn.
  rewrite length_read_thermals. reflexivity.
Qed.

Lemma do_open_fds_set (readable : string -> bool) (e e1 : Engine) (w w1 : World) :
  do_open_fds readable e w = (e1, w1) ->
  exists gpu stat mem emc fdv fdc fdt, e1 = set_fds gpu stat mem emc fdv fdc fdt e.
Proof.
  unfold do_open_fds. intros H. repeat case_match. simplify_eq. eauto 10.
Qed.

Lemma close_fds_set (e e1 : Engine) (w w1 : World) :
  close_fds e w = (e1, w1) ->
  exists gpu stat mem emc, e1 = set_fds gpu stat mem emc [] [] [] e.
Proof.
  unfold close_fds. intros H. repeat case_match. simplify_eq. eauto 10.
Qed.

End Frames.

#[global] Opaque take_fast_sample take_medium_sample take_slow_sample.

(** The cases of a step, with the engine afterwards written through the
    assignments that made it. *)
Ltac step_cases H :=
  unfold step, start, stop_step, stop_finish, stop_begin, with_engine,
    fast_step, medium_step, slow_step, join, sync, write_file,
    warmup_released in H;
  repeat (case_match; simplify_option_eq);
  repeat match goal with
    | Ho : do_open_fds _ _ _ = (_, _) |- _ =>
        apply do_open_fds_set in Ho as (? & ? & ? & ? & ? & ? & ? & ->)
    | Hc : close_fds _ _ = (_, _) |- _ =>
        apply close_fds_set in Hc as (? & ? & ? & ? & ->)
    | |- context [take_fast_sample ?env ?e] =>
        let smp := fresh "smp" in
        let Hok := fresh "Hok" in
        destruct (take_fast_sample_push env e) as (smp & ? & -> & Hok & ?)
    | |- context [take_medium_sample ?env ?e] =>
        let smp := fresh "smp" in
        let Hok := fresh "Hok" in
        destruct (take_medium_sample_push env e) as (smp & -> & Hok)
    | |- context [take_slow_sample ?env ?e] =>
        let smp := fresh "smp" in
        let Hok := fresh "Hok" in
        destruct (take_slow_sample_push env e) as (smp & -> & Hok)
    end.

#[local] Set Warnings "-clear-no-such-hyp".

Section Buffers.

Lemma step_buffers_ok (l : Label) (s s' : System) (ev : Event) :
  buffers_ok (engine s) -> step l s = Some (s', ev) -> buffers_ok (engine s').
Proof.
  intros (Hf & Hm & Hs) H. unfold buffers_ok. step_cases H; cbn;
    rewrite ?Forall_app, ?Forall_singleton; auto.
Qed.

(** Every sample in a buffer has arrays of the declared sizes. *)
Lemma run_buffers_ok (ls : list Label) (s0 s : System) :
  buffers_ok (engine s0) -> run ls s0 = Some s -> buffers_ok (engine s).
Proof.
  apply (run_invariant (fun s => buffers_ok (engine s))).
  intros l s1 s2 ev. apply step_buffers_ok.
Qed.

End Buffers.

(** ** Descriptors and files *)

Section Descriptors.

Lemma try_close_files (fd : Z) (w : World) : files (try_close fd w).2 = files w.
Proof. unfold try_close. destruct (0 <=? fd); reflexivity. Qed.

Lemma close_all_files (fds : list Z) :
  forall w, files (close_all fds w).2 = files w.
Proof.
  induction fds as [|fd fds IH]; intros w; [reflexivity|]. simpl.
  pose proof (try_close_files fd w) as H1.
  destruct (try_close fd w) as [fd' w1]. cbn in H1.
  specialize (IH w1). destruct (close_all fds w1) as [r w2]. cbn in *.
  congruence.
Qed.

(** [close_fds] leaves the files alone. *)
Lemma close_fds_files (e : Engine) (w : World) :
  files (close_fds e w).2 = files w.
Proof.
  unfold close_fds.
  repeat match goal with
         | |- context [try_close ?fd ?w] =>
             let H := fresh in
             pose proof (try_close_files fd w) as H;
             destruct (try_close fd w) as [? ?]; cbn in H
         | |- context [close_all ?fds ?w] =>
             let H := fresh in
             pose proof (close_all_files fds w) as H;
             destruct (close_all fds w) as [? ?]; cbn in H
         end.
  cbn. congruence.
Qed.

(** How [stop()] returns: from its last part, with the file created. *)
Lemma stop_returned_inv (can_create : bool) (s s' : System) :
  step (StopStep can_create) s = Some (s', StopReturned) ->
  stopping s = Some WriteClose /\ can_create = true
  /\ exists w1,
       write_file true (engine s) (os s) = inr w1
       /\ s' = {| engine := (close_fds (engine s) w1).1;
                  os := (close_fds (engine s) w1).2;
                  stopping := None |}.
Proof.
  intros H. unfold step in H. destruct (stopping s) as [pc|]; [|discriminate].
  cbn in H. destruct pc; cbn in H;
    try (destruct (join _); cbn in H; discriminate).
  unfold stop_finish in H.
  destruct (write_file can_create (engine s) (os s)) as [x|w1] eqn:Hw;
    [discriminate|].
  assert (can_create = true) as ->.
  { unfold write_file in Hw. destruct can_create; [reflexivity|discriminate]. }
  destruct (close_fds (engine s) w1) as [e1 w2] eqn:Hc.
  inversion H; subst. repeat split. exists w1. rewrite Hc. auto.
Qed.

End Descriptors.

(** ** Sync points *)

Section SyncPoints.

Lemma sync_inv_ext (e e' : Engine) :
  fast_count_ e' = fast_count_ e -> fast_samples_ e' = fast_samples_ e ->
  sync_points_ e' = sync_points_ e -> sync_inv e -> sync_inv e'.
Proof. unfold sync_inv. intros -> -> ->. auto. Qed.

Lemma sync_inv_empty (e : Engine) :
  fast_count_ e = 0 -> fast_samples_ e = [] -> sync_points_ e = [] -> sync_inv e.
Proof.
  unfold sync_inv. intros -> -> ->. split; [reflexivity|].
  split; [|split]; intros; simplify_list_eq.
Qed.

Lemma sync_inv_push_fast (e : Engine) (smp : FastSample) (prev : list CpuJiffies) :
  sync_inv e -> sync_inv (push_fast smp prev e).
Proof.
  unfold sync_inv. cbn. intros (Hc & Hid & Hidx). rewrite length_app. cbn.
  split; [|split; [exact Hid|]].
  - rewrite Hc. unfold Int.u64, Int.wrap.
    rewrite Z.add_mod_idemp_l by lia. f_equal. lia.
  - intros Hlen. destruct Hidx as [Hle Hmono]; [lia|]. split; [|exact Hmono].
    intros i p Hp. specialize (Hle i p Hp). lia.
Qed.

Lemma sync_inv_push_sync (e : Engine) :
  sync_inv e ->
  sync_inv (push_sync {| sync_id := Int.u64 (Z.of_nat (length (sync_points_ e)) + 1);
                         fast_sample_idx := fast_count_ e |} e).
Proof.
  unfold sync_inv. cbn. intros (Hc & Hid & Hidx). rewrite length_app. cbn.
  split; [exact Hc|]. split.
  - intros Hlen i p [[Hi Hp]|[-> <-]]%lookup_snoc_Some.
    + apply Hid; [lia|exact Hp].
    + cbn. apply IntFacts.u64_small. lia.
  - intros Hlen. destruct (Hidx Hlen) as [Hle Hmono].
    assert (Hfc : fast_count_ e = Z.of_nat (length (fast_samples_ e))).
    { rewrite Hc. apply IntFacts.u64_small. lia. }
    split.
    + intros i p [[Hi Hp]|[-> <-]]%lookup_snoc_Some; [eauto|cbn; lia].
    + intros i j pi pj Hij [[Hi Hpi]|[-> <-]]%lookup_snoc_Some
             [[Hj Hpj]|[-> <-]]%lookup_snoc_Some; cbn.
      * eauto.
      * rewrite Hfc. eauto.
      * lia.
      * lia.
Qed.

Lemma step_sync_inv (l : Label) (s s' : System) (ev : Event) :
  sync_inv (engine s) -> step l s = Some (s', ev) -> sync_inv (engine s').
Proof.
  intros Hinv H. step_cases H; cbn [engine];
    first [ assumption
          | apply sync_inv_push_sync; assumption
          | apply sync_inv_push_fast; assumption
          | apply sync_inv_empty; reflexivity
          | eapply sync_inv_ext; [reflexivity..|];
            first [ assumption | apply sync_inv_push_fast; assumption ] ].
Qed.

Lemma run_sync_inv (ls : list Label) (s0 s : System) :
  sync_inv (engine s0) -> run ls s0 = Some s -> sync_inv (engine s).
Proof.
  apply (run_invariant (fun s => sync_inv (engine s))).
  intros l s1 s2 ev. apply step_sync_inv.
Qed.

End SyncPoints.

(** C2.  In every run, as long as the counters stay below 2^64: a call of
    [sync()] returns the number of sync points recorded so far plus 1 and
    records that id together with the value [fast_count_] has at the call;
    the ids recorded are 1, 2, ... in the order of insertion; the recorded
    indices do not decrease. *)
Theorem sync_numbering
    (output_path : string) (board : BoardConfig) (config : EngineConfig)
    (e0 : Engine) (w0 : World) (ls : list Label) (s : System) :
  Engine_new output_path board config = inr e0 ->
  run ls (boot e0 w0) = Some s ->
  let e := engine s in
  Z.of_nat (length (sync_points_ e)) + 1 < 2 ^ 64 ->
  Z.of_nat (length (fast_samples_ e)) < 2 ^ 64 ->
  (sync e).1 = Z.of_nat (length (sync_points_ e)) + 1
  /\ sync_points_ (sync e).2
     = sync_points_ e ++ [{| sync_id := (sync e).1;
                             fast_sample_idx := fast_count_ e |}]
  /\ sample_count e = Z.of_nat (length (fast_samples_ e))
  /\ (forall i p, sync_points_ e !! i = Some p -> sync_id p = Z.of_nat i + 1)
  /\ (forall i j pi pj, (i <= j)%nat ->
        sync_points_ e !! i = Some pi -> sync_points_ e !! j = Some pj ->
        fast_sample_idx pi <= fast_sample_idx pj).
Proof.
  intros Hnew Hrun e Hk Hf.
  assert (Hinv : sync_inv e).
  { apply (run_sync_inv ls (boot e0 w0) s); [|exact Hrun].
    destruct (Engine_new_inr _ _ _ _ Hnew)
      as (_ & _ & _ & _ & _ & Hc & _ & _ & _ & Hfs & _ & _ & Hsp).
    apply sync_inv_empty; assumption. }
  destruct Hinv as (Hc & Hid & Hidx).
  split; [cbn; apply IntFacts.u64_small; lia|].
  split; [reflexivity|].
  split; [unfold sample_count; rewrite Hc; apply IntFacts.u64_small; lia|].
  split; [apply Hid; lia|]. apply Hidx; lia.
Qed.

Lemma sync_numbering_witness :
  exists e0 s,
    Engine_new "/tmp/trace.bin" board_sample EngineConfig_default = inr e0
    /\ run trace_run (boot e0 world_sample) = Some s
    /\ (sync (engine s)).1 = 3
    /\ (fun p => (sync_id p, fast_sample_idx p)) <$> sync_points_ (engine s)
       = [(1, 10); (2, 11)].
Proof.
  eexists _, _.
  split; [reflexivity|].
  split; [vm_compute; reflexivity|].
  split; [|vm_compute; reflexivity].
  match goal with
  | |- (sync (engine ?s)).1 = _ =>
      destruct (sync_numbering "/tmp/trace.bin" board_sample
                  EngineConfig_default _ world_sample trace_run s
                  eq_refl) as (Hid & _)
  end.
  - vm_compute. reflexivity.
  - vm_compute. reflexivity.
  - vm_compute. reflexivity.
  - rewrite Hid. vm_compute. reflexivity.
Defined.

(** ** The configuration *)

Section Configuration.

Lemma step_config_inv (e0 : Engine) (l : Label) (s s' : System) (ev : Event) :
  config_inv e0 (engine s) -> step l s = Some (s', ev) ->
  config_inv e0 (engine s').
Proof.
  unfold config_inv. intros (Hp & Hb & Hc & Hprev) H.
  step_cases H; cbn [engine]; cbn;
    repeat match goal with
           | Hx : ?a = ?b, Hp : ?a <> _ -> _ |- _ => rewrite Hx in Hp
           end;
    repeat split; try assumption; try congruence;
    try (intros _; rewrite ?length_replicate; try congruence);
    try (intros; apply Hprev; congruence).
  all: try (intros; match goal with
                    | Hl : length _ = length (prev_cpu_ _) |- _ => rewrite Hl
                    end; apply Hprev; congruence).
Qed.

Lemma run_config_inv (e0 : Engine) (ls : list Label) (s0 s : System) :
  config_inv e0 (engine s0) -> run ls s0 = Some s -> config_inv e0 (engine s).
Proof.
  apply (run_invariant (fun s => config_inv e0 (engine s))).
  intros l s1 s2 ev. apply step_config_inv.
Qed.

(** In a run of a constructed engine the members [output_path_], [board_]
    and [config_] are those the constructor was given. *)
Lemma run_keeps_config (output_path : string) (board : BoardConfig)
    (config : EngineConfig) (e0 : Engine) (w0 : World) (ls : list Label)
    (s : System) :
  Engine_new output_path board config = inr e0 ->
  run ls (boot e0 w0) = Some s ->
  output_path_ (engine s) = output_path /\ board_ (engine s) = board
  /\ config_ (engine s) = config.
Proof.
  intros Hnew Hrun.
  destruct (Engine_new_inr _ _ _ _ Hnew)
    as (Hp & Hb & Hc & _ & _ & _ & Hf & _).
  assert (Hinv : config_inv e0 (engine s)).
  { apply (run_config_inv e0 ls (boot e0 w0) s); [|exact Hrun].
    unfold config_inv. cbn. repeat split. congruence. }
  destruct Hinv as (H1 & H2 & H3 & _). rewrite H1, H2, H3. auto.
Qed.

Lemma no_interval_false (hz : Z) : Int.u32 hz <> 0 -> no_interval hz = false.
Proof.
  intros H. unfold no_interval, interval_ns.
  apply Z.eqb_neq in H. rewrite H. reflexivity.
Qed.

End Configuration.



(** ** Warmup *)

Section Warmup.

Lemma warm_inv_new (output_path : string) (board : BoardConfig)
    (config : EngineConfig) (e : Engine) :
  Engine_new output_path board config = inr e -> warm_inv e.
Proof.
  intros H. destruct (Engine_new_inr _ _ _ _ H)
    as (_ & _ & _ & _ & Hw & _ & Hf & Hm & Hs & _ & Hms & Hss & _).
  unfold warm_inv, not_past_wait. rewrite Hf, Hm, Hs, Hms, Hss.
  repeat split; try discriminate; auto.
Qed.

Lemma step_warm_inv (l : Label) (s s' : System) (ev : Event) :
  warm_inv (engine s) -> step l s = Some (s', ev) -> warm_inv (engine s').
Proof.
  unfold warm_inv, not_past_wait. intros (H1 & H2 & H3) H.
  step_cases H; cbn [engine]; cbn;
    repeat match goal with
           | Hi : (_ <? _)%nat = true |- _ => apply Nat.ltb_lt in Hi
           | Hi : (_ <? _)%nat = false |- _ => apply Nat.ltb_ge in Hi
           | Hi : _ && _ = true |- _ => apply andb_true_iff in Hi as [? ?]
           | Hi : _ && _ = false |- _ => apply andb_false_iff in Hi as [Hi|Hi]
           end;
    try (rewrite length_app; cbn [length]);
    repeat split; intros; simplify_eq;
    repeat match goal with
           | Hx : fast_thread_ ?e = Running (FPrimer ?i),
             Hp : forall i, fast_thread_ ?e = Running (FPrimer i) -> _ |- _ =>
               specialize (Hp i Hx); destruct Hp as (? & ? & ?)
           | Hx : fast_thread_ ?e = Running FPublish,
             Hp : fast_thread_ ?e = Running FPublish -> _ |- _ =>
               specialize (Hp Hx); destruct Hp as (? & ?)
           | Hx : warmed_up_ ?e = false,
             Hp : warmed_up_ ?e = false -> _ |- _ =>
               specialize (Hp Hx); destruct Hp as (? & ? & ? & ? & ? & ?)
           | Hp : forall i0, Running (FPrimer ?i) = Running (FPrimer i0) -> _ |- _ =>
               specialize (Hp i eq_refl); destruct Hp as (? & ? & ?)
           | Hp : ?x = ?x -> _ |- _ => specialize (Hp eq_refl)
           end;
    try solve [ intuition (try congruence; try lia) ].
Qed.

Lemma run_warm_inv (ls : list Label) (s0 s : System) :
  warm_inv (engine s0) -> run ls s0 = Some s -> warm_inv (engine s).
Proof.
  apply (run_invariant (fun s => warm_inv (engine s))).
  intros l s1 s2 ev. apply step_warm_inv.
Qed.


Lemma run_snoc (ls : list Label) (l : Label) (s0 s : System) :
  run (ls ++ [l]) s0 = Some s ->
  exists s1 ev, run ls s0 = Some s1 /\ step l s1 = Some (s, ev).
Proof.
  rewrite run_app. destruct (run ls s0) as [s1|]; [|discriminate]. cbn.
  destruct (step l s1) as [[s2 ev]|] eqn:Hs; [|discriminate].
  intros [= ->]. eauto.
Qed.

(** The step that raises the flag finds ten samples when [running_] is
    up. *)
Lemma step_ten (l : Label) (s s' : System) (ev : Event) :
  warm_inv (engine s) ->
  (warmed_up_ (engine s) = true -> (10 <= length (fast_samples_ (engine s)))%nat) ->
  (warmed_up_ (engine s) = false -> running_ (engine s) = true) ->
  step l s = Some (s', ev) ->
  warmed_up_ (engine s') = true -> (10 <= length (fast_samples_ (engine s')))%nat.
Proof.
  unfold warm_inv. intros (H1 & H2 & H3) Hten Hrun H.
  step_cases H; cbn [engine]; cbn; try (rewrite length_app; cbn [length]);
    intros; simplify_eq; try discriminate;
    repeat match goal with
           | Hp : ?x = ?x -> _ |- _ => specialize (Hp eq_refl)
           | Hx : ?a = ?b, Hp : ?a = ?b -> _ |- _ => specialize (Hp Hx)
           end;
    try solve [ intuition (try congruence; try lia) ].
Qed.

End Warmup.

(** C5.  In a run, as long as [running_] was up whenever the flag was down,
    the flag goes up on exactly ten samples, so [sample_count()] is at least
    10 whenever [wait_for_warmup()] can return; and while the flag is down
    the medium and slow buffers are empty. *)
Theorem warmup_takes_ten_samples
    (output_path : string) (board : BoardConfig) (config : EngineConfig)
    (e0 : Engine) (w0 : World) (pre post : list Label)
    (readable : string -> bool) (env : Env) (sa sb s : System) :
  Engine_new output_path board config = inr e0 ->
  run pre (boot e0 w0) = Some sa ->
  step (CallStart readable env) sa = Some (sb, StartReturned) ->
  run post sb = Some s ->
  (forall l1 l2 s1, post = l1 ++ l2 -> run l1 sb = Some s1 ->
     warmed_up_ (engine s1) = false -> running_ (engine s1) = true) ->
  Z.of_nat (length (fast_samples_ (engine s))) < 2 ^ 64 ->
  (warmup_released (engine s) = true -> 10 <= sample_count (engine s))
  /\ (warmup_released (engine s) = false ->
        medium_samples_ (engine s) = [] /\ slow_samples_ (engine s) = [])
  /\ (forall env' s' ev,
        step (FastStep env') s = Some (s', ev) ->
        warmup_released (engine s) = false ->
        warmup_released (engine s') = true ->
        sample_count (engine s) = 10 /\ length (fast_samples_ (engine s)) = 10%nat).
Proof.
  intros Hnew Hpre Hstart Hpost Hcond Hlen.
  assert (Hwa : warm_inv (engine sa)).
  { eapply run_warm_inv; [|exact Hpre]. eapply warm_inv_new, Hnew. }
  assert (Hsa : sync_inv (engine sa)).
  { eapply run_sync_inv; [|exact Hpre].
    destruct (Engine_new_inr _ _ _ _ Hnew)
      as (_ & _ & _ & _ & _ & Hc & _ & _ & _ & Hfs & _ & _ & Hsp).
    apply sync_inv_empty; assumption. }
  assert (Hwb : warm_inv (engine sb)) by (eapply step_warm_inv; eauto).
  assert (Hsb : sync_inv (engine sb)) by (eapply step_sync_inv; eauto).
  assert (Hb : warmed_up_ (engine sb) = false).
  { clear -Hstart. step_cases Hstart. reflexivity. }
  assert (Hmain : forall post s,
             run post sb = Some s ->
             (forall l1 l2 s1, post = l1 ++ l2 -> run l1 sb = Some s1 ->
                warmed_up_ (engine s1) = false -> running_ (engine s1) = true) ->
             warmed_up_ (engine s) = true ->
             (10 <= length (fast_samples_ (engine s)))%nat).
  { clear post s Hpost Hcond Hlen. intros post. induction post as [|l post IH] using rev_ind.
    - intros s [= <-] _. congruence.
    - intros s Hrun Hcond.
      destruct (run_snoc _ _ _ _ Hrun) as (s1 & ev & Hrun1 & Hstep).
      assert (Hcond1 : forall l1 l2 s2, post = l1 ++ l2 -> run l1 sb = Some s2 ->
                warmed_up_ (engine s2) = false -> running_ (engine s2) = true).
      { intros l1 l2 s2 -> Hr. apply (Hcond l1 (l2 ++ [l])); [|exact Hr].
        rewrite app_assoc. reflexivity. }
      eapply step_ten; [| |  |exact Hstep].
      + eapply run_warm_inv; [exact Hwb|exact Hrun1].
      + apply IH; assumption.
      + apply (Hcond post [l]); [reflexivity|exact Hrun1]. }
  assert (Hw : warm_inv (engine s)) by (eapply run_warm_inv; eauto).
  assert (Hs : sync_inv (engine s)) by (eapply run_sync_inv; eauto).
  assert (Hcount : sample_count (engine s) = Z.of_nat (length (fast_samples_ (engine s)))).
  { destruct Hs as (Hc & _). unfold sample_count. rewrite Hc.
    apply IntFacts.u64_small. lia. }
  unfold warmup_released. split; [|split].
  - intros Hup. rewrite Hcount. specialize (Hmain post s Hpost Hcond Hup). lia.
  - intros Hdown. destruct Hw as (_ & _ & H3).
    destruct (H3 Hdown) as (_ & _ & _ & _ & Hm & Hsl). auto.
  - intros env' s' ev Hstep Hdown Hup.
    assert (Hrunning : running_ (engine s) = true).
    { apply (Hcond post [] s); [rewrite app_nil_r; reflexivity|exact Hpost|exact Hdown]. }
    assert (Hten : length (fast_samples_ (engine s)) = 10%nat).
    { destruct Hw as (H1 & H2 & H3). clear -Hstep Hdown Hup Hrunning H1 H2.
      revert Hup. step_cases Hstep; cbn; intros Hup; try congruence.
      destruct H2 as (_ & [H2|H2]); [reflexivity|exact H2|congruence]. }
    rewrite Hcount, Hten. auto.
Qed.

Lemma never_cold_stop_spec (ls : list Label) :
  forall s, never_cold_stop ls s = true ->
  forall l1 l2 s1, ls = l1 ++ l2 -> run l1 s = Some s1 ->
    warmed_up_ (engine s1) = false -> running_ (engine s1) = true.
Proof.
  induction ls as [|l ls IH]; intros s Hc l1 l2 s1 Heq Hrun Hdown;
    cbn [never_cold_stop] in Hc; apply andb_true_iff in Hc as [Hhere Hrest].
  - destruct l1; [|discriminate]. injection Hrun as <-.
    rewrite Hdown in Hhere. exact Hhere.
  - destruct l1 as [|l' l1].
    + injection Hrun as <-. rewrite Hdown in Hhere. exact Hhere.
    + injection Heq as <- ->. cbn [run] in Hrun.
      destruct (step l s) as [[s' ev]|]; [|discriminate].
      eapply IH; eauto.
Qed.

Lemma warmup_takes_ten_samples_witness :
  exists e0 sb s,
    Engine_new "/tmp/trace.bin" board_sample EngineConfig_default = inr e0
    /\ step (CallStart readable_sample env_sample) (boot e0 world_sample)
       = Some (sb, StartReturned)
    /\ run (replicate 12 (FastStep env_tick)) sb = Some s
    /\ warmup_released (engine s) = true
    /\ 10 <= sample_count (engine s).
Proof.
  eexists _, _, _.
  split; [reflexivity|].
  split; [vm_compute; reflexivity|].
  split; [vm_compute; reflexivity|].
  split; [vm_compute; reflexivity|].
  match goal with
  | |- 10 <= sample_count (engine ?s) =>
      refine (proj1 (warmup_takes_ten_samples "/tmp/trace.bin" board_sample
                EngineConfig_default _ world_sample []
                (replicate 12 (FastStep env_tick)) readable_sample env_sample
                _ _ s eq_refl eq_refl _ _ _ _) _)
  end.
  - vm_compute. reflexivity.
  - vm_compute. reflexivity.
  - apply never_cold_stop_spec. vm_compute. reflexivity.
  - vm_compute. reflexivity.
  - vm_compute. reflexivity.
Defined.

(** ** Stopping during warmup *)

Section StopDuringWarmup.

Lemma count_steps_cons (f : Label -> bool) (l : Label) (ls : list Label) :
  count_steps f (l :: ls) = ((if f l then 1 else 0) + count_steps f ls)%nat.
Proof.
  unfold count_steps. rewrite filter_cons.
  destruct (decide (f l = true)) as [H|H].
  - rewrite H. reflexivity.
  - destruct (f l); [congruence|reflexivity].
Qed.


(** A step other than [start()] keeps [stopping_inv] and does not move the
    fast thread away from its publication; a step of the fast thread moves
    it closer. *)
Lemma step_stopping_inv (l : Label) (s s' : System) (ev : Event) :
  warm_inv (engine s) -> stopping_inv (engine s) ->
  is_start l = false -> step l s = Some (s', ev) ->
  stopping_inv (engine s')
  /\ (warm_distance (engine s') + (if is_fast_step l then 1 else 0)
      <= Nat.max (warm_distance (engine s)) (if is_fast_step l then 1 else 0))%nat.
Proof.
  unfold warm_inv, stopping_inv, warm_distance, not_past_wait.
  intros (H1 & H2 & H3) (Hr & Hw) Hl H.
  destruct l; try discriminate Hl; clear Hl;
    step_cases H; cbn [engine is_fast_step]; cbn;
    try congruence;
    repeat match goal with
           | Hp : ?x = ?x -> _ |- _ => specialize (Hp eq_refl)
           | Hx : ?a = ?b, Hp : ?a = ?b -> _ |- _ => specialize (Hp Hx)
           | Hi : _ && _ = true |- _ => apply andb_true_iff in Hi as [? ?]
           end;
    try congruence;
    repeat match goal with
           | |- context [warmed_up_ ?e] => destruct (warmed_up_ e) eqn:?
           | |- context [match fast_thread_ ?e with _ => _ end] =>
               destruct (fast_thread_ e) as [|[?| |]|] eqn:?
           end;
    try solve [ split; [split; [congruence || reflexivity|]|];
                first [ lia | naive_solver congruence ] ].
Qed.

Lemma run_stopping_inv (ls : list Label) :
  forall s s',
  warm_inv (engine s) -> stopping_inv (engine s) ->
  Forall (fun l => is_start l = false) ls -> run ls s = Some s' ->
  stopping_inv (engine s')
  /\ (warm_distance (engine s') + count_steps is_fast_step ls
      <= Nat.max (warm_distance (engine s)) (count_steps is_fast_step ls))%nat.
Proof.
  induction ls as [|l ls IH]; intros s s' Hw Hs Hns Hrun.
  - injection Hrun as <-. split; [exact Hs|]. cbn. lia.
  - cbn [run] in Hrun. destruct (step l s) as [[s1 ev]|] eqn:Hstep; [|discriminate].
    inversion Hns as [|? ? Hl Hns']; subst.
    destruct (step_stopping_inv l s s1 ev Hw Hs Hl Hstep) as [Hs1 Hd1].
    destruct (IH s1 s' (step_warm_inv _ _ _ _ Hw Hstep) Hs1 Hns' Hrun) as [Hs' Hd'].
    split; [exact Hs'|]. rewrite count_steps_cons.
    destruct (is_fast_step l); lia.
Qed.

End StopDuringWarmup.

(** C4.  In a run in which [start()] was called and whose rates are not 0:
    once [stop()] has set [running_] to false, and for as long as the fast
    thread is there to be joined, the fast thread is never blocked while the
    flag is down, and after two of its steps (the exit of the warmup loop
    and the publication), however the other steps of the run fall in
    between and however few primer samples were taken, the flag is up:
    [wait_for_warmup()] returns and the medium and slow threads leave their
    wait. *)
Theorem stop_releases_warmup
    (output_path : string) (board : BoardConfig) (config : EngineConfig)
    (e0 : Engine) (w0 : World) (pre ls : list Label) (s s' : System) :
  Engine_new output_path board config = inr e0 ->
  Int.u32 (fast_hz config) <> 0 ->
  Int.u32 (medium_hz config) <> 0 ->
  Int.u32 (slow_hz config) <> 0 ->
  run pre (boot e0 w0) = Some s ->
  running_ (engine s) = false ->
  joinable (fast_thread_ (engine s)) = true ->
  Forall (fun l => is_start l = false) ls ->
  run ls s = Some s' ->
  (warmup_released (engine s') = false ->
     forall env, is_Some (step (FastStep env) s'))
  /\ ((2 <= count_steps is_fast_step ls)%nat ->
      warmup_released (engine s') = true
      /\ step CallWait s' = Some (s', WaitReturned)
      /\ (medium_thread_ (engine s') = Running TWait ->
          forall env, is_Some (step (MediumStep env) s'))
      /\ (slow_thread_ (engine s') = Running TWait ->
          forall env, is_Some (step (SlowStep env) s'))).
Proof.
  intros Hnew Hfz Hmz Hsz Hpre Hrun Hjoin Hns Hls.
  assert (Hcfg : config_ (engine s') = config).
  { apply (run_keeps_config output_path board config e0 w0 (pre ++ ls) s' Hnew).
    rewrite run_app, Hpre. exact Hls. }
  assert (Hw : warm_inv (engine s)).
  { eapply run_warm_inv; [|exact Hpre]. eapply warm_inv_new, Hnew. }
  assert (Hs : stopping_inv (engine s)).
  { split; [exact Hrun|]. destruct (warmed_up_ (engine s)) eqn:Hup; [auto|right].
    destruct Hw as (_ & _ & H3). destruct (H3 Hup) as (Hm & Hf & _).
    destruct (fast_thread_ (engine s)) as [|[i| |]|]; try discriminate;
      try congruence; eauto. }
  destruct (run_stopping_inv ls s s' Hw Hs Hns Hls) as [(Hr' & Hw') Hd].
  assert (Hdist : (warm_distance (engine s) <= 2)%nat).
  { unfold warm_distance. destruct (warmed_up_ (engine s)); [lia|].
    destruct (fast_thread_ (engine s)) as [|[i| |]|]; lia. }
  unfold warmup_released. split.
  - intros Hdown env. unfold step, fast_step.
    destruct Hw' as [Hup|[[i Hi]|Hp]]; [congruence| |].
    + rewrite Hi, Hcfg, (no_interval_false _ Hfz), andb_false_r.
      destruct ((i <? 10)%nat && running_ (engine s')); cbn;
        eexists; reflexivity.
    + rewrite Hp. cbn. eexists; reflexivity.
  - intros Hcount.
    assert (Hup : warmed_up_ (engine s') = true).
    { remember (warm_distance (engine s)) as d0 eqn:Hd0. clear Hd0.
      unfold warm_distance in Hd.
      destruct (warmed_up_ (engine s')); [reflexivity|].
      destruct Hw' as [Hup|[[i Hi]|Hp]]; [congruence| |].
      - rewrite Hi in Hd. lia.
      - rewrite Hp in Hd. lia. }
    split; [exact Hup|]. unfold step, medium_step, slow_step, warmup_released.
    rewrite Hup, Hcfg, (no_interval_false _ Hmz), (no_interval_false _ Hsz).
    split; [reflexivity|].
    split; intros -> env; cbn; eexists; reflexivity.
Qed.

Lemma stop_releases_warmup_witness :
  exists e0 s s',
    Engine_new "/tmp/trace.bin" board_sample EngineConfig_default = inr e0
    /\ run [CallStart readable_sample env_sample; FastStep env_tick; CallStop]
           (boot e0 world_sample) = Some s
    /\ run [FastStep env_tick; CallSync; FastStep env_tick] s = Some s'
    /\ length (fast_samples_ (engine s')) = 1%nat
    /\ warmup_released (engine s') = true.
Proof.
  eexists _, _, _.
  split; [reflexivity|].
  split; [vm_compute; reflexivity|].
  split; [vm_compute; reflexivity|].
  split; [vm_compute; reflexivity|].
  match goal with
  | |- warmup_released (engine ?s') = true =>
      refine (proj1 (proj2 (stop_releases_warmup "/tmp/trace.bin" board_sample
                EngineConfig_default _ world_sample
                [CallStart readable_sample env_sample; FastStep env_tick; CallStop]
                [FastStep env_tick; CallSync; FastStep env_tick]
                _ s' eq_refl _ _ _ _ _ _ _ _) _))
  end.
  - vm_compute. discriminate.
  - vm_compute. discriminate.
  - vm_compute. discriminate.
  - vm_compute. reflexivity.
  - vm_compute. reflexivity.
  - vm_compute. reflexivity.
  - repeat constructor.
  - vm_compute. reflexivity.
  - vm_compute. lia.
Defined.

(** ** An engine that was never started *)

Section NeverStarted.

Lemma never_started_new (output_path : string) (board : BoardConfig)
    (config : EngineConfig) (e : Engine) :
  Engine_new output_path board config = inr e -> never_started e.
Proof.
  intros H. destruct (Engine_new_inr _ _ _ _ H)
    as (_ & _ & _ & Hr & Hw & Hc & Hf & Hm & Hs & Hfs & Hms & Hss & _).
  unfold never_started. tauto.
Qed.

(** Without [start()] there is no thread and no sample; only sync points
    are added, one per call. *)
Lemma step_never_started (l : Label) (s s' : System) (ev : Event) :
  never_started (engine s) -> is_start l = false ->
  step l s = Some (s', ev) ->
  never_started (engine s')
  /\ length (sync_points_ (engine s'))
     = (length (sync_points_ (engine s)) + (if is_sync l then 1 else 0))%nat
  /\ output_path_ (engine s') = output_path_ (engine s).
Proof.
  unfold never_started. intros (Hf & Hm & Hs & Hr & Hw & Hc & Hfs & Hms & Hss) Hl H.
  destruct l; try discriminate Hl; clear Hl;
    step_cases H; cbn [engine is_sync]; cbn; try congruence;
    try (rewrite length_app; cbn [length]);
    repeat split; try assumption; try lia.
Qed.

Lemma run_never_started (ls : list Label) :
  forall s s',
  never_started (engine s) -> Forall (fun l => is_start l = false) ls ->
  run ls s = Some s' ->
  never_started (engine s')
  /\ length (sync_points_ (engine s'))
     = (length (sync_points_ (engine s)) + count_steps is_sync ls)%nat
  /\ output_path_ (engine s') = output_path_ (engine s).
Proof.
  induction ls as [|l ls IH]; intros s s' Hn Hns Hrun.
  - injection Hrun as <-. split; [exact Hn|]. cbn. split; [lia|reflexivity].
  - cbn [run] in Hrun. destruct (step l s) as [[s1 ev]|] eqn:Hstep; [|discriminate].
    inversion Hns as [|? ? Hl Hns']; subst.
    destruct (step_never_started l s s1 ev Hn Hl Hstep) as (Hn1 & Hk1 & Hp1).
    destruct (IH s1 s' Hn1 Hns' Hrun) as (Hn' & Hk' & Hp').
    split; [exact Hn'|]. rewrite count_steps_cons.
    split; [destruct (is_sync l); lia|congruence].
Qed.

(** [stop()] on a system without threads goes through: nothing is joined,
    the writer runs, and the only failure is that of the writer. *)
Lemma stop_now_without_threads (can_create : bool) (s : System) :
  stopping s = None ->
  fast_thread_ (engine s) = NoThread -> medium_thread_ (engine s) = NoThread ->
  slow_thread_ (engine s) = NoThread ->
  stop_now can_create s
  = Some (stop_finish can_create
            {| engine := set_running false (engine s); os := os s;
               stopping := Some WriteClose |}).
Proof.
  intros Hst Hf Hm Hs. destruct s as [e w st]. destruct e. cbn in *. subst.
  destruct can_create; reflexivity.
Qed.

End NeverStarted.

(** C10, the counterexample: after one [sync()] on an engine that was never
    started, [stop()] writes 744 bytes, with [num_sync_points] 1. *)
Lemma stop_never_started_after_sync :
  exists e0 s s',
    Engine_new "/tmp/trace.bin" board_sample EngineConfig_default = inr e0
    /\ run [CallSync] (boot e0 world_sample) = Some s
    /\ stop_now true s = Some (s', StopReturned)
    /\ Header.num_sync_points (build_header (engine s)) = 1
    /\ exists image,
         files (os s') !! "/tmp/trace.bin"%string = Some image
         /\ length image = 744%nat
         /\ image <> Header.bytes (build_header (engine s)).
Proof.
  eexists _, _, _.
  split; [reflexivity|].
  split; [vm_compute; reflexivity|].
  split; [vm_compute; reflexivity|].
  split; [vm_compute; reflexivity|].
  eexists. split; [vm_compute; reflexivity|].
  split; [vm_compute; reflexivity|].
  intros H. apply (f_equal length) in H. vm_compute in H. discriminate H.
Qed.

(** C10, as amended.  On an engine without threads (never started, or
    stopped before) [stop()] does not fail for not running: it leaves the
    threads as they are and runs the writer, whose failure to open the
    output path is the only error.  If [start()] was never called, the file
    is the 728-byte header, with the three sample counts 0 and
    [num_sync_points] the number of calls of [sync()], followed by that many
    sync points: exactly the header when [sync()] was not called. *)
Theorem stop_without_threads
    (output_path : string) (board : BoardConfig) (config : EngineConfig)
    (e0 : Engine) (w0 : World) (ls : list Label) (s : System)
    (can_create : bool) :
  Engine_new output_path board config = inr e0 ->
  run ls (boot e0 w0) = Some s ->
  stopping s = None ->
  fast_thread_ (engine s) = NoThread ->
  medium_thread_ (engine s) = NoThread ->
  slow_thread_ (engine s) = NoThread ->
  let e := engine s in
  let h := build_header e in
  exists s' ev,
    stop_now can_create s = Some (s', ev)
    /\ fast_thread_ (engine s') = NoThread
    /\ medium_thread_ (engine s') = NoThread
    /\ slow_thread_ (engine s') = NoThread
    /\ running_ (engine s') = false
    /\ (can_create = false ->
        ev = Threw (runtime_error ("Cannot open " ++ output_path_ e)))
    /\ (can_create = true ->
        ev = StopReturned
        /\ files (os s') !! output_path_ e = Some (file_image e))
    /\ (Forall (fun l => is_start l = false) ls ->
        file_image e = Header.bytes h ++ concat (SyncPoint_bytes <$> sync_points_ e)
        /\ length (Header.bytes h) = 728%nat
        /\ Header.num_fast_samples h = 0
        /\ Header.num_medium_samples h = 0
        /\ Header.num_slow_samples h = 0
        /\ Header.num_sync_points h = Z.of_nat (count_steps is_sync ls)
        /\ Z.of_nat (length (file_image e))
           = 728 + 16 * Z.of_nat (count_steps is_sync ls)
        /\ (count_steps is_sync ls = 0%nat -> file_image e = Header.bytes h)).
Proof.
  intros Hnew Hrun Hst Hf Hm Hs e h.
  assert (Hidle : Forall (fun l => is_start l = false) ls ->
            file_image e = Header.bytes h ++ concat (SyncPoint_bytes <$> sync_points_ e)
            /\ length (Header.bytes h) = 728%nat
            /\ Header.num_fast_samples h = 0
            /\ Header.num_medium_samples h = 0
            /\ Header.num_slow_samples h = 0
            /\ Header.num_sync_points h = Z.of_nat (count_steps is_sync ls)
            /\ Z.of_nat (length (file_image e))
               = 728 + 16 * Z.of_nat (count_steps is_sync ls)
            /\ (count_steps is_sync ls = 0%nat -> file_image e = Header.bytes h)).
  { intros Hns. subst e h.
    destruct (run_never_started ls (boot e0 w0) s
                (never_started_new _ _ _ _ Hnew) Hns Hrun)
      as ((_ & _ & _ & _ & _ & _ & Hfs & Hms & Hss) & Hk & _).
    destruct (Engine_new_inr _ _ _ _ Hnew)
      as (_ & _ & _ & _ & _ & _ & _ & _ & _ & _ & _ & _ & Hsp).
    cbn [boot engine] in Hk. rewrite Hsp in Hk. cbn [length] in Hk.
    assert (Himg : file_image (engine s)
                   = Header.bytes (build_header (engine s))
                     ++ concat (SyncPoint_bytes <$> sync_points_ (engine s))).
    { unfold file_image, fwrite. rewrite Hfs, Hms, Hss.
      cbn [fmap list_fmap concat app]. rewrite !app_nil_r. reflexivity. }
    split; [exact Himg|]. split; [apply length_header|].
    split; [cbn; rewrite Hfs; reflexivity|].
    split; [cbn; rewrite Hms; reflexivity|].
    split; [cbn; rewrite Hss; reflexivity|].
    split; [cbn; rewrite Hk; reflexivity|].
    split.
    - rewrite Himg, length_app, length_header.
      rewrite (length_concat_fixed SyncPoint_bytes 16)
        by (apply Forall_forall; intros; apply length_SyncPoint_bytes).
      rewrite Hk. lia.
    - intros H0. rewrite Himg. rewrite H0 in Hk.
      destruct (sync_points_ (engine s)); [|discriminate Hk].
      cbn [fmap list_fmap concat]. rewrite app_nil_r. reflexivity. }
  rewrite (stop_now_without_threads can_create s Hst Hf Hm Hs).
  unfold stop_finish, write_file. cbn [engine os].
  destruct can_create.
  - destruct (close_fds _ _) as [e1 w1] eqn:Hclose.
    eexists _, _. split; [reflexivity|]. cbn [engine os].
    pose proof (close_fds_files (set_running false (engine s))
      {| open_fds := open_fds (os s); next_fd := next_fd (os s);
         files := <[output_path_ (set_running false (engine s)) :=
                      file_image (set_running false (engine s))]> (files (os s)) |})
      as Hfiles.
    rewrite Hclose in Hfiles. cbn in Hfiles.
    apply close_fds_set in Hclose as (? & ? & ? & ? & ->). cbn.
    repeat (split; [assumption || reflexivity|]).
    split; [discriminate|].
    split; [|exact Hidle].
    intros _. split; [reflexivity|]. rewrite Hfiles.
    apply lookup_insert_eq.
  - eexists _, _. split; [reflexivity|]. cbn.
    repeat (split; [assumption || reflexivity|]).
    split; [discriminate|exact Hidle].
Qed.

Lemma stop_without_threads_witness :
  exists e0,
    Engine_new "/tmp/trace.bin" board_sample EngineConfig_default = inr e0
    /\ exists s',
         stop_now true (boot e0 world_sample) = Some (s', StopReturned)
         /\ files (os s') !! "/tmp/trace.bin"%string
            = Some (Header.bytes (build_header e0))
         /\ length (Header.bytes (build_header e0)) = 728%nat.
Proof.
  eexists. split; [reflexivity|].
  match goal with
  | |- exists s', stop_now true (boot ?e0 _) = _ /\ _ =>
      destruct (stop_without_threads "/tmp/trace.bin" board_sample
                  EngineConfig_default e0 world_sample [] (boot e0 world_sample)
                  true eq_refl eq_refl eq_refl eq_refl eq_refl eq_refl)
        as (s1 & ev & Hstop & _ & _ & _ & _ & _ & Hfile & Hidle)
  end.
  destruct (Hfile eq_refl) as [-> Himg].
  destruct (Hidle (List.Forall_nil _)) as (_ & Hlen & _ & _ & _ & _ & _ & Hhdr).
  exists s1. split; [exact Hstop|]. split; [|exact Hlen].
  exact (eq_trans Himg (f_equal Some (Hhdr eq_refl))).
Defined.

(** Outside a run: the predicate of the wait is the flag alone, so on an
    engine on which [start()] was never called a call of [wait_for_warmup]
    blocks, whatever else is called, also after a whole [stop()]. *)
Lemma wait_blocks_before_start :
  exists e0,
    Engine_new "/tmp/trace.bin" board_sample EngineConfig_default = inr e0
    /\ running_ e0 = false /\ warmup_released e0 = false
    /\ (forall ls s,
          Forall (fun l => is_start l = false) ls ->
          run ls (boot e0 world_sample) = Some s ->
          running_ (engine s) = false /\ warmup_released (engine s) = false
          /\ step CallWait s = None)
    /\ exists s',
         stop_now true (boot e0 world_sample) = Some (s', StopReturned)
         /\ running_ (engine s') = false /\ step CallWait s' = None.
Proof.
  eexists. split; [reflexivity|].
  split; [reflexivity|]. split; [reflexivity|]. split.
  - intros ls s Hns Hrun.
    pose proof (never_started_new "/tmp/trace.bin" board_sample
                  EngineConfig_default _ eq_refl) as Hn.
    destruct (run_never_started ls (boot _ world_sample) s Hn Hns Hrun)
      as ((_ & _ & _ & Hr & Hw & _) & _).
    unfold step, warmup_released. rewrite Hw. auto.
  - eexists. split; [vm_compute; reflexivity|].
    split; vm_compute; reflexivity.
Qed.

(** C6, at the failing input: a run that is stopped with an output path
    that cannot be opened.  [stop()] throws after the three joins; the
    descriptor of [/proc/stat] that [start()] opened is still held by the
    engine and still open.  With a path that can be opened the same
    [stop()] closes it. *)
Theorem stop_failure_leaves_descriptors_open :
  exists e0 s s' s'',
    Engine_new "/tmp/trace.bin" board_sample EngineConfig_default = inr e0
    /\ run trace_early_stop (boot e0 world_sample) = Some s
    /\ step (StopStep false) s
       = Some (s', Threw (runtime_error "Cannot open /tmp/trace.bin"))
    /\ stopping s' = None
    /\ fast_thread_ (engine s') = NoThread
    /\ medium_thread_ (engine s') = NoThread
    /\ slow_thread_ (engine s') = NoThread
    /\ fd_proc_stat_ (engine s') = 4
    /\ 4 ∈ open_fds (os s')
    /\ step (StopStep true) s = Some (s'', StopReturned)
    /\ fd_proc_stat_ (engine s'') = -1
    /\ 4 ∉ open_fds (os s'').
Proof.
  eexists _, _, _, _.
  split; [reflexivity|].
  split; [vm_compute; reflexivity|].
  split; [vm_compute; reflexivity|].
  repeat (split; [vm_compute; reflexivity|]).
  apply (bool_decide_unpack _). vm_compute. exact I.
Qed.
#[local] Set Warnings "-clear-no-such-hyp".

(** ** The life cycle *)

Section LifeCycle.

Lemma life_inv_boot (e : Engine) (w : World) :
  running_ e = false -> life_inv (boot e w).
Proof. intros H. split; cbn; [congruence|exact I]. Qed.

Lemma step_life_inv (l : Label) (s s' : System) (ev : Event) :
  life_inv s -> step l s = Some (s', ev) -> life_inv s'.
Proof.
  unfold life_inv, joined, alive. intros (H1 & H2) H.
  step_cases H; cbn [engine stopping]; cbn;
    repeat match goal with
           | Hs : stopping _ = _ |- _ => rewrite Hs in *
           | Hp : ?x = ?x -> _ |- _ => specialize (Hp eq_refl)
           | Hx : ?a = ?b, Hp : ?a = ?b -> _ |- _ => specialize (Hp Hx)
           end;
    try solve [ intuition (eauto; try congruence; try discriminate)
              | destruct (stopping s) as [[]|]; intuition (eauto; congruence)
              | destruct (stopping s') as [[]|]; intuition (eauto; congruence) ].
Qed.

Lemma run_life_inv (ls : list Label) (s0 s : System) :
  life_inv s0 -> run ls s0 = Some s -> life_inv s.
Proof. apply (run_invariant life_inv). intros l s1 s2 ev. apply step_life_inv. Qed.

End LifeCycle.

(** When [stop()] ends, by returning or by throwing, the three threads have
    been joined and [running_] is down; the only exception is that of the
    writer. *)
Theorem stop_joins_all_threads
    (output_path : string) (board : BoardConfig) (config : EngineConfig)
    (e0 : Engine) (w0 : World) (ls : list Label) (s s' : System)
    (can_create : bool) (ev : Event) :
  Engine_new output_path board config = inr e0 ->
  run ls (boot e0 w0) = Some s ->
  step (StopStep can_create) s = Some (s', ev) ->
  ev <> Silent ->
  joined (engine s') /\ running_ (engine s') = false /\ stopping s' = None
  /\ (ev = StopReturned
      \/ ev = Threw (runtime_error ("Cannot open " ++ output_path_ (engine s)))).
Proof.
  intros Hnew Hrun Hstep Hev.
  assert (Hlife : life_inv s).
  { eapply run_life_inv; [|exact Hrun]. apply life_inv_boot.
    destruct (Engine_new_inr _ _ _ _ Hnew) as (_ & _ & _ & Hr & _). exact Hr. }
  destruct Hlife as (_ & H2). unfold joined in *.
  revert Hev. step_cases Hstep; cbn [engine stopping]; cbn; intros Hev;
    try congruence;
    repeat match goal with
           | Hs : stopping _ = _ |- _ => rewrite Hs in *
           end;
    intuition (auto; congruence).
Qed.

Lemma stop_joins_all_threads_witness :
  exists e0 s s',
    Engine_new "/tmp/trace.bin" board_sample EngineConfig_default = inr e0
    /\ run trace_early_stop (boot e0 world_sample) = Some s
    /\ step (StopStep false) s
       = Some (s', Threw (runtime_error "Cannot open /tmp/trace.bin"))
    /\ joined (engine s').
Proof.
  eexists _, _, _.
  split; [reflexivity|].
  split; [vm_compute; reflexivity|].
  split; [vm_compute; reflexivity|].
  match goal with
  | |- joined (engine ?s') =>
      refine (proj1 (stop_joins_all_threads "/tmp/trace.bin" board_sample
                EngineConfig_default _ world_sample trace_early_stop _ s' false
                (Threw (runtime_error "Cannot open /tmp/trace.bin"))
                eq_refl _ _ _))
  end.
  - vm_compute. reflexivity.
  - vm_compute. reflexivity.
  - discriminate.
Defined.

(** What the constructor was given is never changed, and while a fast thread
    exists [prev_cpu_] has exactly [num_cpu_cores] entries, so that the
    accesses [prev_cpu_[c]] of [read_cpu] stay inside the vector. *)
Theorem configuration_is_kept
    (output_path : string) (board : BoardConfig) (config : EngineConfig)
    (e0 : Engine) (w0 : World) (ls : list Label) (s : System) :
  Engine_new output_path board config = inr e0 ->
  run ls (boot e0 w0) = Some s ->
  output_path_ (engine s) = output_path /\ board_ (engine s) = board
  /\ config_ (engine s) = config
  /\ (fast_thread_ (engine s) <> NoThread ->
      length (prev_cpu_ (engine s)) = Z.to_nat (num_cpu_cores board)).
Proof.
  intros Hnew Hrun.
  destruct (Engine_new_inr _ _ _ _ Hnew)
    as (Hp & Hb & Hc & _ & _ & _ & Hf & _).
  assert (Hinv : config_inv e0 (engine s)).
  { apply (run_invariant (fun s => config_inv e0 (engine s))
             (fun l s1 s2 ev => step_config_inv e0 l s1 s2 ev) ls (boot e0 w0));
      [|exact Hrun].
    unfold config_inv. cbn. repeat split. congruence. }
  destruct Hinv as (H1 & H2 & H3 & H4). rewrite H1, H2, H3, Hp, Hb, Hc.
  rewrite Hb in H4. auto.
Qed.

Lemma configuration_is_kept_witness :
  exists e0 s,
    Engine_new "/tmp/trace.bin" board_sample EngineConfig_default = inr e0
    /\ run trace_run (boot e0 world_sample) = Some s
    /\ board_ (engine s) = board_sample.
Proof.
  eexists _, _.
  split; [reflexivity|].
  split; [vm_compute; reflexivity|].
  match goal with
  | |- board_ (engine ?s) = _ =>
      refine (proj1 (proj2 (configuration_is_kept "/tmp/trace.bin" board_sample
                EngineConfig_default _ world_sample trace_run s eq_refl _)))
  end.
  vm_compute. reflexivity.
Defined.

Section AppendOnly.

Lemma step_append_only (l : Label) (s s' : System) (ev : Event) :
  is_start l = false -> step l s = Some (s', ev) ->
  fast_samples_ (engine s) `prefix_of` fast_samples_ (engine s')
  /\ medium_samples_ (engine s) `prefix_of` medium_samples_ (engine s')
  /\ slow_samples_ (engine s) `prefix_of` slow_samples_ (engine s')
  /\ sync_points_ (engine s) `prefix_of` sync_points_ (engine s').
Proof.
  intros Hl H. destruct l; try discriminate Hl; clear Hl;
    step_cases H; simplify_eq; cbn [engine]; cbn;
    (split; [|split; [|split]]);
    first [ reflexivity | apply prefix_app_r; reflexivity | apply prefix_nil ].
Qed.

Lemma step_frozen (l : Label) (s s' : System) (ev : Event) :
  joined (engine s) -> is_start l = false -> step l s = Some (s', ev) ->
  joined (engine s')
  /\ fast_samples_ (engine s') = fast_samples_ (engine s)
  /\ medium_samples_ (engine s') = medium_samples_ (engine s)
  /\ slow_samples_ (engine s') = slow_samples_ (engine s).
Proof.
  unfold joined. intros (Hf & Hm & Hs) Hl H.
  destruct l; try discriminate Hl; clear Hl;
    step_cases H; simplify_eq; cbn [engine]; cbn; try congruence; auto.
Qed.

Lemma run_fast_samples_prefix (ls : list Label) :
  forall s s',
  Forall (fun l => is_start l = false) ls -> run ls s = Some s' ->
  fast_samples_ (engine s) `prefix_of` fast_samples_ (engine s').
Proof.
  induction ls as [|l ls IH]; intros s s' Hns Hrun.
  - injection Hrun as <-. reflexivity.
  - inversion Hns as [|? ? Hl Hns']; subst.
    cbn [run] in Hrun. destruct (step l s) as [[s1 ev]|] eqn:Hstep; [|discriminate].
    destruct (step_append_only l s s1 ev Hl Hstep) as (H1 & _).
    etrans; [exact H1|]. exact (IH s1 s' Hns' Hrun).
Qed.

End AppendOnly.

(** Within a run, that is without a further [start()], the four buffers only
    grow at the end: what was recorded is neither changed nor dropped. *)
Theorem buffers_append_only (ls : list Label) (s s' : System) :
  Forall (fun l => is_start l = false) ls ->
  run ls s = Some s' ->
  fast_samples_ (engine s) `prefix_of` fast_samples_ (engine s')
  /\ medium_samples_ (engine s) `prefix_of` medium_samples_ (engine s')
  /\ slow_samples_ (engine s) `prefix_of` slow_samples_ (engine s')
  /\ sync_points_ (engine s) `prefix_of` sync_points_ (engine s').
Proof.
  intros Hns. revert s. induction Hns as [|l ls Hl _ IH]; intros s Hrun.
  - injection Hrun as <-. split; [|split; [|split]]; reflexivity.
  - cbn [run] in Hrun. destruct (step l s) as [[s1 ev]|] eqn:Hstep; [|discriminate].
    destruct (step_append_only l s s1 ev Hl Hstep) as (H1 & H2 & H3 & H4).
    destruct (IH s1 Hrun) as (H1' & H2' & H3' & H4').
    (split; [|split; [|split]]); etrans; eassumption.
Qed.

Lemma buffers_append_only_witness :
  exists e0 s s',
    Engine_new "/tmp/trace.bin" board_sample EngineConfig_default = inr e0
    /\ run [CallStart readable_sample env_sample; FastStep env_tick]
           (boot e0 world_sample) = Some s
    /\ run [CallSync; FastStep env_tick] s = Some s'
    /\ length (fast_samples_ (engine s)) = 1%nat
    /\ length (fast_samples_ (engine s')) = 2%nat
    /\ fast_samples_ (engine s) `prefix_of` fast_samples_ (engine s').
Proof.
  eexists _, _, _.
  split; [reflexivity|].
  split; [vm_compute; reflexivity|].
  split; [vm_compute; reflexivity|].
  split; [vm_compute; reflexivity|].
  split; [vm_compute; reflexivity|].
  match goal with
  | |- fast_samples_ (engine ?s) `prefix_of` fast_samples_ (engine ?s') =>
      refine (proj1 (buffers_append_only [CallSync; FastStep env_tick] s s' _ _))
  end.
  - repeat constructor.
  - vm_compute. reflexivity.
Defined.

(** Once the threads are joined the sample buffers stay as they are until
    the next [start()]: whatever else is called, [sync()] and [stop()]
    included, they do not change. *)
Theorem buffers_frozen_after_join (ls : list Label) (s s' : System) :
  joined (engine s) ->
  Forall (fun l => is_start l = false) ls ->
  run ls s = Some s' ->
  joined (engine s')
  /\ fast_samples_ (engine s') = fast_samples_ (engine s)
  /\ medium_samples_ (engine s') = medium_samples_ (engine s)
  /\ slow_samples_ (engine s') = slow_samples_ (engine s).
Proof.
  intros Hj Hns. revert s Hj. induction Hns as [|l ls Hl _ IH]; intros s Hj Hrun.
  - injection Hrun as <-. auto.
  - cbn [run] in Hrun. destruct (step l s) as [[s1 ev]|] eqn:Hstep; [|discriminate].
    destruct (step_frozen l s s1 ev Hj Hl Hstep) as (Hj1 & H1 & H2 & H3).
    destruct (IH s1 Hj1 Hrun) as (Hj' & H1' & H2' & H3').
    repeat split; try apply Hj'; congruence.
Qed.

Lemma buffers_frozen_after_join_witness :
  exists e0 s s',
    Engine_new "/tmp/trace.bin" board_sample EngineConfig_default = inr e0
    /\ run (trace_early_stop ++ [StopStep true]) (boot e0 world_sample) = Some s
    /\ run [CallSync; CallStop; StopStep true; StopStep true; StopStep true;
            StopStep true] s = Some s'
    /\ length (fast_samples_ (engine s)) = 1%nat
    /\ fast_samples_ (engine s') = fast_samples_ (engine s).
Proof.
  eexists _, _, _.
  split; [reflexivity|].
  split; [vm_compute; reflexivity|].
  split; [vm_compute; reflexivity|].
  split; [vm_compute; reflexivity|].
  match goal with
  | |- fast_samples_ (engine ?s') = fast_samples_ (engine ?s) =>
      refine (proj1 (proj2 (buffers_frozen_after_join
                [CallSync; CallStop; StopStep true; StopStep true; StopStep true;
                 StopStep true] s s' _ _ _)))
  end.
  - vm_compute. auto.
  - repeat constructor.
  - vm_compute. reflexivity.
Defined.


Section Idle.

Lemma step_idle_inv (l : Label) (s s' : System) (ev : Event) :
  life_inv s -> idle_inv s -> step l s = Some (s', ev) -> idle_inv s'.
Proof.
  unfold life_inv, idle_inv, joined. intros (_ & H2) Hi H.
  step_cases H; cbn [engine stopping]; cbn;
    repeat match goal with
           | Hs : stopping _ = _ |- _ => rewrite Hs in *
           | Hp : ?x = ?x -> _ |- _ => specialize (Hp eq_refl)
           | Hx : ?a = ?b, Hp : ?a = ?b -> _ |- _ => specialize (Hp Hx)
           end;
    try solve [ intuition (auto; try congruence; try discriminate) ].
Qed.

Lemma run_idle_inv (ls : list Label) :
  forall s s', life_inv s -> idle_inv s -> run ls s = Some s' -> idle_inv s'.
Proof.
  induction ls as [|l ls IH]; intros s s' Hl Hi Hrun.
  - injection Hrun as <-. exact Hi.
  - cbn [run] in Hrun. destruct (step l s) as [[s1 ev]|] eqn:Hstep; [|discriminate].
    exact (IH s1 s' (step_life_inv l s s1 ev Hl Hstep)
             (step_idle_inv l s s1 ev Hl Hi Hstep) Hrun).
Qed.

(** The step that ends a [stop()]: the threads are joined, and the event is
    the return or the exception of the writer. *)
Lemma stop_end_step (e0 : Engine) (l : Label) (s s' : System) (ev : Event) :
  life_inv s -> stopping s <> None -> step l s = Some (s', ev) ->
  stopping s' = None ->
  joined (engine s')
  /\ (ev = StopReturned
      \/ ev = Threw (runtime_error ("Cannot open " ++ output_path_ (engine s)))).
Proof.
  unfold life_inv, joined. intros (_ & H2) Hst H Hend.
  step_cases H; cbn [engine stopping] in *; cbn in *;
    repeat match goal with
           | Hs : stopping _ = _ |- _ => rewrite Hs in *
           end;
    try congruence; intuition (auto; congruence).
Qed.

Lemma stop_to_end_spec (e0 : Engine) (ls : list Label) :
  forall s s' ev,
  life_inv s -> config_inv e0 (engine s) -> stopping s <> None ->
  stop_to_end ls s = Some (s', ev) ->
  joined (engine s')
  /\ (ev = StopReturned
      \/ ev = Threw (runtime_error ("Cannot open " ++ output_path_ e0))).
Proof.
  induction ls as [|l ls IH]; intros s s' ev Hl Hc Hst H; cbn in H; [discriminate|].
  destruct (step l s) as [[s1 ev1]|] eqn:Hs; [|discriminate].
  destruct (stopping s1) eqn:Hst1.
  - apply (IH s1 s' ev); try assumption.
    + exact (step_life_inv l s s1 ev1 Hl Hs).
    + exact (step_config_inv e0 l s s1 ev1 Hc Hs).
    + congruence.
  - injection H as <- <-.
    destruct (stop_end_step e0 l s s1 ev1 Hl Hst Hs Hst1) as (Hj & Hev).
    split; [exact Hj|]. destruct Hc as (Hp & _). rewrite <- Hp. exact Hev.
Qed.

End Idle.

(** The destructor and [start()] never end the program because of a thread
    that is still joinable.  Wherever the driving thread stands outside
    [stop()]: on an engine that is not running the destructor finds no
    thread and returns; on a running engine it calls [stop()], and it ends
    the program exactly when that [stop()] throws, which is when the writer
    cannot open the output path; [start()] either throws because the engine
    is running or returns with new threads. *)
Theorem destructor_ends
    (output_path : string) (board : BoardConfig) (config : EngineConfig)
    (e0 : Engine) (w0 : World) (ls steps : list Label) (s : System) :
  Engine_new output_path board config = inr e0 ->
  run ls (boot e0 w0) = Some s ->
  stopping s = None ->
  (is_running (engine s) = false -> destructor steps s = Some DtorDone)
  /\ (forall r, destructor steps s = Some r ->
       (r = DtorTerminates <->
        is_running (engine s) = true
        /\ exists s',
             stop_to_end steps (stop_begin s)
             = Some (s', Threw (runtime_error ("Cannot open " ++ output_path))))
       /\ (r = DtorDone <->
           is_running (engine s) = false
           \/ exists s', stop_to_end steps (stop_begin s) = Some (s', StopReturned)))
  /\ forall readable env,
       exists s' ev,
         step (CallStart readable env) s = Some (s', ev)
         /\ (ev = StartReturned
             \/ ev = Threw (runtime_error "Engine already running")).
Proof.
  intros Hnew Hrun Hst.
  destruct (Engine_new_inr _ _ _ _ Hnew)
    as (Hp0 & _ & _ & Hr & _ & _ & Hf & Hm & Hs & _).
  assert (Hlife : life_inv s).
  { eapply run_life_inv; [|exact Hrun]. apply life_inv_boot. exact Hr. }
  assert (Hidle : idle_inv s).
  { apply (run_idle_inv ls (boot e0 w0) s); [apply life_inv_boot; exact Hr| |exact Hrun].
    intros _ _. repeat split; assumption. }
  assert (Hcfg : config_inv e0 (engine s)).
  { apply (run_config_inv e0 ls (boot e0 w0) s); [|exact Hrun].
    unfold config_inv. cbn. repeat split. congruence. }
  unfold destructor, is_running. unfold idle_inv, joined in Hidle.
  destruct (running_ (engine s)) eqn:Hup.
  - split; [discriminate|]. split.
    + intros r Hd.
      destruct (stop_to_end steps (stop_begin s)) as [[s' ev]|] eqn:Hend;
        [|discriminate].
      destruct (stop_to_end_spec e0 steps (stop_begin s) s' ev) as ((Jf & Jm & Js) & Hev).
      * apply (step_life_inv CallStop s (stop_begin s) Silent Hlife).
        cbn. rewrite Hst. reflexivity.
      * destruct Hcfg as (H1 & H2 & H3 & H4). repeat split; cbn; assumption.
      * discriminate.
      * exact Hend.
      * rewrite Hp0 in Hev. destruct Hev as [->| ->].
        -- injection Hd as <-. unfold destroy_members. rewrite Jf, Jm, Js. cbn.
           split; split.
           ++ discriminate.
           ++ intros (_ & s'' & Hx). discriminate.
           ++ intros _. right. eauto.
           ++ reflexivity.
        -- injection Hd as <-. split; split.
           ++ intros _. split; [reflexivity|]. eauto.
           ++ reflexivity.
           ++ discriminate.
           ++ intros [Hx|(s'' & Hx)]; discriminate.
    + intros readable env. eexists _, _. unfold step, start. rewrite Hst, Hup.
      split; [reflexivity|auto].
  - destruct (Hidle eq_refl Hst) as (Jf & Jm & Js).
    unfold destroy_members. rewrite Jf, Jm, Js. cbn.
    split; [reflexivity|]. split.
    + intros r Hd. injection Hd as <-. split; split.
      * discriminate.
      * intros (Hx & _). discriminate.
      * auto.
      * reflexivity.
    + intros readable env. unfold step, start. rewrite Hst, Hup, Jf, Jm, Js. cbn.
      destruct (do_open_fds readable (start_reset (engine s)) (os s)) as [e1 w1].
      eexists _, _. split; [reflexivity|auto].
Qed.

Lemma destructor_ends_witness :
  exists e0 s,
    Engine_new "/tmp/trace.bin" board_sample EngineConfig_default = inr e0
    /\ run [CallStart readable_sample env_sample; FastStep env_tick; CallSync]
           (boot e0 world_sample) = Some s
    /\ is_running (engine s) = true
    /\ destructor (drop 4 trace_early_stop ++ [StopStep false]) s
       = Some DtorTerminates
    /\ destructor (drop 4 trace_early_stop ++ [StopStep true]) s = Some DtorDone
    /\ exists s',
         stop_to_end (drop 4 trace_early_stop ++ [StopStep false]) (stop_begin s)
         = Some (s', Threw (runtime_error "Cannot open /tmp/trace.bin")).
Proof.
  eexists _, _.
  split; [reflexivity|].
  split; [vm_compute; reflexivity|].
  split; [reflexivity|].
  split; [vm_compute; reflexivity|].
  split; [vm_compute; reflexivity|].
  match goal with
  | |- exists s', stop_to_end ?steps (stop_begin ?s) = _ =>
      destruct (destructor_ends "/tmp/trace.bin" board_sample
                  EngineConfig_default _ world_sample
                  [CallStart readable_sample env_sample; FastStep env_tick; CallSync]
                  steps s eq_refl ltac:(vm_compute; reflexivity) eq_refl)
        as (_ & Hd & _);
      destruct (Hd DtorTerminates ltac:(vm_compute; reflexivity)) as ((Ht & _) & _);
      exact (proj2 (Ht eq_refl))
  end.
Defined.

(** ** Descriptors *)

Section Closing.

Lemma live_cons (fd : Z) (fds : list Z) :
  live (fd :: fds) = (if 0 <=? fd then {[ fd ]} else ∅) ∪ live fds.
Proof.
  unfold live. rewrite filter_cons.
  destruct (decide (0 <= fd)) as [H|H].
  - apply Z.leb_le in H. rewrite H. reflexivity.
  - apply Z.leb_nle in H. rewrite H. set_solver.
Qed.

Lemma live_app (l1 l2 : list Z) : live (l1 ++ l2) = live l1 ∪ live l2.
Proof. unfold live. rewrite filter_app. set_solver. Qed.

Lemma live_nil : live [] = ∅.
Proof. reflexivity. Qed.

#[local] Opaque live.

Lemma live_cons_union (fd : Z) (fds : list Z) :
  live (fd :: fds) = live [fd] ∪ live fds.
Proof. rewrite !live_cons, live_nil. set_solver. Qed.

Lemma live_negative (fd : Z) : fd < 0 -> live [fd] = ∅.
Proof.
  intros H. rewrite live_cons, live_nil.
  destruct (Z.leb_spec 0 fd); [lia|set_solver].
Qed.

Lemma live_held (e : Engine) :
  live (held e)
  = live [fd_gpu_load_ e] ∪ (live [fd_proc_stat_ e] ∪ (live [fd_meminfo_ e]
    ∪ (live [fd_emc_ e] ∪ (live (fd_voltage_ e) ∪ (live (fd_current_ e)
    ∪ live (fd_thermal_ e)))))).
Proof.
  unfold held. cbn [app].
  rewrite (live_cons_union (fd_gpu_load_ e)), (live_cons_union (fd_proc_stat_ e)),
    (live_cons_union (fd_meminfo_ e)), (live_cons_union (fd_emc_ e)), !live_app.
  reflexivity.
Qed.

Lemma try_close_open (fd : Z) (w : World) :
  open_fds (try_close fd w).2 = open_fds w ∖ live [fd]
  /\ (try_close fd w).1 < 0
  /\ next_fd (try_close fd w).2 = next_fd w.
Proof.
  unfold try_close. rewrite live_cons, live_nil.
  destruct (Z.leb_spec 0 fd); cbn; (split; [set_solver|split; [lia|reflexivity]]).
Qed.

Lemma close_all_open (fds : list Z) :
  forall w, open_fds (close_all fds w).2 = open_fds w ∖ live fds
            /\ next_fd (close_all fds w).2 = next_fd w.
Proof.
  induction fds as [|fd fds IH]; intros w;
    [rewrite live_nil; split; [set_solver|reflexivity]|].
  simpl. rewrite live_cons_union.
  pose proof (try_close_open fd w) as (H1 & _ & H2).
  destruct (try_close fd w) as [fd' w1]. cbn in H1, H2.
  destruct (IH w1) as [H3 H4]. destruct (close_all fds w1) as [r w2].
  cbn in *. rewrite H3, H1, H4, H2. split; [set_solver|reflexivity].
Qed.

Lemma close_fds_open (e : Engine) (w : World) :
  open_fds (close_fds e w).2 = open_fds w ∖ live (held e)
  /\ next_fd (close_fds e w).2 = next_fd w
  /\ live (held (close_fds e w).1) = ∅
  /\ fd_voltage_ (close_fds e w).1 = [] /\ fd_current_ (close_fds e w).1 = []
  /\ fd_thermal_ (close_fds e w).1 = [].
Proof.
  rewrite !live_held. unfold close_fds.
  repeat match goal with
         | |- context [try_close ?fd ?w] =>
             let H := fresh in
             pose proof (try_close_open fd w) as (H & ? & ?);
             destruct (try_close fd w) as [? ?]; cbn in H
         | |- context [close_all ?fds ?w] =>
             let H := fresh in
             pose proof (close_all_open fds w) as (H & ?);
             destruct (close_all fds w) as [? ?]; cbn in H
         end.
  cbn [fst snd fd_gpu_load_ fd_proc_stat_ fd_meminfo_ fd_emc_ fd_voltage_
       fd_current_ fd_thermal_ set_fds] in *.
  split; [|split; [congruence|split; [|auto]]].
  - repeat match goal with
           | Hx : open_fds _ = _ |- _ => rewrite Hx; clear Hx
           end.
    rewrite !difference_difference_l_L. reflexivity.
  - rewrite !live_negative by assumption. rewrite live_nil.
    rewrite !(left_id_L ∅ (∪)). reflexivity.
Qed.

End Closing.

(** [close_fds] closes every descriptor the engine holds and nothing else;
    afterwards the engine holds none, and the files are as before. *)
Theorem close_fds_closes_all (e : Engine) (w : World) :
  let e' := (close_fds e w).1 in
  let w' := (close_fds e w).2 in
  (forall fd, fd ∈ held e -> 0 <= fd -> fd ∉ open_fds w')
  /\ (forall fd, fd ∉ held e -> (fd ∈ open_fds w' <-> fd ∈ open_fds w))
  /\ (forall fd, fd ∈ held e' -> fd < 0)
  /\ fd_voltage_ e' = [] /\ fd_current_ e' = [] /\ fd_thermal_ e' = []
  /\ files w' = files w.
Proof.
  intros e' w'. subst e' w'.
  destruct (close_fds_open e w) as (Ho & _ & Hl & Hv & Hc & Ht).
  assert (Hlive : forall fds fd, fd ∈ live fds <-> fd ∈ fds /\ 0 <= fd).
  { intros fds fd. unfold live. rewrite elem_of_list_to_set, list_elem_of_filter.
    tauto. }
  split; [|split; [|split]].
  - intros fd Hin Hpos. rewrite Ho. apply not_elem_of_difference. right.
    apply Hlive. auto.
  - intros fd Hnot. rewrite Ho, elem_of_difference, Hlive. tauto.
  - intros fd Hin. destruct (Z.lt_ge_cases fd 0) as [|Hge]; [assumption|].
    exfalso. assert (Hfd : fd ∈ live (held (close_fds e w).1)) by (apply Hlive; auto).
    rewrite Hl in Hfd. set_solver.
  - repeat (split; [assumption|]). apply close_fds_files.
Qed.

Section Opening.

#[local] Opaque live.

Lemma elem_of_live (fds : list Z) (fd : Z) : fd ∈ live fds <-> fd ∈ fds /\ 0 <= fd.
Proof.
  induction fds as [|x fds IH].
  - rewrite live_nil. set_solver.
  - rewrite live_cons, elem_of_union, IH, elem_of_cons.
    destruct (Z.leb_spec 0 x); set_solver by lia.
Qed.

(** [try_open] either fails with -1 or hands out the next number. *)
Lemma try_open_spec (readable : string -> bool) (p : string) (w : World) :
  open_fds (try_open readable p w).2 = open_fds w ∪ live [(try_open readable p w).1]
  /\ (next_fd w <= next_fd (try_open readable p w).2)%nat
  /\ (forall fd, fd ∈ live [(try_open readable p w).1] ->
        Z.of_nat (next_fd w) <= fd < Z.of_nat (next_fd (try_open readable p w).2))
  /\ files (try_open readable p w).2 = files w.
Proof.
  unfold try_open, os_open.
  destruct (String.eqb p ""); [|destruct (readable p)]; cbn;
    rewrite ?(live_negative (-1)) by lia.
  - split; [set_solver|]. split; [lia|]. split; [set_solver|reflexivity].
  - rewrite live_cons, live_nil.
    destruct (Z.leb_spec 0 (Z.of_nat (next_fd w))); [|lia].
    split; [set_solver|]. split; [lia|]. split; [|reflexivity].
    intros fd Hfd. assert (fd = Z.of_nat (next_fd w)) as -> by set_solver. lia.
  - split; [set_solver|]. split; [lia|]. split; [set_solver|reflexivity].
Qed.

Lemma open_all_spec (readable : string -> bool) (ps : list string) :
  forall (fds : list Z) (w : World),
  exists new,
    (open_all readable ps fds w).1 = fds ++ new
    /\ open_fds (open_all readable ps fds w).2 = open_fds w ∪ live new
    /\ (next_fd w <= next_fd (open_all readable ps fds w).2)%nat
    /\ (forall fd, fd ∈ live new ->
          Z.of_nat (next_fd w) <= fd
          < Z.of_nat (next_fd (open_all readable ps fds w).2))
    /\ files (open_all readable ps fds w).2 = files w.
Proof.
  induction ps as [|p ps IH]; intros fds w.
  - exists []. cbn. rewrite app_nil_r, live_nil.
    split; [reflexivity|]. split; [set_solver|]. split; [lia|].
    split; [set_solver|reflexivity].
  - cbn [open_all].
    pose proof (try_open_spec readable p w) as (H1 & H2 & H3 & H4).
    destruct (try_open readable p w) as [fd w1]. cbn in H1, H2, H3, H4.
    destruct (IH (fds ++ [fd]) w1) as (new & E1 & E2 & E3 & E4 & E5).
    exists (fd :: new). rewrite E1, E2, H1, E5, H4, <- app_assoc.
    rewrite (live_cons_union fd new).
    split; [reflexivity|]. split; [set_solver|]. split; [lia|].
    split; [|reflexivity].
    intros x [Hx|Hx]%elem_of_union; [specialize (H3 x Hx)|specialize (E4 x Hx)]; lia.
Qed.

Lemma open_rails_spec (readable : string -> bool) (rails : list PowerRailConfig) :
  forall (fdv fdc : list Z) (w : World),
  exists newv newc,
    (open_rails readable rails fdv fdc w).1.1 = fdv ++ newv
    /\ (open_rails readable rails fdv fdc w).1.2 = fdc ++ newc
    /\ open_fds (open_rails readable rails fdv fdc w).2
       = open_fds w ∪ (live newv ∪ live newc)
    /\ (next_fd w <= next_fd (open_rails readable rails fdv fdc w).2)%nat
    /\ (forall fd, fd ∈ live newv ∪ live newc ->
          Z.of_nat (next_fd w) <= fd
          < Z.of_nat (next_fd (open_rails readable rails fdv fdc w).2))
    /\ files (open_rails readable rails fdv fdc w).2 = files w.
Proof.
  induction rails as [|r rails IH]; intros fdv fdc w.
  - exists [], []. cbn. rewrite !app_nil_r, live_nil.
    repeat split; try reflexivity; try lia; set_solver.
  - cbn [open_rails].
    pose proof (try_open_spec readable (voltage_path r) w) as (H1 & H2 & H3 & H4).
    destruct (try_open readable (voltage_path r) w) as [v w1]. cbn in H1, H2, H3, H4.
    pose proof (try_open_spec readable (current_path r) w1) as (G1 & G2 & G3 & G4).
    destruct (try_open readable (current_path r) w1) as [c w2]. cbn in G1, G2, G3, G4.
    destruct (IH (fdv ++ [v]) (fdc ++ [c]) w2) as (newv & newc & E1 & E2 & E3 & E4 & E5 & E6).
    exists (v :: newv), (c :: newc).
    rewrite E1, E2, E3, G1, H1, E6, G4, H4, <- !app_assoc.
    rewrite (live_cons_union v newv), (live_cons_union c newc).
    split; [reflexivity|]. split; [reflexivity|]. split; [set_solver|].
    split; [lia|]. split; [|reflexivity].
    intros x Hx.
    assert (Hcases : x ∈ live [v] \/ x ∈ live [c] \/ x ∈ live newv ∪ live newc)
      by set_solver.
    destruct Hcases as [Hv|[Hc|Hn]];
      [specialize (H3 x Hv)|specialize (G3 x Hc)|specialize (E5 x Hn)]; lia.
Qed.

(** [open_fds()] on an engine whose descriptor vectors are empty: what the
    engine holds afterwards is what was opened, and all of it is new. *)
Lemma do_open_fds_spec (readable : string -> bool) (e : Engine) (w : World) :
  fd_voltage_ e = [] -> fd_current_ e = [] -> fd_thermal_ e = [] ->
  open_fds (do_open_fds readable e w).2
  = open_fds w ∪ live (held (do_open_fds readable e w).1)
  /\ (forall fd, fd ∈ live (held (do_open_fds readable e w).1) ->
        Z.of_nat (next_fd w) <= fd
        < Z.of_nat (next_fd (do_open_fds readable e w).2))
  /\ (next_fd w <= next_fd (do_open_fds readable e w).2)%nat
  /\ files (do_open_fds readable e w).2 = files w.
Proof.
  intros Hv Hc Ht. unfold do_open_fds. rewrite Hv, Hc, Ht.
  pose proof (try_open_spec readable (gpu_load_path (board_ e)) w) as (A1 & A2 & A3 & A4).
  destruct (try_open readable (gpu_load_path (board_ e)) w) as [gpu w1].
  pose proof (try_open_spec readable "/proc/stat" w1) as (B1 & B2 & B3 & B4).
  destruct (try_open readable "/proc/stat" w1) as [stat w2].
  pose proof (try_open_spec readable "/proc/meminfo" w2) as (C1 & C2 & C3 & C4).
  destruct (try_open readable "/proc/meminfo" w2) as [mem w3].
  pose proof (try_open_spec readable (emc_actmon_path (board_ e)) w3) as (D1 & D2 & D3 & D4).
  destruct (try_open readable (emc_actmon_path (board_ e)) w3) as [emc w4].
  destruct (open_rails_spec readable (power_rails (board_ e)) [] [] w4)
    as (newv & newc & E1 & E2 & E3 & E4 & E5 & E6).
  destruct (open_rails readable (power_rails (board_ e)) [] [] w4) as [[fdv fdc] w5].
  destruct (open_all_spec readable (temp_path <$> thermal_zones (board_ e)) [] w5)
    as (newt & F1 & F2 & F3 & F4 & F5).
  destruct (open_all readable (temp_path <$> thermal_zones (board_ e)) [] w5) as [fdt w6].
  cbn [fst snd] in *. subst fdv fdc fdt. cbn [app].
  rewrite live_held.
  cbn [fd_gpu_load_ fd_proc_stat_ fd_meminfo_ fd_emc_ fd_voltage_ fd_current_
       fd_thermal_ set_fds].
  split; [|split; [|split]].
  - rewrite F2, E3, D1, C1, B1, A1. rewrite <- !(assoc_L (∪)). reflexivity.
  - intros fd Hfd.
    assert (Hcases : fd ∈ live [gpu] \/ fd ∈ live [stat] \/ fd ∈ live [mem]
                     \/ fd ∈ live [emc] \/ fd ∈ live newv ∪ live newc
                     \/ fd ∈ live newt) by set_solver.
    destruct Hcases as [H|[H|[H|[H|[H|H]]]]];
      [specialize (A3 fd H)|specialize (B3 fd H)|specialize (C3 fd H)
      |specialize (D3 fd H)|specialize (E5 fd H)|specialize (F4 fd H)]; lia.
  - lia.
  - congruence.
Qed.

End Opening.

Section Leaks.

#[local] Opaque live.

Lemma fd_inv_boot (output_path : string) (board : BoardConfig)
    (config : EngineConfig) (e0 : Engine) (w0 : World) :
  Engine_new output_path board config = inr e0 -> world_ok w0 ->
  fd_inv (open_fds w0) (boot e0 w0).
Proof.
  intros Hnew Hok.
  assert (Hheld : held e0 = [-1; -1; -1; -1] /\ fd_voltage_ e0 = []
                  /\ fd_current_ e0 = [] /\ fd_thermal_ e0 = []).
  { unfold Engine_new in Hnew. repeat case_match; simplify_eq. cbn. auto. }
  destruct Hheld as (Hh & Hv & Hc & Ht).
  assert (Hl : live (held e0) = ∅).
  { apply set_eq. intros fd. rewrite elem_of_live, Hh.
    rewrite !elem_of_cons, elem_of_nil, elem_of_empty. lia. }
  unfold fd_inv, boot. cbn [engine os stopping]. rewrite Hl.
  split; [exact Hok|]. split; [set_solver|]. split; [set_solver|auto].
Qed.

Lemma step_fd_inv (base : gset Z) (l : Label) (s s' : System) (ev : Event) :
  writable l = true -> fd_inv base s -> step l s = Some (s', ev) ->
  fd_inv base s'.
Proof.
  intros Hw (Hok & Hopen & Hdisj & Hidle) H.
  destruct l; cbn in Hw.
  - (* start() *)
    cbn in H. destruct (stopping s) eqn:Hs; [discriminate|]. unfold start in H.
    destruct (running_ (engine s)) eqn:Hr.
    { simplify_eq. unfold fd_inv. rewrite Hr. auto. }
    destruct (joinable _ || joinable _ || joinable _); [discriminate|].
    destruct (Hidle eq_refl eq_refl) as (Hl & Hv & Hc & Ht).
    pose proof (do_open_fds_spec readable (start_reset (engine s)) (os s) Hv Hc Ht)
      as (A & B & C & D).
    destruct (do_open_fds readable (start_reset (engine s)) (os s)) as [e1 w1] eqn:Ho.
    apply do_open_fds_set in Ho as (? & ? & ? & ? & ? & ? & ? & ->).
    simplify_eq. cbn [fst snd] in *.
    unfold fd_inv. cbn [engine os stopping].
    change (held (start_spawn env ?e)) with (held e).
    change (running_ (start_spawn env (set_fds ?a ?b ?c ?d ?f ?g ?h (start_reset ?e))))
      with true.
    rewrite Hopen, Hl in A. rewrite (right_id_L ∅ (∪)) in A.
    split; [|split; [exact A|split; [|discriminate]]].
    + intros fd Hfd. rewrite A in Hfd. apply elem_of_union in Hfd as [Hfd|Hfd].
      * assert (fd ∈ open_fds (os s)) as Hin by (rewrite Hopen; set_solver).
        specialize (Hok fd Hin). lia.
      * specialize (B fd Hfd). lia.
    + intros fd Hb Hfd. specialize (B fd Hfd).
      assert (fd ∈ open_fds (os s)) as Hin by (rewrite Hopen; set_solver).
      specialize (Hok fd Hin). lia.
  - (* the entry of stop() *)
    cbn in H. destruct (stopping s); simplify_eq.
    unfold fd_inv. cbn. split; [exact Hok|]. split; [exact Hopen|].
    split; [exact Hdisj|discriminate].
  - (* inside stop() *)
    subst can_create. cbn in H. destruct (stopping s) as [pc|] eqn:Hs; [|discriminate].
    cbn in H. destruct pc; cbn in H.
    1-3: match type of H with context [join ?t] => destruct (join t) end;
         cbn in H; simplify_eq; unfold fd_inv; cbn;
         (split; [exact Hok|]); (split; [exact Hopen|]);
         (split; [exact Hdisj|discriminate]).
    unfold stop_finish, write_file in H.
    match type of H with
    | context [close_fds ?e ?w] =>
        pose proof (close_fds_open e w) as (A & B & C & D & E & F);
        destruct (close_fds e w) as [e1 w1]
    end.
    simplify_eq. cbn [fst snd open_fds next_fd] in *.
    unfold fd_inv. cbn [engine os stopping]. rewrite C.
    split; [|split; [|split; [set_solver|auto]]].
    + intros fd Hfd. rewrite B. apply Hok. set_solver.
    + rewrite A, Hopen. set_solver.
  - (* sync() *)
    cbn in H. unfold sync, with_engine in H. simplify_eq.
    unfold fd_inv. cbn. auto.
  - (* wait_for_warmup() *)
    cbn in H. destruct (warmup_released (engine s)); simplify_eq.
    unfold fd_inv. auto.
  - revert Hopen Hdisj Hidle. unfold fd_inv. step_cases H; cbn;
      intros Hopen Hdisj Hidle; (split; [exact Hok|]); (split; [exact Hopen|]);
      (split; [exact Hdisj|]); intros; try congruence; auto.
  - revert Hopen Hdisj Hidle. unfold fd_inv. step_cases H; cbn;
      intros Hopen Hdisj Hidle; (split; [exact Hok|]); (split; [exact Hopen|]);
      (split; [exact Hdisj|]); intros; try congruence; auto.
  - revert Hopen Hdisj Hidle. unfold fd_inv. step_cases H; cbn;
      intros Hopen Hdisj Hidle; (split; [exact Hok|]); (split; [exact Hopen|]);
      (split; [exact Hdisj|]); intros; try congruence; auto.
Qed.

Lemma run_fd_inv (base : gset Z) (ls : list Label) :
  forall s s',
  fd_inv base s -> Forall (fun l => writable l = true) ls ->
  run ls s = Some s' -> fd_inv base s'.
Proof.
  induction ls as [|l ls IH]; intros s s' Hinv Hw Hrun.
  - injection Hrun as <-. exact Hinv.
  - cbn [run] in Hrun. destruct (step l s) as [[s1 ev]|] eqn:Hstep; [|discriminate].
    inversion Hw as [|? ? Hl Hw']; subst.
    exact (IH s1 s' (step_fd_inv base l s s1 ev Hl Hinv Hstep) Hw' Hrun).
Qed.

End Leaks.

(** However often the engine is started and stopped, as long as no [stop()]
    fails on the output file: the process has open what it had open when the
    engine was made and what the engine holds, the engine holds only
    descriptors opened after that, and once the engine is neither running
    nor inside [stop()] exactly the descriptors of before are open. *)
Theorem no_descriptor_leak
    (output_path : string) (board : BoardConfig) (config : EngineConfig)
    (e0 : Engine) (w0 : World) (ls : list Label) (s : System) :
  Engine_new output_path board config = inr e0 ->
  world_ok w0 ->
  Forall (fun l => writable l = true) ls ->
  run ls (boot e0 w0) = Some s ->
  (forall fd, fd ∈ open_fds (os s) <->
              fd ∈ open_fds w0 \/ (fd ∈ held (engine s) /\ 0 <= fd))
  /\ (forall fd, fd ∈ held (engine s) -> 0 <= fd -> fd ∉ open_fds w0)
  /\ (running_ (engine s) = false -> stopping s = None ->
      open_fds (os s) = open_fds w0).
Proof.
  intros Hnew Hok Hw Hrun.
  destruct (run_fd_inv (open_fds w0) ls (boot e0 w0) s
              (fd_inv_boot _ _ _ _ _ Hnew Hok) Hw Hrun) as (_ & Hopen & Hdisj & Hidle).
  split; [|split].
  - intros fd. rewrite Hopen, elem_of_union, elem_of_live. reflexivity.
  - intros fd Hin Hpos Hb. apply (Hdisj fd Hb). apply elem_of_live. auto.
  - intros Hr Hs. destruct (Hidle Hr Hs) as (Hl & _). rewrite Hopen, Hl.
    apply (right_id_L ∅ (∪)).
Qed.

Lemma no_descriptor_leak_witness :
  exists e0 s,
    Engine_new "/tmp/trace.bin" board_sample EngineConfig_default = inr e0
    /\ run (trace_run ++ [StopStep true]) (boot e0 world_sample) = Some s
    /\ running_ (engine s) = false /\ stopping s = None
    /\ open_fds (os s) = open_fds world_sample.
Proof.
  eexists _, _.
  split; [reflexivity|].
  split; [vm_compute; reflexivity|].
  split; [reflexivity|]. split; [reflexivity|].
  match goal with
  | |- open_fds (os ?s) = _ =>
      refine (proj2 (proj2 (no_descriptor_leak "/tmp/trace.bin" board_sample
                EngineConfig_default _ world_sample
                (trace_run ++ [StopStep true]) s eq_refl _ _ _)) eq_refl eq_refl)
  end.
  - intros fd Hfd. unfold world_sample in *. cbn in *.
    rewrite !elem_of_union, !elem_of_singleton in Hfd. lia.
  - unfold trace_run. cbn [replicate app].
    repeat (apply List.Forall_cons; [reflexivity|]). apply List.Forall_nil.
  - vm_compute. reflexivity.
Defined.

(** ** The parsers and the readers on their own *)

Section ParsersMore.

Lemma skip_past_Some (p : list Z) (c : Z) :
  forall r, skip_past p c = Some r ->
            exists l, p = l ++ c :: r /\ (c ∉ l) /\ (0 ∉ l) /\ c <> 0.
Proof.
  induction p as [|x p IH]; intros r H; simpl in H; [discriminate|].
  destruct (Z.eqb_spec x 0) as [|Hx0]; [discriminate|].
  destruct (Z.eqb_spec x c) as [->|Hxc].
  - injection H as ->. exists []. split; [reflexivity|].
    split; [apply not_elem_of_nil|]. split; [apply not_elem_of_nil|exact Hx0].
  - destruct (IH r H) as (l & -> & Hc & H0 & Hc0). exists (x :: l).
    split; [reflexivity|]. rewrite !not_elem_of_cons. auto.
Qed.

Lemma skip_past_None (p : list Z) (c : Z) :
  skip_past p c = None <-> c ∉ c_str p.
Proof.
  induction p as [|x p IH]; simpl.
  - split; [intros _; apply not_elem_of_nil|reflexivity].
  - destruct (Z.eqb_spec x 0) as [|Hx0].
    + split; [intros _; apply not_elem_of_nil|reflexivity].
    + destruct (Z.eqb_spec x c) as [->|Hxc].
      * split; [discriminate|]. intros H. exfalso. apply H. left.
      * rewrite IH, not_elem_of_cons. intuition congruence.
Qed.

Lemma skip_blanks_app (bl r : list Z) :
  Forall (fun x => is_blank x = true) bl -> is_blank (deref r) = false ->
  skip_blanks (bl ++ r) = r.
Proof.
  intros Hb Hr. induction Hb as [|x bl Hx _ IH]; simpl.
  - destruct r as [|y r]; [reflexivity|]. simpl in *. rewrite Hr. reflexivity.
  - rewrite Hx. exact IH.
Qed.

Lemma digits_value_app (ds r : list Z) (v : Z) :
  digits ds -> is_digit (deref r) = false ->
  digits_value v (ds ++ r) = foldl (fun v x => v * 10 + (x - 48)) v ds.
Proof.
  intros Hd Hr. revert v. induction Hd as [|x ds Hx _ IH]; intros v; simpl.
  - destruct r as [|y r]; [reflexivity|]. simpl in *. rewrite Hr. reflexivity.
  - rewrite Hx. apply IH.
Qed.

Lemma decimal_bound_from (ds : list Z) :
  digits ds ->
  forall v, 0 <= v ->
  v * 10 ^ Z.of_nat (length ds) <= foldl (fun v x => v * 10 + (x - 48)) v ds
  < (v + 1) * 10 ^ Z.of_nat (length ds).
Proof.
  induction 1 as [|x ds Hx _ IH]; intros v Hv; simpl foldl.
  - cbn [length]. change (Z.of_nat 0) with 0. lia.
  - apply is_digit_spec in Hx.
    specialize (IH (v * 10 + (x - 48)) ltac:(lia)).
    cbn [length]. rewrite Nat2Z.inj_succ, Z.pow_succ_r by lia.
    assert (0 < 10 ^ Z.of_nat (length ds)) by (apply Z.pow_pos_nonneg; lia).
    nia.
Qed.

Lemma decimal_bound (ds : list Z) :
  digits ds -> 0 <= decimal ds < 10 ^ Z.of_nat (length ds).
Proof.
  intros H. pose proof (decimal_bound_from ds H 0 ltac:(lia)) as Hb.
  unfold decimal. lia.
Qed.

Lemma strtol_decimal (ds r : list Z) :
  field_ok ds -> is_digit (deref r) = false ->
  strtol (ds ++ r) = Z.min Int.LONG_MAX (decimal ds).
Proof.
  intros [Hne Hd] Hr. destruct ds as [|x ds]; [congruence|].
  pose proof (decimal_bound _ Hd) as Hb.
  inversion Hd as [|? ? Hx Hds]; subst.
  assert (Hsp : is_space x = false).
  { apply is_digit_spec in Hx. unfold is_space.
    apply orb_false_iff. split; [apply Z.eqb_neq; lia|].
    apply andb_false_iff. right. apply Z.leb_gt. lia. }
  unfold strtol. cbn [app skip_isspace]. rewrite Hsp.
  assert (Hsign : (match x :: ds ++ r with
                   | 45 :: r0 => (true, r0)
                   | 43 :: r0 => (false, r0)
                   | _ => (false, x :: ds ++ r)
                   end) = (false, x :: ds ++ r)).
  { apply is_digit_spec in Hx.
    assert (x = 48 \/ x = 49 \/ x = 50 \/ x = 51 \/ x = 52 \/ x = 53 \/ x = 54
            \/ x = 55 \/ x = 56 \/ x = 57) as Hc by lia.
    repeat (destruct Hc as [->|Hc]; [reflexivity|]). subst x. reflexivity. }
  rewrite Hsign.
  change (x :: ds ++ r) with ((x :: ds) ++ r).
  rewrite (digits_value_app (x :: ds) r 0 Hd Hr).
  change (foldl (fun v x0 => v * 10 + (x0 - 48)) 0 (x :: ds))
    with (decimal (x :: ds)).
  unfold Int.LONG_MIN, Int.LONG_MAX. lia.
Qed.

End ParsersMore.

(** [skip_past] as a whole: it yields [nullptr] exactly when the character
    is not in the string (never for the NUL itself), and otherwise the text
    after the first occurrence. *)
Theorem skip_past_spec (p : list Z) (c : Z) :
  (skip_past p c = None <-> c ∉ c_str p)
  /\ (forall r, skip_past p c = Some r <->
        exists l, p = l ++ c :: r /\ (c ∉ l) /\ (0 ∉ l) /\ c <> 0).
Proof.
  split; [apply skip_past_None|]. intros r. split; [apply skip_past_Some|].
  intros (l & -> & Hc & H0 & Hc0). apply skip_past_line; [exact Hc0|].
  apply Forall_forall. intros x Hx. split; intros ->; auto.
Qed.

(** [parse_u64] on a decimal number followed by blanks: the number modulo
    2^64 (there is no check for overflow), and the pointer after the
    blanks. *)
Theorem parse_u64_decimal (ds bl r : list Z) :
  digits ds -> Forall (fun x => is_blank x = true) bl ->
  is_digit (deref (bl ++ r)) = false -> is_blank (deref r) = false ->
  parse_u64 (ds ++ bl ++ r) = (decimal ds mod 2 ^ 64, r).
Proof.
  intros Hd Hb Hnd Hnb. rewrite parse_u64_field by assumption.
  rewrite skip_blanks_app by assumption. reflexivity.
Qed.

Lemma parse_u64_decimal_witness :
  parse_u64 (bytes_of "18446744073709551617" ++ bytes_of "  " ++ bytes_of "kB")
  = (1, bytes_of "kB").
Proof.
  refine (parse_u64_decimal (bytes_of "18446744073709551617") (bytes_of "  ")
            (bytes_of "kB") _ _ _ _).
  - repeat constructor.
  - repeat constructor.
  - reflexivity.
  - reflexivity.
Defined.

(** What [sysfs_read_int] makes of a pseudo-file that starts with a decimal
    number: the first 31 bytes are read, and a number of up to 9 digits is
    returned as it stands. *)
Theorem sysfs_read_int_decimal (env : Env) (fd : Z) (ds rest : list Z) :
  0 <= fd -> env_read env fd = Some (ds ++ rest) ->
  field_ok ds -> (length ds <= 9)%nat -> is_digit (deref rest) = false ->
  sysfs_read_int env fd = decimal ds.
Proof.
  intros Hfd Hread Hf Hlen Hrest. unfold sysfs_read_int, sysfs_read.
  apply Z.ltb_ge in Hfd. rewrite Hfd, Hread.
  change (32 - 1)%nat with 31%nat.
  rewrite take_app_ge by lia.
  destruct Hf as [Hne Hd].
  destruct ds as [|x ds]; [congruence|]. cbn [app].
  change (x :: ds ++ take (31 - length (x :: ds)) rest)
    with ((x :: ds) ++ take (31 - length (x :: ds)) rest).
  unfold atoi.
  assert (Hr' : is_digit (deref (take (31 - length (x :: ds)) rest)) = false).
  { destruct rest as [|y rest]; [rewrite take_nil; reflexivity|].
    destruct (31 - length (x :: ds))%nat as [|k] eqn:Hk; [lia|]. exact Hrest. }
  rewrite strtol_decimal by (auto; split; auto).
  pose proof (decimal_bound _ Hd) as Hb.
  assert (10 ^ Z.of_nat (length (x :: ds)) <= 10 ^ 9)
    by (apply Z.pow_le_mono_r; lia).
  unfold Int.LONG_MAX. rewrite Z.min_r by lia.
  apply IntFacts.i32_small. lia.
Qed.

Lemma sysfs_read_int_decimal_witness :
  sysfs_read_int env_tick 7 = 45500.
Proof.
  refine (sysfs_read_int_decimal env_tick 7 (bytes_of "45500") [] _ _ _ _ _).
  - lia.
  - reflexivity.
  - split; [discriminate|repeat constructor].
  - simpl. lia.
  - reflexivity.
Defined.

Lemma read_gpu_load_bounds (env : Env) (fd : Z) :
  0 <= read_gpu_load env fd <= 1000.
Proof.
  unfold read_gpu_load, clamp_int.
  destruct (Z.ltb_spec (sysfs_read_int env fd) 0); [vm_compute; split; discriminate|].
  destruct (Z.ltb_spec 1000 (sysfs_read_int env fd)); [vm_compute; split; discriminate|].
  unfold Int.u16, Int.wrap. rewrite Z.mod_small; lia.
Qed.

(** [read_gpu_load] stays within 0..1000 whatever the file holds, and is 0
    when the descriptor is not open or the read fails. *)
Theorem read_gpu_load_range (env : Env) (fd : Z) :
  0 <= read_gpu_load env fd <= 1000
  /\ (sysfs_read env fd 32 = None -> read_gpu_load env fd = 0)
  /\ (fd < 0 -> read_gpu_load env fd = 0).
Proof.
  split; [apply read_gpu_load_bounds|].
  unfold read_gpu_load, sysfs_read_int. split.
  - intros ->. reflexivity.
  - intros Hfd. unfold sysfs_read. apply Z.ltb_lt in Hfd. rewrite Hfd. reflexivity.
Qed.

(** [read_emc] returns -1 exactly when the descriptor is not open or the
    read fails; any other value lies between 0 and 100. *)
Theorem read_emc_range (env : Env) (fd : Z) :
  (read_emc env fd = F32.of_Z (-1) <-> fd < 0 \/ sysfs_read env fd 64 = None)
  /\ (read_emc env fd <> F32.of_Z (-1) ->
      F32.ltb (read_emc env fd) F32.zero = false
      /\ F32.ltb (F32.of_Z 100) (read_emc env fd) = false).
Proof.
  assert (Hclamp : forall v,
             F32.ltb (F32.clamp v F32.zero (F32.of_Z 100)) F32.zero = false
             /\ F32.ltb (F32.of_Z 100) (F32.clamp v F32.zero (F32.of_Z 100)) = false).
  { intros v. unfold F32.clamp.
    destruct (F32.ltb v F32.zero) eqn:H0; [split; reflexivity|].
    destruct (F32.ltb (F32.of_Z 100) v) eqn:H1; [split; reflexivity|].
    split; assumption. }
  unfold read_emc.
  destruct (Z.ltb_spec fd 0) as [Hneg|Hpos].
  { split; [split; auto|]. congruence. }
  destruct (sysfs_read env fd 64) as [buf|].
  - destruct (Hclamp (F32.of_Z (atoi buf))) as [H0 H1].
    split; [|auto]. split.
    + intros E. rewrite E in H0. discriminate H0.
    + intros [?|?]; [lia|discriminate].
  - split; [split; auto|]. congruence.
Qed.

Section Slots.

(** A loop that stores [f i] in slot [i] for [i] from [a] to [a + n - 1]. *)
Lemma foldl_insert_seq {A} (f : nat -> A) (n : nat) :
  forall (a : nat) (t : list A) (j : nat) (x : A),
  t !! j = Some x ->
  foldl (fun t i => <[i := f i]> t) t (seq a n) !! j
  = Some (if (a <=? j)%nat && (j <? a + n)%nat then f j else x).
Proof.
  induction n as [|n IH]; intros a t j x Hj; cbn [seq foldl].
  - rewrite Hj. f_equal.
    destruct (Nat.leb_spec a j); destruct (Nat.ltb_spec j (a + 0)); cbn; auto; lia.
  - destruct (decide (j = a)) as [->|Hne].
    + rewrite (IH (S a) (<[a := f a]> t) a (f a)).
      * f_equal.
        destruct (Nat.leb_spec (S a) a); destruct (Nat.leb_spec a a);
          destruct (Nat.ltb_spec a (a + S n)); destruct (Nat.ltb_spec a (S a + n));
          cbn; auto; lia.
      * apply list_lookup_insert_eq. apply lookup_lt_is_Some. eauto.
    + rewrite (IH (S a) (<[a := f a]> t) j x).
      * f_equal.
        destruct (Nat.leb_spec (S a) j); destruct (Nat.leb_spec a j);
          destruct (Nat.ltb_spec j (a + S n)); destruct (Nat.ltb_spec j (S a + n));
          cbn; auto; lia.
      * rewrite list_lookup_insert_ne by auto. exact Hj.
Qed.

Lemma length_foldl_insert {A} (f : nat -> A) (l : list nat) :
  forall t : list A, length (foldl (fun t i => <[i := f i]> t) t l) = length t.
Proof.
  induction l as [|i l IH]; intros t; cbn [foldl]; [reflexivity|].
  rewrite IH. apply length_insert.
Qed.

(** The three arrays of [read_power] are filled independently. *)
Lemma power_rail_arrays (env : Env) (fdv fdc : list Z) (l : list nat) :
  forall s,
  let v i := Int.u32 (sysfs_read_int env (nth i fdv (-1))) in
  let c i := Int.u32 (sysfs_read_int env (nth i fdc (-1))) in
  let r := foldl (power_rail env fdv fdc) s l in
  m_time_s r = m_time_s s
  /\ voltage_mv r = foldl (fun t i => <[i := v i]> t) (voltage_mv s) l
  /\ current_ma r = foldl (fun t i => <[i := c i]> t) (current_ma s) l
  /\ power_mw r
     = foldl (fun t i => <[i := F32.div (F32.mul (F32.of_Z (v i)) (F32.of_Z (c i)))
                                    (F32.of_Z 1000)]> t) (power_mw s) l.
Proof.
  induction l as [|i l IH]; intros s; cbn [foldl]; [auto|].
  destruct (IH (power_rail env fdv fdc s i)) as (H0 & H1 & H2 & H3).
  cbn zeta. rewrite H0, H1, H2, H3. auto.
Qed.

Lemma power_zero_arrays (l : list nat) :
  forall s,
  let r := foldl power_zero s l in
  m_time_s r = m_time_s s
  /\ voltage_mv r = foldl (fun t i => <[i := 0]> t) (voltage_mv s) l
  /\ current_ma r = foldl (fun t i => <[i := 0]> t) (current_ma s) l
  /\ power_mw r = foldl (fun t i => <[i := F32.zero]> t) (power_mw s) l.
Proof.
  induction l as [|i l IH]; intros s; cbn [foldl]; [auto|].
  destruct (IH (power_zero s i)) as (H0 & H1 & H2 & H3).
  cbn zeta. rewrite H0, H1, H2, H3. auto.
Qed.

Lemma two_loops {A} (f : nat -> A) (z : A) (n m : nat) (t : list A) (j : nat) :
  (n <= m)%nat -> length t = m -> (j < m)%nat ->
  foldl (fun t i => <[i := z]> t)
        (foldl (fun t i => <[i := f i]> t) t (seq 0 n)) (seq n (m - n)) !! j
  = Some (if (j <? n)%nat then f j else z).
Proof.
  intros Hn Hlen Hj.
  destruct (lookup_lt_is_Some_2 t j ltac:(lia)) as [x Hx].
  pose proof (foldl_insert_seq f n 0 t j x Hx) as H1.
  rewrite (foldl_insert_seq (fun _ => z) (m - n) n _ j _ H1).
  f_equal.
  destruct (Nat.leb_spec n j); destruct (Nat.ltb_spec j (n + (m - n)));
    destruct (Nat.leb_spec 0 j); destruct (Nat.ltb_spec j (0 + n));
    destruct (Nat.ltb_spec j n); cbn; auto; lia.
Qed.

End Slots.

Lemma read_power_lookup (env : Env) (fdv fdc : list Z) (n : nat)
    (s : MediumSample) (i : nat) :
  medium_ok s -> (n <= 8)%nat -> (i < 8)%nat ->
  let r := read_power env fdv fdc n s in
  let v := Int.u32 (sysfs_read_int env (nth i fdv (-1))) in
  let c := Int.u32 (sysfs_read_int env (nth i fdc (-1))) in
  m_time_s r = m_time_s s
  /\ voltage_mv r !! i = Some (if (i <? n)%nat then v else 0)
  /\ current_ma r !! i = Some (if (i <? n)%nat then c else 0)
  /\ power_mw r !! i
     = Some (if (i <? n)%nat
             then F32.div (F32.mul (F32.of_Z v) (F32.of_Z c)) (F32.of_Z 1000)
             else F32.zero).
Proof.
  intros (Hv & Hc & Hp) Hn Hi. cbn zeta. unfold read_power.
  change (Z.to_nat MAX_POWER_RAILS) with 8%nat.
  destruct (power_zero_arrays (seq n (8 - n))
              (foldl (power_rail env fdv fdc) s (seq 0 n))) as (Z0 & Z1 & Z2 & Z3).
  destruct (power_rail_arrays env fdv fdc (seq 0 n) s) as (R0 & R1 & R2 & R3).
  rewrite Z0, Z1, Z2, Z3, R0, R1, R2, R3.
  split; [reflexivity|].
  split; [|split].
  - apply (two_loops (fun i => Int.u32 (sysfs_read_int env (nth i fdv (-1))))
             0 n 8 (voltage_mv s) i Hn Hv Hi).
  - apply (two_loops (fun i => Int.u32 (sysfs_read_int env (nth i fdc (-1))))
             0 n 8 (current_ma s) i Hn Hc Hi).
  - apply (two_loops
             (fun i => F32.div
                         (F32.mul (F32.of_Z (Int.u32 (sysfs_read_int env (nth i fdv (-1)))))
                                  (F32.of_Z (Int.u32 (sysfs_read_int env (nth i fdc (-1))))))
                         (F32.of_Z 1000))
             F32.zero n 8 (power_mw s) i Hn Hp Hi).
Qed.

(** [read_power] slot by slot: a slot of a configured rail holds what the
    rail's two files gave, as 32-bit unsigned numbers, and their product
    over 1000 in single precision; every other slot is zero. *)
Theorem read_power_slots (env : Env) (fdv fdc : list Z) (n : nat)
    (s : MediumSample) (i : nat) :
  medium_ok s -> (n <= 8)%nat -> (i < 8)%nat ->
  let r := read_power env fdv fdc n s in
  let v := Int.u32 (sysfs_read_int env (nth i fdv (-1))) in
  let c := Int.u32 (sysfs_read_int env (nth i fdc (-1))) in
  m_time_s r = m_time_s s
  /\ voltage_mv r !! i = Some (if (i <? n)%nat then v else 0)
  /\ current_ma r !! i = Some (if (i <? n)%nat then c else 0)
  /\ power_mw r !! i
     = Some (if (i <? n)%nat
             then F32.div (F32.mul (F32.of_Z v) (F32.of_Z c)) (F32.of_Z 1000)
             else F32.zero).
Proof.
  intros (Hv & Hc & Hp) Hn Hi. cbn zeta. unfold read_power.
  change (Z.to_nat MAX_POWER_RAILS) with 8%nat.
  destruct (power_zero_arrays (seq n (8 - n))
              (foldl (power_rail env fdv fdc) s (seq 0 n))) as (Z0 & Z1 & Z2 & Z3).
  destruct (power_rail_arrays env fdv fdc (seq 0 n) s) as (R0 & R1 & R2 & R3).
  rewrite Z0, Z1, Z2, Z3, R0, R1, R2, R3.
  split; [reflexivity|].
  split; [|split].
  - apply (two_loops (fun i => Int.u32 (sysfs_read_int env (nth i fdv (-1))))
             0 n 8 (voltage_mv s) i Hn Hv Hi).
  - apply (two_loops (fun i => Int.u32 (sysfs_read_int env (nth i fdc (-1))))
             0 n 8 (current_ma s) i Hn Hc Hi).
  - apply (two_loops
             (fun i => F32.div
                         (F32.mul (F32.of_Z (Int.u32 (sysfs_read_int env (nth i fdv (-1)))))
                                  (F32.of_Z (Int.u32 (sysfs_read_int env (nth i fdc (-1))))))
                         (F32.of_Z 1000))
             F32.zero n 8 (power_mw s) i Hn Hp Hi).
Qed.

Lemma read_power_slots_witness :
  voltage_mv (read_power env_tick [6] [-1] 1 MediumSample0) !! 0%nat = Some 5000
  /\ voltage_mv (read_power env_tick [6] [-1] 1 MediumSample0) !! 1%nat = Some 0.
Proof.
  split.
  - refine (proj1 (proj2 (read_power_slots env_tick [6] [-1] 1 MediumSample0 0 _ _ _)));
      [repeat split|lia|lia].
  - refine (proj1 (proj2 (read_power_slots env_tick [6] [-1] 1 MediumSample0 1 _ _ _)));
      [repeat split|lia|lia].
Defined.

Lemma read_thermals_lookup (env : Env) (fdt : list Z) (n : nat)
    (temps : list F32.t) (i : nat) :
  length temps = 16%nat -> (n <= 16)%nat -> (i < 16)%nat ->
  read_thermals env fdt n temps !! i
  = Some (if (i <? n)%nat
          then F32.div (F32.of_Z (sysfs_read_int env (nth i fdt (-1)))) (F32.of_Z 1000)
          else F32.zero).
Proof.
  intros Hlen Hn Hi. unfold read_thermals.
  change (Z.to_nat MAX_THERMAL_ZONES) with 16%nat.
  apply (two_loops
           (fun i => F32.div (F32.of_Z (sysfs_read_int env (nth i fdt (-1))))
                             (F32.of_Z 1000))
           F32.zero n 16 temps i Hn Hlen Hi).
Qed.

(** [read_thermals] slot by slot: a configured zone's slot holds the
    reading over 1000 in single precision, every other slot is zero. *)
Theorem read_thermals_slots (env : Env) (fdt : list Z) (n : nat)
    (temps : list F32.t) (i : nat) :
  length temps = 16%nat -> (n <= 16)%nat -> (i < 16)%nat ->
  read_thermals env fdt n temps !! i
  = Some (if (i <? n)%nat
          then F32.div (F32.of_Z (sysfs_read_int env (nth i fdt (-1)))) (F32.of_Z 1000)
          else F32.zero).
Proof.
  intros Hlen Hn Hi. unfold read_thermals.
  change (Z.to_nat MAX_THERMAL_ZONES) with 16%nat.
  apply (two_loops
           (fun i => F32.div (F32.of_Z (sysfs_read_int env (nth i fdt (-1))))
                             (F32.of_Z 1000))
           F32.zero n 16 temps i Hn Hlen Hi).
Qed.

Lemma read_thermals_slots_witness :
  read_thermals env_tick [7] 1 (temp_c SlowSample0) !! 0%nat
  = Some (F32.div (F32.of_Z 45500) (F32.of_Z 1000))
  /\ read_thermals env_tick [7] 1 (temp_c SlowSample0) !! 5%nat = Some F32.zero.
Proof.
  split.
  - refine (read_thermals_slots env_tick [7] 1 (temp_c SlowSample0) 0 _ _ _);
      [reflexivity|lia|lia].
  - refine (read_thermals_slots env_tick [7] 1 (temp_c SlowSample0) 5 _ _ _);
      [reflexivity|lia|lia].
Defined.

Section MemInfo.

Lemma starts_with_take (lit : list Z) :
  forall p, starts_with lit p = true <-> take (length lit) p = lit.
Proof.
  induction lit as [|c lit IH]; intros p; cbn [starts_with length].
  - rewrite take_0. tauto.
  - destruct p as [|x p]; [rewrite take_nil; split; discriminate|].
    cbn [take firstn]. rewrite andb_true_iff, Z.eqb_eq, IH.
    split; [intros [-> ->]; reflexivity|intros H; injection H; auto].
Qed.

Lemma not_labelled (lit l rest : list Z) :
  NL ∉ lit -> ~ labelled lit l -> starts_with lit (l ++ NL :: rest) = false.
Proof.
  intros Hnl Hl. apply not_true_is_false. intros H. apply starts_with_take in H.
  apply Hl. unfold labelled.
  destruct (Nat.le_gt_cases (length lit) (length l)) as [Hle|Hgt].
  - rewrite take_app_le in H by exact Hle. exact H.
  - exfalso. apply Hnl. rewrite <- H. rewrite take_app_ge by lia.
    apply elem_of_app. right.
    destruct (length lit - length l)%nat as [|k] eqn:Hk; [lia|]. left.
Qed.

Lemma deref_plain (l rest : list Z) :
  plain l -> (deref (l ++ NL :: rest) =? 0) = false.
Proof.
  intros H. apply Z.eqb_neq. destruct H as [|x l [H0 _] _]; cbn; [discriminate|exact H0].
Qed.

Lemma ram_loop_other (fuel : nat) (l rest : list Z) (t a : Z) :
  other_line l ->
  ram_loop (S fuel) (l ++ NL :: rest) t a = ram_loop fuel rest t a.
Proof.
  intros (Hp & Ht & Ha). cbn [ram_loop].
  rewrite (deref_plain l rest Hp).
  rewrite (not_labelled _ l rest) by (vm_compute; set_solver || exact Ht).
  rewrite (not_labelled _ l rest) by (vm_compute; set_solver || exact Ha).
  rewrite skip_past_line; [reflexivity|discriminate|exact Hp].
Qed.

Lemma unlines_cons (l : list Z) (ls : list (list Z)) (rest : list Z) :
  unlines (l :: ls) ++ rest = l ++ NL :: (unlines ls ++ rest).
Proof. unfold unlines. cbn. rewrite <- !app_assoc. reflexivity. Qed.

Lemma ram_loop_others (ls : list (list Z)) :
  forall (fuel : nat) (rest : list Z) (t a : Z),
  Forall other_line ls ->
  ram_loop (length ls + fuel) (unlines ls ++ rest) t a = ram_loop fuel rest t a.
Proof.
  induction ls as [|l ls IH]; intros fuel rest t a H; [reflexivity|].
  inversion H as [|? ? Hl Hls]; subst.
  rewrite unlines_cons. cbn [length Nat.add].
  rewrite ram_loop_other by exact Hl. apply IH. exact Hls.
Qed.

Lemma length_unlines (ls : list (list Z)) : (length ls <= length (unlines ls))%nat.
Proof.
  induction ls as [|l ls IH]; [reflexivity|].
  unfold unlines in *. cbn. rewrite !length_app. cbn. lia.
Qed.

Lemma skip_spaces_replicate (n : nat) (r : list Z) :
  (deref r =? SP) = false -> skip_spaces (replicate n SP ++ r) = r.
Proof.
  intros H. induction n as [|n IH]; cbn.
  - destruct r as [|x r]; [reflexivity|]. cbn in *. rewrite H. reflexivity.
  - exact IH.
Qed.

Lemma deref_field (ds r : list Z) :
  field_ok ds -> (deref (ds ++ r) =? SP) = false.
Proof.
  intros [Hne Hd]. destruct Hd as [|x ds Hx _]; [congruence|].
  cbn. apply is_digit_spec in Hx. apply Z.eqb_neq. unfold SP. lia.
Qed.

Lemma skip_blanks_to_line_end (tail rest : list Z) :
  plain tail -> skip_past (skip_blanks (tail ++ NL :: rest)) NL = Some rest.
Proof.
  induction 1 as [|x tail [H0 H1] Hp IH]; [reflexivity|].
  cbn [app skip_blanks]. destruct (is_blank x); [exact IH|].
  apply (skip_past_line (x :: tail) rest NL); [discriminate|].
  constructor; [auto|exact Hp].
Qed.

Lemma deref_tail_line (tail rest : list Z) :
  is_digit (deref tail) = false -> is_digit (deref (tail ++ NL :: rest)) = false.
Proof. destruct tail; [reflexivity|exact id]. Qed.

Lemma ram_loop_total (fuel sp : nat) (ds tail rest : list Z) (t a : Z) :
  field_ok ds -> plain tail -> is_digit (deref tail) = false ->
  ram_loop (S fuel)
    (bytes_of "MemTotal:" ++ replicate sp SP ++ ds ++ tail ++ NL :: rest) t a
  = ram_loop fuel rest (Int.u64 (decimal ds)) a.
Proof.
  intros Hf Hp Hd. cbn [ram_loop].
  assert (Hs : starts_with (bytes_of "MemTotal:")
                 (bytes_of "MemTotal:" ++ replicate sp SP ++ ds ++ tail ++ NL :: rest)
               = true).
  { apply starts_with_take. apply take_app_length. }
  rewrite Hs.
  change (deref (bytes_of "MemTotal:" ++ ?x) =? 0) with false. cbv iota.
  change 9%nat with (length (bytes_of "MemTotal:")). rewrite drop_app_length.
  rewrite skip_spaces_replicate by (apply deref_field; exact Hf).
  rewrite parse_u64_field by (try apply deref_tail_line; tauto || apply Hf).
  rewrite skip_blanks_to_line_end by exact Hp. reflexivity.
Qed.

Lemma ram_loop_available (fuel sp : nat) (ds tail : list Z) (t a : Z) :
  field_ok ds -> is_digit (deref tail) = false ->
  ram_loop (S fuel) (bytes_of "MemAvailable:" ++ replicate sp SP ++ ds ++ tail) t a
  = (t, Int.u64 (decimal ds)).
Proof.
  intros Hf Hd. cbn [ram_loop].
  assert (Hs : starts_with (bytes_of "MemAvailable:")
                 (bytes_of "MemAvailable:" ++ replicate sp SP ++ ds ++ tail) = true).
  { apply starts_with_take. apply take_app_length. }
  rewrite Hs.
  change (deref (bytes_of "MemAvailable:" ++ ?x) =? 0) with false.
  change (starts_with (bytes_of "MemTotal:") (bytes_of "MemAvailable:" ++ ?x))
    with false.
  cbv iota.
  change 13%nat with (length (bytes_of "MemAvailable:")). rewrite drop_app_length.
  rewrite skip_spaces_replicate by (apply deref_field; exact Hf).
  rewrite parse_u64_field by (tauto || apply Hf). reflexivity.
Qed.

End MemInfo.

(** [read_ram] on the text of [/proc/meminfo]: the [MemTotal:] line, then
    the [MemAvailable:] line, other lines before and between them, and
    anything after the number of [MemAvailable:], of which only the first
    1023 bytes are read.  The result is the difference of the two numbers
    (0 when the available memory exceeds the total) and the available
    memory. *)
Theorem read_ram_meminfo (env : Env) (fd : Z) (pre mid : list (list Z))
    (sp1 sp2 : nat) (dsT tailT dsA tailA : list Z) :
  let text := unlines pre ++ bytes_of "MemTotal:" ++ replicate sp1 SP ++ dsT
              ++ tailT ++ NL :: unlines mid ++ bytes_of "MemAvailable:"
              ++ replicate sp2 SP ++ dsA in
  let total := decimal dsT mod 2 ^ 64 in
  let available := decimal dsA mod 2 ^ 64 in
  0 <= fd -> env_read env fd = Some (text ++ tailA) ->
  (length text <= 1023)%nat ->
  Forall other_line pre -> Forall other_line mid ->
  field_ok dsT -> plain tailT -> is_digit (deref tailT) = false ->
  field_ok dsA -> is_digit (deref tailA) = false ->
  read_ram env fd
  = (if available <=? total then total - available else 0, available).
Proof.
  intros text total available Hfd Hread Hlen Hpre Hmid HT HpT HdT HA HdA.
  unfold read_ram, sysfs_read.
  apply Z.ltb_ge in Hfd. rewrite Hfd, Hread.
  change (1024 - 1)%nat with 1023%nat.
  rewrite take_app_ge by exact Hlen.
  set (tail' := take (1023 - length text) tailA).
  assert (Hd' : is_digit (deref tail') = false).
  { subst tail'. destruct tailA as [|y r]; [rewrite take_nil; reflexivity|].
    destruct (1023 - length text)%nat; [reflexivity|exact HdA]. }
  assert (Hbuf : text ++ tail'
                 = unlines pre ++ (bytes_of "MemTotal:" ++ replicate sp1 SP ++ dsT
                   ++ tailT ++ NL :: (unlines mid ++ (bytes_of "MemAvailable:"
                   ++ replicate sp2 SP ++ dsA ++ tail')))).
  { subst text. rewrite <- !app_assoc. cbn [app]. rewrite <- !app_assoc.
    reflexivity. }
  assert (Hfuel : exists f, S (length (text ++ tail'))
                            = (length pre + S (length mid + S f))%nat).
  { exists (length (text ++ tail') - length pre - length mid - 1)%nat.
    rewrite Hbuf. pose proof (length_unlines pre). pose proof (length_unlines mid).
    rewrite !length_app. cbn [length]. rewrite !length_app. cbn [length]. lia. }
  destruct Hfuel as [f Hf].
  destruct (text ++ tail') as [|b buf] eqn:Hb.
  { exfalso. cbn in Hf. lia. }
  rewrite Hf, Hbuf.
  rewrite ram_loop_others by exact Hpre.
  rewrite ram_loop_total by assumption.
  rewrite ram_loop_others by exact Hmid.
  rewrite ram_loop_available by assumption.
  reflexivity.
Qed.

Lemma read_ram_meminfo_witness :
  read_ram env_tick 5 = (6627004, 57722372).
Proof.
  refine (read_ram_meminfo env_tick 5 [] [bytes_of "MemFree:        35131272 kB"]
            7 3 (bytes_of "64349376") (bytes_of " kB") (bytes_of "57722372")
            (bytes_of " kB" ++ [NL]) _ _ _ _ _ _ _ _ _ _).
  - lia.
  - reflexivity.
  - vm_compute. lia.
  - constructor.
  - constructor; [|constructor].
    split; [|split]; [|vm_compute; discriminate|vm_compute; discriminate].
    apply Forall_forall. intros x Hx. vm_compute in Hx.
    repeat (apply elem_of_cons in Hx as [->|Hx]; [split; discriminate|]).
    inversion Hx.
  - split; [discriminate|repeat constructor].
  - repeat constructor; discriminate.
  - reflexivity.
  - split; [discriminate|repeat constructor].
  - reflexivity.
Defined.

(** ** The values of the samples *)

Section Ranges.

Lemma percent_clamp (v : F32.t) : percent (F32.clamp v F32.zero (F32.of_Z 100)).
Proof.
  unfold percent, F32.clamp.
  destruct (F32.ltb v F32.zero) eqn:H0; [split; reflexivity|].
  destruct (F32.ltb (F32.of_Z 100) v) eqn:H1; [split; reflexivity|].
  split; assumption.
Qed.

Lemma percent_zero : percent F32.zero.
Proof. split; reflexivity. Qed.

Lemma per_core_cpu_line (c : nat) (p : list Z) (st : CpuScan) :
  exists u, percent u
            /\ per_core (cpu_line c p st).1 = <[c := u]> (per_core st)
            /\ cores_parsed (cpu_line c p st).1 = S (cores_parsed st).
Proof.
  unfold cpu_line. destruct (parse_vals _ _ _ _) as [vals q]. cbn.
  eexists. split; [|split; reflexivity]. apply percent_clamp.
Qed.

Lemma cpu_loop_percent (n : nat) :
  forall (c : nat) (p : option (list Z)) (st : CpuScan),
  Forall percent (per_core st) ->
  Forall percent (per_core (cpu_loop n c p st))
  /\ (cores_parsed (cpu_loop n c p st) <= cores_parsed st + n)%nat.
Proof.
  induction n as [|n IH]; intros c p st H; cbn [cpu_loop].
  - split; [exact H|lia].
  - destruct p as [p|]; [|split; [exact H|lia]].
    destruct (starts_cpu p); [|split; [exact H|lia]].
    destruct (per_core_cpu_line c p st) as (u & Hu & Hpc & Hcp).
    destruct (cpu_line c p st) as [st' q]. cbn [fst] in Hpc, Hcp.
    destruct (IH (S c) (skip_past q NL) st') as [H1 H2].
    { rewrite Hpc. apply Forall_insert; assumption. }
    split; [exact H1|lia].
Qed.

Lemma zero_fill_percent (n : nat) :
  forall (c : nat) (a : list F32.t),
  Forall percent a -> Forall percent (zero_fill n c a).
Proof.
  induction n as [|n IH]; intros c a H; cbn [zero_fill]; [exact H|].
  apply IH. apply Forall_insert; [exact H|apply percent_zero].
Qed.

Lemma zero_fill_zero (n : nat) :
  forall (c : nat) (a : list F32.t),
  Forall (fun x => x = F32.zero) a -> Forall (fun x => x = F32.zero) (zero_fill n c a).
Proof.
  induction n as [|n IH]; intros c a H; cbn [zero_fill]; [exact H|].
  apply IH. apply Forall_insert; [exact H|reflexivity].
Qed.

Lemma zero_fill_rest (cp : nat) (a : list F32.t) (i : nat) :
  length a = 16%nat -> (cp <= i < 16)%nat ->
  zero_fill (16 - cp) cp a !! i = Some F32.zero.
Proof.
  intros Hlen Hi. rewrite zero_fill_spec by lia.
  rewrite lookup_app_r by (rewrite length_take; lia).
  rewrite length_take, Nat.min_l by lia.
  rewrite lookup_app_l by (rewrite length_replicate; lia).
  apply lookup_replicate_2. lia.
Qed.

Lemma read_cpu_range (env : Env) (fd nc : Z) (prev : list CpuJiffies) :
  nc <= 16 ->
  Forall percent (read_cpu env fd nc prev (cpu_util FastSample0)).1.1
  /\ (forall i, (Z.to_nat nc <= i < 16)%nat ->
        (read_cpu env fd nc prev (cpu_util FastSample0)).1.1 !! i = Some F32.zero).
Proof.
  intros Hnc. unfold read_cpu.
  assert (H0 : Forall percent (cpu_util FastSample0))
    by (repeat constructor).
  destruct (sysfs_read env fd 4096) as [buf|]; cbn [fst snd].
  - set (st0 := {| per_core := cpu_util FastSample0; sum_util := F32.zero;
                   cores_parsed := 0; prev_cpu := prev |}).
    destruct (cpu_loop_percent (Z.to_nat nc) 0 (skip_past buf NL) st0 H0)
      as [H1 H2].
    pose proof (length_cpu_loop (Z.to_nat nc) 0 (skip_past buf NL) st0) as [Hl _].
    cbn [cores_parsed per_core st0] in H2, Hl.
    split; [apply zero_fill_percent; exact H1|].
    intros i Hi. change (Z.to_nat MAX_CPU_CORES) with 16%nat.
    apply zero_fill_rest; [rewrite Hl; reflexivity|lia].
  - split; [apply zero_fill_percent; exact H0|].
    intros i Hi.
    assert (Hz : Forall (fun x => x = F32.zero)
                   (zero_fill (Z.to_nat nc) 0 (cpu_util FastSample0)))
      by (apply zero_fill_zero; repeat constructor).
    destruct (lookup_lt_is_Some_2
                (zero_fill (Z.to_nat nc) 0 (cpu_util FastSample0)) i) as [x Hx].
    { rewrite length_zero_fill. cbn. lia. }
    rewrite Hx. f_equal. exact (proj1 (Forall_lookup _ _) Hz i x Hx).
Qed.

Lemma parse_digits_range (p : list Z) :
  forall v, 0 <= v < 2 ^ 64 -> 0 <= (parse_digits v p).1 < 2 ^ 64.
Proof.
  induction p as [|x p IH]; intros v Hv; cbn [parse_digits]; [exact Hv|].
  destruct (is_digit x); [|exact Hv]. apply IH. apply IntFacts.u64_range.
Qed.

Lemma parse_u64_range (p : list Z) : 0 <= (parse_u64 p).1 < 2 ^ 64.
Proof.
  unfold parse_u64. pose proof (parse_digits_range p 0 ltac:(lia)) as H.
  destruct (parse_digits 0 p) as [v q]. exact H.
Qed.

Lemma ram_loop_range (fuel : nat) :
  forall (p : list Z) (t a : Z),
  0 <= t < 2 ^ 64 -> 0 <= a < 2 ^ 64 ->
  0 <= (ram_loop fuel p t a).1 < 2 ^ 64 /\ 0 <= (ram_loop fuel p t a).2 < 2 ^ 64.
Proof.
  induction fuel as [|fuel IH]; intros p t a Ht Ha; cbn [ram_loop]; [auto|].
  destruct (deref p =? 0); [auto|].
  destruct (starts_with (bytes_of "MemTotal:") p).
  - pose proof (parse_u64_range (skip_spaces (drop 9 p))) as Hv.
    destruct (parse_u64 (skip_spaces (drop 9 p))) as [v p']. cbn [fst] in Hv.
    destruct (skip_past p' NL); [apply IH; assumption|auto].
  - destruct (starts_with (bytes_of "MemAvailable:") p).
    + pose proof (parse_u64_range (skip_spaces (drop 13 p))) as Hv.
      destruct (parse_u64 (skip_spaces (drop 13 p))) as [v p']. cbn [fst] in Hv.
      auto.
    + destruct (skip_past p NL); [apply IH; assumption|auto].
Qed.

Lemma read_ram_range (env : Env) (fd : Z) :
  0 <= (read_ram env fd).1 < 2 ^ 64 /\ 0 <= (read_ram env fd).2 < 2 ^ 64.
Proof.
  unfold read_ram. destruct (sysfs_read env fd 1024) as [buf|]; [|cbn; lia].
  pose proof (ram_loop_range (S (length buf)) buf 0 0 ltac:(lia) ltac:(lia))
    as [Ht Ha].
  destruct (ram_loop (S (length buf)) buf 0 0) as [t a]. cbn [fst snd] in *.
  destruct (Z.leb_spec a t); lia.
Qed.

Lemma read_emc_percent (env : Env) (fd : Z) :
  read_emc env fd = F32.of_Z (-1) \/ percent (read_emc env fd).
Proof.
  unfold read_emc. destruct (fd <? 0); [auto|].
  destruct (sysfs_read env fd 64); [|auto]. right. apply percent_clamp.
Qed.

Lemma u32_range z : 0 <= Int.u32 z < 2 ^ 32.
Proof. apply Z.mod_pos_bound. lia. Qed.

#[local] Transparent take_fast_sample take_medium_sample take_slow_sample.

Lemma take_fast_sample_range (env : Env) (e : Engine) :
  num_cpu_cores (board_ e) <= 16 ->
  exists smp prev,
    take_fast_sample env e = push_fast smp prev e
    /\ fast_in_range (Z.to_nat (num_cpu_cores (board_ e))) smp.
Proof.
  intros Hnc. unfold take_fast_sample, read_fast_sample.
  pose proof (read_cpu_range env (fd_proc_stat_ e) (num_cpu_cores (board_ e))
                (prev_cpu_ e) Hnc) as [H1 H2].
  destruct (read_cpu _ _ _ _ _) as [[cpu agg] prev]. cbn [fst snd] in H1, H2.
  pose proof (read_ram_range env (fd_meminfo_ e)) as [H3 H4].
  destruct (read_ram env (fd_meminfo_ e)) as [used avail]. cbn [fst snd] in H3, H4.
  eexists _, _. split; [reflexivity|].
  unfold fast_in_range. cbn.
  split; [apply read_gpu_load_bounds|]. split; [exact H1|]. split; [exact H2|].
  split; [exact H3|]. split; [exact H4|]. apply read_emc_percent.
Qed.

Lemma take_medium_sample_range (env : Env) (e : Engine) :
  (int_size (power_rails (board_ e)) <= 8)%nat ->
  exists smp,
    take_medium_sample env e = push_medium smp e
    /\ medium_in_range (int_size (power_rails (board_ e))) smp.
Proof.
  intros Hn. unfold take_medium_sample. eexists. split; [reflexivity|].
  set (s0 := {| m_time_s := _; voltage_mv := _; current_ma := _; power_mw := _ |}).
  assert (Hok : medium_ok s0) by (repeat split).
  pose proof (read_power_ok env (fd_voltage_ e) (fd_current_ e)
                (int_size (power_rails (board_ e))) s0 Hok) as (Lv & Lc & _).
  pose proof (fun i Hi => read_power_lookup env (fd_voltage_ e) (fd_current_ e)
                (int_size (power_rails (board_ e))) s0 i Hok Hn Hi) as Hs.
  cbn zeta in Hs.
  split; [|split].
  - apply Forall_lookup. intros i x Hx.
    assert (Hi : (i < 8)%nat) by (rewrite <- Lv; eapply lookup_lt_Some, Hx).
    destruct (Hs i Hi) as (_ & E & _). rewrite E in Hx. injection Hx as <-.
    destruct (i <? _)%nat; [apply u32_range|lia].
  - apply Forall_lookup. intros i x Hx.
    assert (Hi : (i < 8)%nat) by (rewrite <- Lc; eapply lookup_lt_Some, Hx).
    destruct (Hs i Hi) as (_ & _ & E & _). rewrite E in Hx. injection Hx as <-.
    destruct (i <? _)%nat; [apply u32_range|lia].
  - intros i [Hlo Hhi]. destruct (Hs i Hhi) as (_ & E1 & E2 & E3).
    apply Nat.ltb_ge in Hlo. rewrite Hlo in E1, E2, E3. auto.
Qed.

Lemma take_slow_sample_range (env : Env) (e : Engine) :
  (int_size (thermal_zones (board_ e)) <= 16)%nat ->
  exists smp,
    take_slow_sample env e = push_slow smp e
    /\ slow_in_range (int_size (thermal_zones (board_ e))) smp.
Proof.
  intros Hn. unfold take_slow_sample. eexists. split; [reflexivity|].
  intros i [Hlo Hhi]. cbn [temp_c].
  rewrite read_thermals_lookup by (auto; reflexivity).
  apply Nat.ltb_ge in Hlo. rewrite Hlo. reflexivity.
Qed.

#[local] Opaque take_fast_sample take_medium_sample take_slow_sample.

Lemma step_range_inv (board : BoardConfig) (l : Label) (s s' : System) (ev : Event) :
  num_cpu_cores board <= 16 ->
  (int_size (power_rails board) <= 8)%nat ->
  (int_size (thermal_zones board) <= 16)%nat ->
  range_inv board (engine s) -> step l s = Some (s', ev) ->
  range_inv board (engine s').
Proof.
  intros Hc Hr Hz (Hb & Hf & Hm & Hs) H. rewrite <- Hb in Hc, Hr, Hz.
  unfold range_inv.
  unfold step, start, stop_step, stop_finish, stop_begin, with_engine,
    fast_step, medium_step, slow_step, join, sync, write_file,
    warmup_released in H;
  repeat (case_match; simplify_option_eq);
  repeat match goal with
    | Ho : do_open_fds _ _ _ = (_, _) |- _ =>
        apply do_open_fds_set in Ho as (? & ? & ? & ? & ? & ? & ? & ->)
    | Hx : close_fds _ _ = (_, _) |- _ =>
        apply close_fds_set in Hx as (? & ? & ? & ? & ->)
    | |- context [take_fast_sample ?env ?e] =>
        destruct (take_fast_sample_range env e Hc) as (smp & ? & -> & Hok)
    | |- context [take_medium_sample ?env ?e] =>
        destruct (take_medium_sample_range env e Hr) as (smp & -> & Hok)
    | |- context [take_slow_sample ?env ?e] =>
        destruct (take_slow_sample_range env e Hz) as (smp & -> & Hok)
    end;
  cbn [engine]; cbn; rewrite ?Hb in *;
  repeat split; try assumption; try apply List.Forall_nil;
  try (apply Forall_app; split; [assumption|apply Forall_singleton; assumption]).
Qed.

End Ranges.

(** Every sample an engine records keeps to the ranges its format gives:
    the GPU load is within 0..1000, the CPU utilisations and the EMC
    utilisation are percentages (or -1 for an EMC that is not there), the
    memory figures fit 64 bits, the rail readings fit 32 bits, and the
    slots of cores, rails and zones the board does not have are zero. *)
Theorem samples_in_range
    (output_path : string) (board : BoardConfig) (config : EngineConfig)
    (e0 : Engine) (w0 : World) (ls : list Label) (s : System) :
  Engine_new output_path board config = inr e0 ->
  run ls (boot e0 w0) = Some s ->
  Forall (fast_in_range (Z.to_nat (num_cpu_cores board))) (fast_samples_ (engine s))
  /\ Forall (medium_in_range (int_size (power_rails board)))
            (medium_samples_ (engine s))
  /\ Forall (slow_in_range (int_size (thermal_zones board)))
            (slow_samples_ (engine s)).
Proof.
  intros Hnew Hrun.
  assert (Hbounds : num_cpu_cores board <= 16
                    /\ (int_size (power_rails board) <= 8)%nat
                    /\ (int_size (thermal_zones board) <= 16)%nat).
  { revert Hnew. unfold Engine_new, MAX_CPU_CORES, MAX_POWER_RAILS,
      MAX_THERMAL_ZONES, int_size.
    destruct (orb _ _) eqn:Ho; [discriminate|].
    apply orb_false_iff in Ho as [_ Ho]. apply Z.ltb_ge in Ho.
    destruct (Z.ltb_spec 8 (Int.i32 (Z.of_nat (length (power_rails board)))));
      [discriminate|].
    destruct (Z.ltb_spec 16 (Int.i32 (Z.of_nat (length (thermal_zones board)))));
      [discriminate|].
    intros _. lia. }
  destruct Hbounds as (Hc & Hr & Hz).
  destruct (Engine_new_inr _ _ _ _ Hnew)
    as (_ & Hb & _ & _ & _ & _ & _ & _ & _ & Hf & Hm & Hs & _).
  assert (Hinv : range_inv board (engine s)).
  { apply (run_invariant (fun s => range_inv board (engine s))
             (fun l s1 s2 ev => step_range_inv board l s1 s2 ev Hc Hr Hz)
             ls (boot e0 w0)); [|exact Hrun].
    unfold range_inv. cbn [boot engine]. rewrite Hb, Hf, Hm, Hs.
    repeat split; apply List.Forall_nil. }
  destruct Hinv as (_ & H1 & H2 & H3). auto.
Qed.

Lemma samples_in_range_witness :
  exists e0 s,
    Engine_new "/tmp/trace.bin" board_sample EngineConfig_default = inr e0
    /\ run trace_run (boot e0 world_sample) = Some s
    /\ length (fast_samples_ (engine s)) = 11%nat
    /\ Forall (fast_in_range 2) (fast_samples_ (engine s)).
Proof.
  eexists _, _.
  split; [reflexivity|].
  split; [vm_compute; reflexivity|].
  split; [reflexivity|].
  match goal with
  | |- Forall _ (fast_samples_ (engine ?s)) =>
      refine (proj1 (samples_in_range "/tmp/trace.bin" board_sample
                EngineConfig_default _ world_sample trace_run s eq_refl _))
  end.
  vm_compute. reflexivity.
Defined.

(** ** The header read back *)

Section ReadBack.

Lemma le_value_le_bytes (n : nat) :
  forall z, le_value (le_bytes n z) = z mod 256 ^ Z.of_nat n.
Proof.
  induction n as [|n IH]; intros z.
  - cbn. rewrite Z.mod_1_r. reflexivity.
  - cbn [le_bytes le_value foldr]. fold (le_value (le_bytes n (z / 256))).
    rewrite IH, Nat2Z.inj_succ, Z.pow_succ_r by lia.
    rewrite Z.rem_mul_r by (try apply Z.pow_pos_nonneg; lia). reflexivity.
Qed.

Lemma c_str_zero_free (l : list Z) : Forall (fun x => x <> 0) (c_str l).
Proof.
  induction l as [|x l IH]; cbn; [constructor|].
  destruct (Z.eqb_spec x 0); [constructor|]. constructor; assumption.
Qed.

Lemma c_str_stop (l r : list Z) :
  Forall (fun x => x <> 0) l -> deref r = 0 -> c_str (l ++ r) = l.
Proof.
  intros Hl Hr. induction Hl as [|x l Hx _ IH]; cbn.
  - destruct r as [|y r]; [reflexivity|]. cbn in Hr. subst y. reflexivity.
  - apply Z.eqb_neq in Hx. rewrite Hx, IH. reflexivity.
Qed.

(** [strncpy] of at most [n] characters into a zeroed field of [n + 1]
    bytes leaves a C string: the name cut to [n] characters. *)
Lemma strncpy_c_str (src : list Z) (n : nat) :
  c_str (strncpy (replicate (S n) 0) src n) = take n (c_str src).
Proof.
  unfold strncpy. rewrite drop_replicate.
  replace (S n - n)%nat with 1%nat by lia. cbn [replicate].
  pose proof (c_str_zero_free src) as Hz.
  destruct (Nat.le_gt_cases n (length (c_str src))) as [Hle|Hgt].
  - rewrite take_app_le by exact Hle.
    apply c_str_stop; [apply Forall_take; exact Hz|reflexivity].
  - rewrite take_app_ge by lia. rewrite take_replicate.
    rewrite (take_ge (c_str src)) by lia. rewrite <- app_assoc.
    apply c_str_stop; [exact Hz|].
    destruct (Nat.min _ _); reflexivity.
Qed.

(** The loops over the names fill slot [j] from name [j] and leave the
    other slots. *)
Lemma copy_names_lookup (names : list string) :
  forall (i : nat) (table : list (list Z)) (k : nat),
  (i + length names <= length table)%nat ->
  copy_names i names table !! k
  = if (i <=? k)%nat && (k <? i + length names)%nat
    then (fun n => strncpy (nth k table []) (bytes_of n) 23) <$> names !! (k - i)%nat
    else table !! k.
Proof.
  induction names as [|n names IH]; intros i table k Hlen; cbn [copy_names length].
  - destruct (Nat.leb_spec i k); destruct (Nat.ltb_spec k (i + 0)); cbn; auto; lia.
  - cbn [length] in Hlen.
    rewrite IH by (rewrite length_insert; lia).
    destruct (decide (k = i)) as [->|Hne].
    + replace (i - i)%nat with 0%nat by lia. cbn [lookup list_lookup fmap option_fmap option_map].
      destruct (Nat.leb_spec (S i) i); [lia|].
      destruct (Nat.leb_spec i i); [|lia].
      destruct (Nat.ltb_spec i (i + S (length names))); [|lia]. cbn.
      apply list_lookup_insert_eq. lia.
    + rewrite list_lookup_insert_ne by auto.
      destruct (Nat.leb_spec (S i) k); destruct (Nat.leb_spec i k);
        destruct (Nat.ltb_spec k (S i + length names));
        destruct (Nat.ltb_spec k (i + S (length names))); cbn; try lia; auto.
      replace (k - i)%nat with (S (k - S i)) by lia. cbn.
      destruct (names !! (k - S i)%nat) as [m|]; [|reflexivity]. cbn.
      f_equal. f_equal.
      destruct (decide (k < length table)%nat) as [Hk|Hk].
      * destruct (lookup_lt_is_Some_2 table k Hk) as [slot Hslot].
        rewrite (nth_lookup_Some _ _ _ _ Hslot).
        apply nth_lookup_Some. rewrite list_lookup_insert_ne by auto. exact Hslot.
      * rewrite !nth_overflow by (rewrite ?length_insert; lia). reflexivity.
Qed.

Lemma name_slot (names : list string) (m k : nat) (n : string) :
  (length names <= m)%nat -> names !! k = Some n ->
  exists slot,
    copy_names 0 names (replicate m (replicate 24 0)) !! k = Some slot
    /\ length slot = 24%nat /\ c_str slot = take 23 (c_str (bytes_of n)).
Proof.
  intros Hlen Hk. pose proof (lookup_lt_Some _ _ _ Hk) as Hlt.
  rewrite copy_names_lookup by (rewrite length_replicate; lia).
  destruct (Nat.ltb_spec k (0 + length names)); [|lia]. cbn.
  rewrite Nat.sub_0_r, Hk. cbn.
  rewrite (nth_lookup_Some _ _ _ (replicate 24 0))
    by (apply lookup_replicate_2; lia).
  eexists. split; [reflexivity|]. split.
  - rewrite length_strncpy; rewrite length_replicate; lia.
  - apply (strncpy_c_str (bytes_of n) 23).
Qed.

Lemma free_slot (names : list string) (m k : nat) :
  (length names <= k < m)%nat ->
  copy_names 0 names (replicate m (replicate 24 0)) !! k = Some (replicate 24 0).
Proof.
  intros Hk. rewrite copy_names_lookup by (rewrite length_replicate; lia).
  destruct (Nat.ltb_spec k (0 + length names)); [lia|]. cbn.
  apply lookup_replicate_2. lia.
Qed.

End ReadBack.

Ltac field_len :=
  rewrite ?length_le_bytes, ?length_name_table, ?length_replicate;
  rewrite ?length_strncpy by (rewrite length_replicate; lia);
  rewrite ?length_replicate.

Ltac skip_field :=
  rewrite drop_app_ge by (field_len; lia); field_len; simpl Nat.sub.

Ltac read_field :=
  repeat skip_field; rewrite ?drop_0; rewrite take_app_length' by (field_len; reflexivity).

(** The file read back at the offsets of [struct FileHeader]: the magic
    number, the version, the name of the board, the three sizes of the
    board and the EMC flag as bytes, the three rates, the four counts, the
    tables of names and the reserved bytes. *)
Theorem header_read_back (e : Engine) :
  let img := file_image e in
  let h := build_header e in
  field_at 0 4 img = MAGIC
  /\ field_at 4 4 img = VERSION
  /\ take 32 (drop 8 img) = Header.board_name h
  /\ field_at 40 1 img = num_cpu_cores (board_ e) mod 2 ^ 8
  /\ field_at 41 1 img = Z.of_nat (length (power_rails (board_ e))) mod 2 ^ 8
  /\ field_at 42 1 img = Z.of_nat (length (thermal_zones (board_ e))) mod 2 ^ 8
  /\ field_at 43 1 img = (if 0 <=? fd_emc_ e then 1 else 0)
  /\ field_at 44 4 img = fast_hz (config_ e) mod 2 ^ 32
  /\ field_at 48 4 img = medium_hz (config_ e) mod 2 ^ 32
  /\ field_at 52 4 img = slow_hz (config_ e) mod 2 ^ 32
  /\ field_at 56 8 img = Z.of_nat (length (fast_samples_ e)) mod 2 ^ 64
  /\ field_at 64 8 img = Z.of_nat (length (medium_samples_ e)) mod 2 ^ 64
  /\ field_at 72 8 img = Z.of_nat (length (slow_samples_ e)) mod 2 ^ 64
  /\ field_at 80 8 img = Z.of_nat (length (sync_points_ e)) mod 2 ^ 64
  /\ take 192 (drop 88 img) = concat (Header.power_rail_names h)
  /\ take 384 (drop 280 img) = concat (Header.thermal_zone_names h)
  /\ take 64 (drop 664 img) = replicate 64 0.
Proof.
  intros img h. subst img h.
  unfold file_image, fwrite, field_at, Header.bytes, build_header.
  cbn [Header.magic Header.version
    Header.board_name Header.num_cpu_cores Header.num_power_rails
    Header.num_thermal_zones Header.emc_available Header.fast_hz
    Header.medium_hz Header.slow_hz Header.num_fast_samples
    Header.num_medium_samples Header.num_slow_samples Header.num_sync_points
    Header.power_rail_names Header.thermal_zone_names Header.reserved].
  rewrite app_nil_l. rewrite <- !app_assoc.
  repeat match goal with |- _ /\ _ => split end.
  - rewrite ?drop_0. rewrite take_app_length' by (field_len; reflexivity). reflexivity.
  - read_field. reflexivity.
  - read_field. reflexivity.
  - read_field. rewrite le_value_le_bytes. unfold Int.u8, Int.wrap.
    change (256 ^ Z.of_nat 1) with (2 ^ 8). apply Z.mod_mod. lia.
  - read_field. rewrite le_value_le_bytes. unfold Int.u8, Int.wrap.
    change (256 ^ Z.of_nat 1) with (2 ^ 8). apply Z.mod_mod. lia.
  - read_field. rewrite le_value_le_bytes. unfold Int.u8, Int.wrap.
    change (256 ^ Z.of_nat 1) with (2 ^ 8). apply Z.mod_mod. lia.
  - read_field. rewrite le_value_le_bytes. destruct (0 <=? fd_emc_ e); reflexivity.
  - read_field. apply le_value_le_bytes.
  - read_field. apply le_value_le_bytes.
  - read_field. apply le_value_le_bytes.
  - read_field. apply le_value_le_bytes.
  - read_field. apply le_value_le_bytes.
  - read_field. apply le_value_le_bytes.
  - read_field. apply le_value_le_bytes.
  - read_field. reflexivity.
  - read_field. reflexivity.
  - read_field. reflexivity.
Qed.

(** The names in the header are C strings whatever the configured names
    are: each is cut to the size of its field less one (31 characters for
    the board, 23 for a rail or a zone), and the slots of the rails and
    zones the board does not have stay zero. *)
Theorem header_names_terminated (e : Engine) :
  (length (power_rails (board_ e)) <= 8)%nat ->
  (length (thermal_zones (board_ e)) <= 16)%nat ->
  let h := build_header e in
  length (Header.board_name h) = 32%nat
  /\ c_str (Header.board_name h) = take 31 (c_str (bytes_of (board_name (board_ e))))
  /\ (forall i r, power_rails (board_ e) !! i = Some r ->
        exists slot, Header.power_rail_names h !! i = Some slot
                     /\ length slot = 24%nat
                     /\ c_str slot = take 23 (c_str (bytes_of (label r))))
  /\ (forall i z, thermal_zones (board_ e) !! i = Some z ->
        exists slot, Header.thermal_zone_names h !! i = Some slot
                     /\ length slot = 24%nat
                     /\ c_str slot = take 23 (c_str (bytes_of (name z))))
  /\ (forall i, (length (power_rails (board_ e)) <= i < 8)%nat ->
        Header.power_rail_names h !! i = Some (replicate 24 0))
  /\ (forall i, (length (thermal_zones (board_ e)) <= i < 16)%nat ->
        Header.thermal_zone_names h !! i = Some (replicate 24 0)).
Proof.
  intros Hr Hz h. subst h. unfold build_header.
  cbn [Header.board_name Header.power_rail_names Header.thermal_zone_names].
  split; [rewrite length_strncpy; rewrite length_replicate; lia|].
  split; [apply (strncpy_c_str _ 31)|].
  split; [|split; [|split]].
  - intros i r Hi. apply name_slot; [rewrite length_fmap; exact Hr|].
    rewrite list_lookup_fmap, Hi. reflexivity.
  - intros i z Hi. apply name_slot; [rewrite length_fmap; exact Hz|].
    rewrite list_lookup_fmap, Hi. reflexivity.
  - intros i Hi. apply free_slot. rewrite length_fmap. exact Hi.
  - intros i Hi. apply free_slot. rewrite length_fmap. exact Hi.
Qed.

Lemma header_names_terminated_witness :
  exists e0,
    Engine_new "/tmp/trace.bin" board_sample EngineConfig_default = inr e0
    /\ c_str (Header.board_name (build_header e0))
       = take 31 (c_str (bytes_of (board_name board_sample))).
Proof.
  eexists. split; [reflexivity|].
  refine (proj1 (proj2 (header_names_terminated _ _ _))); simpl; lia.
Defined.

(** ** The sync points read back *)

Section SyncBack.

Lemma sync_record_at (pts : list SyncPoint) (i : nat) (p : SyncPoint) (pre : list Z) :
  pts !! i = Some p ->
  drop (length pre + 16 * i) (pre ++ concat (SyncPoint_bytes <$> pts))
  = le_bytes 8 (sync_id p) ++ le_bytes 8 (fast_sample_idx p)
    ++ concat (SyncPoint_bytes <$> drop (S i) pts).
Proof.
  intros Hp. rewrite drop_app_add.
  rewrite <- (take_drop_middle pts i p Hp) at 1.
  rewrite fmap_app, concat_app, fmap_cons. cbn [concat].
  rewrite drop_app_length'.
  - unfold SyncPoint_bytes at 1. rewrite <- app_assoc. reflexivity.
  - rewrite (length_concat_fixed SyncPoint_bytes 16)
      by (apply Forall_forall; intros; apply length_SyncPoint_bytes).
    rewrite length_take. apply lookup_lt_Some in Hp. lia.
Qed.

Lemma length_before_sync_points (e : Engine) :
  buffers_ok e ->
  length (Header.bytes (build_header e)
          ++ concat (FastSample_bytes <$> fast_samples_ e)
          ++ concat (MediumSample_bytes <$> medium_samples_ e)
          ++ concat (SlowSample_bytes <$> slow_samples_ e))
  = (728 + 98 * length (fast_samples_ e) + 104 * length (medium_samples_ e)
     + 72 * length (slow_samples_ e))%nat.
Proof.
  intros (Hf & Hm & Hs). rewrite !length_app, length_header.
  rewrite (length_concat_fixed FastSample_bytes 98)
    by (eapply Forall_impl; [exact Hf|apply length_FastSample_bytes]).
  rewrite (length_concat_fixed MediumSample_bytes 104)
    by (eapply Forall_impl; [exact Hm|apply length_MediumSample_bytes]).
  rewrite (length_concat_fixed SlowSample_bytes 72)
    by (eapply Forall_impl; [exact Hs|apply length_SlowSample_bytes]).
  lia.
Qed.

End SyncBack.


(** ** A second [stop()] *)

Section SecondStop.

Lemma file_image_without_emc (e e' : Engine) :
  board_ e' = board_ e -> config_ e' = config_ e ->
  fast_samples_ e' = fast_samples_ e -> medium_samples_ e' = medium_samples_ e ->
  slow_samples_ e' = slow_samples_ e -> sync_points_ e' = sync_points_ e ->
  fd_emc_ e' < 0 ->
  file_image e' = <[43%nat := 0]> (file_image e).
Proof.
  intros Hb Hc Hf Hm Hs Hk Hemc.
  unfold file_image, fwrite, Header.bytes, build_header.
  cbn [Header.magic Header.version
    Header.board_name Header.num_cpu_cores Header.num_power_rails
    Header.num_thermal_zones Header.emc_available Header.fast_hz
    Header.medium_hz Header.slow_hz Header.num_fast_samples
    Header.num_medium_samples Header.num_slow_samples Header.num_sync_points
    Header.power_rail_names Header.thermal_zone_names Header.reserved].
  rewrite Hb, Hc, Hf, Hm, Hs, Hk.
  apply Z.leb_gt in Hemc. rewrite Hemc.
  rewrite !app_nil_l. rewrite <- !app_assoc.
  repeat (rewrite insert_app_r_alt by (field_len; lia); field_len; simpl Nat.sub).
  reflexivity.
Qed.

End SecondStop.

(** [stop()] does not check that the engine runs.  Called again right after
    a [stop()] that returned, it writes the file again from the same
    buffers; the descriptors are closed by then, so the second file is the
    first with the byte [emc_available] (offset 43) set to 0, and no
    descriptor is opened or closed. *)
Theorem second_stop_rewrites_file
    (output_path : string) (board : BoardConfig) (config : EngineConfig)
    (e0 : Engine) (w0 : World) (ls : list Label) (s s1 : System) :
  Engine_new output_path board config = inr e0 ->
  run ls (boot e0 w0) = Some s ->
  step (StopStep true) s = Some (s1, StopReturned) ->
  exists s2,
    stop_now true s1 = Some (s2, StopReturned)
    /\ files (os s1) !! output_path = Some (file_image (engine s))
    /\ files (os s2) !! output_path
       = Some (<[43%nat := 0]> (file_image (engine s)))
    /\ open_fds (os s2) = open_fds (os s1).
Proof.
  intros Hnew Hrun Hstep.
  destruct (Engine_new_inr _ _ _ _ Hnew) as (Hp & _ & _ & Hr & _).
  assert (Hlife : life_inv s).
  { eapply run_life_inv; [|exact Hrun]. apply life_inv_boot. exact Hr. }
  assert (Hpath : output_path_ (engine s) = output_path).
  { assert (Hc : config_inv e0 (engine s)).
    { apply (run_invariant (fun s => config_inv e0 (engine s))
               (fun l s1 s2 ev => step_config_inv e0 l s1 s2 ev) ls (boot e0 w0));
        [|exact Hrun].
      unfold config_inv. cbn. repeat split. intros H.
      destruct (Engine_new_inr _ _ _ _ Hnew) as (_ & _ & _ & _ & _ & _ & Hf & _).
      congruence. }
    destruct Hc as (Hc & _). congruence. }
  destruct (stop_returned_inv _ _ _ Hstep) as (Hst & _ & w1 & Hw & ->).
  destruct Hlife as (_ & Hj). rewrite Hst in Hj. destruct Hj as (_ & Jf & Jm & Js).
  unfold write_file in Hw. injection Hw as <-.
  set (w1 := {| open_fds := open_fds (os s); next_fd := next_fd (os s);
                files := <[output_path_ (engine s) := file_image (engine s)]>
                           (files (os s)) |}).
  destruct (close_fds_open (engine s) w1) as (O1 & _ & L1 & _).
  pose proof (close_fds_files (engine s) w1) as F1.
  destruct (close_fds (engine s) w1) as [e1 w2] eqn:Hc.
  pose proof Hc as Hset. apply close_fds_set in Hset as (gpu & stat & mem & emc & ->).
  cbn [fst snd] in *.
  set (e1 := set_fds gpu stat mem emc [] [] [] (engine s)) in *.
  assert (Hemc : fd_emc_ e1 < 0).
  { destruct (Z.lt_ge_cases (fd_emc_ e1) 0) as [|Hge]; [assumption|]. exfalso.
    assert (Hin : fd_emc_ e1 ∈ live (held e1)).
    { apply elem_of_live. split; [|exact Hge]. unfold held.
      apply elem_of_app. left. set_solver. }
    rewrite L1 in Hin. set_solver. }
  rewrite stop_now_without_threads
    by (subst e1; cbn; first [reflexivity|assumption]).
  unfold stop_finish, write_file. cbn [engine os].
  set (e2 := set_running false e1).
  set (w3 := {| open_fds := open_fds w2; next_fd := next_fd w2;
                files := <[output_path_ e2 := file_image e2]> (files w2) |}).
  destruct (close_fds_open e2 w3) as (O2 & _ & _).
  pose proof (close_fds_files e2 w3) as F2.
  assert (L2 : live (held e2) = ∅) by exact L1.
  destruct (close_fds e2 w3) as [e3 w4]. cbn [fst snd] in *.
  eexists. split; [reflexivity|]. cbn [os].
  split; [|split].
  - rewrite F1. subst w1. cbn [files]. rewrite <- Hpath. apply lookup_insert_eq.
  - rewrite F2. subst w3. cbn [files].
    change (output_path_ e2) with (output_path_ (engine s)).
    rewrite <- Hpath, lookup_insert_eq. f_equal.
    apply file_image_without_emc; try reflexivity. exact Hemc.
  - rewrite O2, L2. subst w3. cbn [open_fds]. set_solver.
Qed.

Lemma second_stop_rewrites_file_witness :
  exists e0 s s1,
    Engine_new "/tmp/trace.bin" board_sample EngineConfig_default = inr e0
    /\ run trace_run (boot e0 world_sample) = Some s
    /\ step (StopStep true) s = Some (s1, StopReturned)
    /\ exists s2,
         stop_now true s1 = Some (s2, StopReturned)
         /\ files (os s2) !! "/tmp/trace.bin"%string
            = Some (<[43%nat := 0]> (file_image (engine s))).
Proof.
  eexists _, _, _.
  split; [reflexivity|].
  split; [vm_compute; reflexivity|].
  split; [vm_compute; reflexivity|].
  match goal with
  | |- exists s2, stop_now true ?s1 = _ /\ _ = Some (<[_ := _]> (file_image (engine ?s))) =>
      destruct (second_stop_rewrites_file "/tmp/trace.bin" board_sample
                  EngineConfig_default _ world_sample trace_run s s1 eq_refl
                  ltac:(vm_compute; reflexivity) ltac:(vm_compute; reflexivity))
        as (s2 & H1 & _ & H3 & _)
  end.
  exists s2. split; assumption.
Defined.

(** ** The barrier from the side of the medium and slow threads *)

(** While [warmed_up_] is down the medium and slow threads are held at
    [wait_for_warmup()]: neither can take a step, and neither has recorded
    a sample. *)
Theorem tiers_wait_for_warmup
    (output_path : string) (board : BoardConfig) (config : EngineConfig)
    (e0 : Engine) (w0 : World) (ls : list Label) (s : System) :
  Engine_new output_path board config = inr e0 ->
  run ls (boot e0 w0) = Some s ->
  warmed_up_ (engine s) = false ->
  medium_samples_ (engine s) = [] /\ slow_samples_ (engine s) = []
  /\ (forall env, step (MediumStep env) s = None)
  /\ (forall env, step (SlowStep env) s = None)
  /\ step CallWait s = None.
Proof.
  intros Hnew Hrun Hcold.
  assert (Hw : warm_inv (engine s)).
  { apply (run_warm_inv ls (boot e0 w0) s); [|exact Hrun].
    apply warm_inv_new with (output_path := output_path) (board := board)
                            (config := config). exact Hnew. }
  destruct Hw as (_ & _ & H3).
  destruct (H3 Hcold) as (_ & _ & Hm & Hs & Em & Es).
  split; [exact Em|]. split; [exact Es|].
  unfold step, medium_step, slow_step, warmup_released. rewrite Hcold.
  split; [|split; [|reflexivity]]; intros env.
  - destruct Hm as [-> | ->]; reflexivity.
  - destruct Hs as [-> | ->]; reflexivity.
Qed.

Lemma tiers_wait_for_warmup_witness :
  exists e0 s,
    Engine_new "/tmp/trace.bin" board_sample EngineConfig_default = inr e0
    /\ run [CallStart readable_sample env_sample; FastStep env_tick]
           (boot e0 world_sample) = Some s
    /\ step (MediumStep env_tick) s = None.
Proof.
  eexists _, _.
  split; [reflexivity|].
  split; [vm_compute; reflexivity|].
  match goal with
  | |- step _ ?s = None =>
      refine (proj1 (proj2 (proj2 (tiers_wait_for_warmup "/tmp/trace.bin"
                board_sample EngineConfig_default _ world_sample
                [CallStart readable_sample env_sample; FastStep env_tick] s
                eq_refl _ eq_refl))) env_tick)
  end.
  vm_compute. reflexivity.
Defined.

(** ** The deadlines *)

(** The deadline of a sampling loop: for a rate of at least 1 Hz the
    interval is between 0 and a second, it is 0 exactly for the rates above
    1 GHz, and adding it to a normalised deadline takes at most one pass of
    the loop of [timespec_add_ns] and gives a normalised deadline that lies
    the interval later. *)
Theorem deadline_advances (hz : Z) (next : timespec) (fuel : nat) :
  1 <= hz < 2 ^ 32 ->
  0 <= tv_nsec next < NSEC_PER_SEC -> tv_sec next < Int.LONG_MAX ->
  exists i next',
    interval_ns hz = Some i
    /\ 0 <= i <= NSEC_PER_SEC /\ (i = 0 <-> NSEC_PER_SEC < hz)
    /\ timespec_add_ns (S fuel) next i = Some next'
    /\ 0 <= tv_nsec next' < NSEC_PER_SEC
    /\ tv_sec next' * NSEC_PER_SEC + tv_nsec next'
       = tv_sec next * NSEC_PER_SEC + tv_nsec next + i.
Proof.
  intros Hhz Hns Hs. unfold interval_ns, NSEC_PER_SEC, Int.u32, Int.wrap in *.
  rewrite (Z.mod_small hz (2 ^ 32)) by lia.
  destruct (Z.eqb_spec hz 0) as [|_]; [lia|].
  rewrite Z.quot_div_nonneg by lia.
  assert (Hi : 0 <= 1000000000 / hz <= 1000000000).
  { split; [apply Z.div_pos; lia|].
    apply Z.div_le_upper_bound; nia. }
  set (i := 1000000000 / hz) in *.
  assert (Hzero : i = 0 <-> 1000000000 < hz).
  { subst i. split.
    - intros H0. destruct (Z.lt_ge_cases 1000000000 hz) as [|Hge]; [assumption|].
      exfalso. assert (1 <= 1000000000 / hz); [|lia].
      apply Z.div_le_lower_bound; lia.
    - intros Hlt. apply Z.div_small. lia. }
  assert (E1 : (Int.LONG_MIN <=? tv_nsec next + i) = true)
    by (apply Z.leb_le; unfold Int.LONG_MIN; lia).
  assert (E2 : (tv_nsec next + i <=? Int.LONG_MAX) = true)
    by (apply Z.leb_le; unfold Int.LONG_MAX in *; lia).
  assert (E3 : (tv_sec next <? Int.LONG_MAX) = true) by (apply Z.ltb_lt; exact Hs).
  assert (E4 : (NSEC_PER_SEC <=? tv_nsec next + i - NSEC_PER_SEC) = false)
    by (apply Z.leb_gt; unfold NSEC_PER_SEC; lia).
  destruct (Z.leb_spec NSEC_PER_SEC (tv_nsec next + i)) as [Hc|Hc].
  - exists i, {| tv_sec := tv_sec next + 1; tv_nsec := tv_nsec next + i - NSEC_PER_SEC |}.
    split; [reflexivity|]. split; [exact Hi|]. split; [exact Hzero|].
    split.
    + unfold timespec_add_ns. rewrite E1, E2.
      cbn [andb timespec_carry tv_nsec tv_sec].
      apply Z.leb_le in Hc. rewrite Hc, E3.
      destruct fuel; cbn [timespec_carry tv_nsec tv_sec]; rewrite E4; reflexivity.
    + unfold NSEC_PER_SEC in *. cbn [tv_nsec tv_sec]. lia.
  - exists i, {| tv_sec := tv_sec next; tv_nsec := tv_nsec next + i |}.
    split; [reflexivity|]. split; [exact Hi|]. split; [exact Hzero|].
    split.
    + unfold timespec_add_ns. rewrite E1, E2.
      cbn [andb timespec_carry tv_nsec tv_sec].
      apply Z.leb_gt in Hc. rewrite Hc. reflexivity.
    + unfold NSEC_PER_SEC in *. cbn [tv_nsec tv_sec]. lia.
Qed.

Lemma deadline_advances_witness :
  exists i next',
    interval_ns 1000 = Some i
    /\ 0 <= i <= NSEC_PER_SEC /\ (i = 0 <-> NSEC_PER_SEC < 1000)
    /\ timespec_add_ns 1 {| tv_sec := 100; tv_nsec := 999500000 |} i = Some next'
    /\ 0 <= tv_nsec next' < NSEC_PER_SEC
    /\ tv_sec next' * NSEC_PER_SEC + tv_nsec next'
       = 100 * NSEC_PER_SEC + 999500000 + i.
Proof.
  apply (deadline_advances 1000 {| tv_sec := 100; tv_nsec := 999500000 |} 0).
  - lia.
  - unfold NSEC_PER_SEC. simpl. lia.
  - unfold Int.LONG_MAX. simpl. lia.
Defined.

(** ** Board configurations *)

Section Boards.

Lemma remove_if_spec {A} (pred : A -> bool) (v : list A) :
  Forall (fun x => pred x = false) (remove_if pred v)
  /\ remove_if pred v `sublist_of` v
  /\ (Forall (fun x => pred x = false) v -> remove_if pred v = v).
Proof.
  induction v as [|x v (IH1 & IH2 & IH3)]; cbn [remove_if].
  - split; [constructor|]. split; [constructor|reflexivity].
  - destruct (pred x) eqn:Hx.
    + split; [exact IH1|]. split; [apply sublist_cons; exact IH2|].
      intros H. inversion H; congruence.
    + split; [constructor; assumption|]. split; [apply sublist_skip; exact IH2|].
      intros H. inversion H; subst. rewrite IH3 by assumption. reflexivity.
Qed.

(** [remove_if] keeps what a filter on the negated predicate keeps. *)
Lemma remove_if_filter {A} (pred : A -> bool) (v : list A) :
  remove_if pred v = filter (fun x => pred x = false) v.
Proof.
  induction v as [|x v IH]; [reflexivity|]. cbn [remove_if].
  destruct (pred x) eqn:Hx.
  - rewrite filter_cons_False by congruence. exact IH.
  - rewrite filter_cons_True by assumption. rewrite IH. reflexivity.
Qed.

Lemma prebaked_in_bounds : board_in_bounds make_agx_orin /\ board_in_bounds make_orin_nx.
Proof. split; (split; [cbn; lia|split; cbn; lia]). Qed.

Lemma validate_config_bounds (h : Host) (c : BoardConfig) :
  (length (power_rails c) <= 8)%nat -> (length (thermal_zones c) <= 16)%nat ->
  (length (power_rails (validate_config h c)) <= 8)%nat
  /\ (length (thermal_zones (validate_config h c)) <= 16)%nat.
Proof.
  intros Hr Hz. cbn [validate_config power_rails thermal_zones].
  split; (etransitivity; [apply sublist_length, remove_if_spec|assumption]).
Qed.

Lemma until_nul_app (s1 s2 : string) :
  until_nul (s1 ++ String "000" s2) = until_nul s1.
Proof.
  induction s1 as [|c s1 IH]; [reflexivity|].
  change (String c s1 +:+ String "000" s2)
    with (String c (s1 +:+ String "000" s2)).
  cbn [until_nul].
  destruct (Ascii.eqb c "000"); [reflexivity|]. rewrite IH. reflexivity.
Qed.

Lemma validate_config_ext (h h' : Host) (c : BoardConfig) :
  (forall p, host_readable h p = host_readable h' p) ->
  host_file h "/proc/stat" = host_file h' "/proc/stat" ->
  validate_config h c = validate_config h' c.
Proof.
  intros Hr Hs. unfold validate_config, count_cpu_cores, path_readable.
  rewrite Hs, !Hr.
  assert (E1 : forall v : list PowerRailConfig,
             remove_if (fun r => negb (host_readable h (voltage_path r))
                                 || negb (host_readable h (current_path r))) v
             = remove_if (fun r => negb (host_readable h' (voltage_path r))
                                   || negb (host_readable h' (current_path r))) v).
  { induction v as [|x v IH]; cbn; [reflexivity|]. rewrite !Hr, IH. reflexivity. }
  assert (E2 : forall v : list ThermalZoneConfig,
             remove_if (fun z => negb (host_readable h (temp_path z))) v
             = remove_if (fun z => negb (host_readable h' (temp_path z))) v).
  { induction v as [|x v IH]; cbn; [reflexivity|]. rewrite !Hr, IH. reflexivity. }
  rewrite E1, E2. reflexivity.
Qed.

Lemma detect_board_inr (h : Host) (b : BoardConfig) :
  detect_board h = inr b ->
  exists c, (c = make_agx_orin \/ c = make_orin_nx) /\ b = validate_config h c.
Proof.
  unfold detect_board. intros H.
  destruct (found_in "p3701" _); [injection H as <-; eauto|].
  destruct (found_in "p3767" _); [injection H as <-; eauto|discriminate].
Qed.

Lemma validate_config_readable (h : Host) (c : BoardConfig) :
  (gpu_load_path (validate_config h c) <> "" ->
   host_readable h (gpu_load_path (validate_config h c)) = true)
  /\ (emc_actmon_path (validate_config h c) <> "" ->
      host_readable h (emc_actmon_path (validate_config h c)) = true)
  /\ Forall (fun r => host_readable h (voltage_path r) = true
                      /\ host_readable h (current_path r) = true)
            (power_rails (validate_config h c))
  /\ Forall (fun z => host_readable h (temp_path z) = true)
            (thermal_zones (validate_config h c)).
Proof.
  unfold validate_config, path_readable.
  cbn [gpu_load_path emc_actmon_path power_rails thermal_zones].
  split; [destruct (host_readable h (gpu_load_path c)) eqn:E; congruence|].
  split; [destruct (host_readable h (emc_actmon_path c)) eqn:E; congruence|].
  split.
  - eapply Forall_impl; [apply remove_if_spec|]. cbn. intros r Hr.
    apply orb_false_iff in Hr as [Hv Hc].
    apply negb_false_iff in Hv, Hc. auto.
  - eapply Forall_impl; [apply remove_if_spec|]. cbn. intros z Hz.
    apply negb_false_iff in Hz. exact Hz.
Qed.

End Boards.

(** [get_board_config] knows two names; what it returns for them carries
    the name and is a board the constructor of the engine accepts, and any
    other name is refused with its own message. *)
Theorem get_board_config_spec (board : string) :
  match get_board_config board with
  | inr b =>
      (board = "agx_orin" \/ board = "orin_nx") /\ board_name b = board
      /\ board_in_bounds b
      /\ (forall output_path config,
            exists e, Engine_new output_path b config = inr e)
  | inl x =>
      board <> "agx_orin" /\ board <> "orin_nx"
      /\ x = runtime_error ("Unknown board: " ++ board)
  end.
Proof.
  unfold get_board_config.
  destruct (String.eqb_spec board "agx_orin") as [->|H1].
  { split; [auto|]. split; [reflexivity|]. split; [apply prebaked_in_bounds|].
    intros p c. apply Engine_new_accepts, prebaked_in_bounds. }
  destruct (String.eqb_spec board "orin_nx") as [->|H2].
  { split; [auto|]. split; [reflexivity|]. split; [apply prebaked_in_bounds|].
    intros p c. apply Engine_new_accepts, prebaked_in_bounds. }
  auto.
Qed.

(** [validate_config] keeps the name and the EMC clock path and replaces the
    number of cores by the count of [/proc/stat] when that is positive.  The
    GPU path and the EMC path are kept when they can be read and emptied
    when they cannot.  The rails kept are exactly those whose voltage and
    current files can both be read, and the zones kept exactly those whose
    temperature file can be read, each with its multiplicity and in the
    order of the board; in particular a board whose files can all be read
    keeps all its rails and zones. *)
Theorem validate_config_spec (h : Host) (c : BoardConfig) :
  let c' := validate_config h c in
  let rail_readable (r : PowerRailConfig) :=
    host_readable h (voltage_path r) = true
    /\ host_readable h (current_path r) = true in
  let zone_readable (z : ThermalZoneConfig) :=
    host_readable h (temp_path z) = true in
  board_name c' = board_name c
  /\ emc_clk_rate_path c' = emc_clk_rate_path c
  /\ num_cpu_cores c'
     = (if 0 <? count_cpu_cores h then count_cpu_cores h else num_cpu_cores c)
  /\ (host_readable h (gpu_load_path c) = true -> gpu_load_path c' = gpu_load_path c)
  /\ (host_readable h (gpu_load_path c) = false -> gpu_load_path c' = "")
  /\ (host_readable h (emc_actmon_path c) = true ->
      emc_actmon_path c' = emc_actmon_path c)
  /\ (host_readable h (emc_actmon_path c) = false -> emc_actmon_path c' = "")
  /\ (gpu_load_path c' <> "" ->
      gpu_load_path c' = gpu_load_path c /\ host_readable h (gpu_load_path c) = true)
  /\ (emc_actmon_path c' <> "" ->
      emc_actmon_path c' = emc_actmon_path c
      /\ host_readable h (emc_actmon_path c) = true)
  /\ power_rails c' = filter rail_readable (power_rails c)
  /\ thermal_zones c' = filter zone_readable (thermal_zones c)
  /\ (forall r, r ∈ power_rails c' <-> r ∈ power_rails c /\ rail_readable r)
  /\ (forall z, z ∈ thermal_zones c' <-> z ∈ thermal_zones c /\ zone_readable z)
  /\ Forall rail_readable (power_rails c')
  /\ Forall zone_readable (thermal_zones c')
  /\ power_rails c' `sublist_of` power_rails c
  /\ thermal_zones c' `sublist_of` thermal_zones c
  /\ (Forall rail_readable (power_rails c) -> power_rails c' = power_rails c)
  /\ (Forall zone_readable (thermal_zones c) -> thermal_zones c' = thermal_zones c).
Proof.
  intros c' rail_readable zone_readable.
  assert (HR : power_rails c' = filter rail_readable (power_rails c)).
  { subst c'. unfold validate_config, path_readable. cbn [power_rails].
    rewrite remove_if_filter. apply list_filter_iff. intros r.
    unfold rail_readable. rewrite orb_false_iff, !negb_false_iff. reflexivity. }
  assert (HZ : thermal_zones c' = filter zone_readable (thermal_zones c)).
  { subst c'. unfold validate_config, path_readable. cbn [thermal_zones].
    rewrite remove_if_filter. apply list_filter_iff. intros z.
    unfold zone_readable. rewrite negb_false_iff. reflexivity. }
  split; [reflexivity|]. split; [reflexivity|]. split; [reflexivity|].
  subst c'. unfold validate_config, path_readable in *.
  cbn [gpu_load_path emc_actmon_path power_rails thermal_zones] in *.
  split; [intros ->; reflexivity|]. split; [intros ->; reflexivity|].
  split; [intros ->; reflexivity|]. split; [intros ->; reflexivity|].
  split; [destruct (host_readable h (gpu_load_path c)); [auto|congruence]|].
  split; [destruct (host_readable h (emc_actmon_path c)); [auto|congruence]|].
  split; [exact HR|]. split; [exact HZ|].
  rewrite HR, HZ.
  split; [intros r; rewrite list_elem_of_filter; tauto|].
  split; [intros z; rewrite list_elem_of_filter; tauto|].
  split; [apply Forall_forall; intros r Hr; apply list_elem_of_filter in Hr; tauto|].
  split; [apply Forall_forall; intros z Hz; apply list_elem_of_filter in Hz; tauto|].
  split; [apply sublist_filter|]. split; [apply sublist_filter|].
  split.
  - intros H. clear HR HZ. induction H as [|r l Hr Hl IH]; [reflexivity|].
    rewrite filter_cons_True by exact Hr. f_equal. exact IH.
  - intros H. clear HR HZ. induction H as [|z l Hz Hl IH]; [reflexivity|].
    rewrite filter_cons_True by exact Hz. f_equal. exact IH.
Qed.

(** A board that [detect_board] returns is accepted by the constructor of
    the engine exactly when [/proc/stat] shows at most 16 cores: the count
    replaces the number of the pre-baked board without a check. *)
Theorem detected_board_accepted_iff
    (h : Host) (b : BoardConfig) (output_path : string) (config : EngineConfig) :
  detect_board h = inr b ->
  (exists e, Engine_new output_path b config = inr e) <-> count_cpu_cores h <= 16.
Proof.
  intros Hd. destruct (detect_board_inr h b Hd) as (c & Hc & ->).
  assert (Hpre : board_in_bounds c)
    by (destruct Hc as [->| ->]; apply prebaked_in_bounds).
  assert (Hcores : num_cpu_cores c = 12 \/ num_cpu_cores c = 8)
    by (destruct Hc as [->| ->]; cbn; auto).
  destruct Hpre as (_ & Hr & Hz).
  destruct (validate_config_bounds h c Hr Hz) as [Hr' Hz'].
  split.
  - intros [e He].
    destruct (Z.le_gt_cases (count_cpu_cores h) 16) as [|Hgt]; [assumption|].
    exfalso. revert He. unfold Engine_new, MAX_CPU_CORES.
    cbn [validate_config num_cpu_cores].
    destruct (Z.ltb_spec 0 (count_cpu_cores h)); [|lia].
    destruct (Z.ltb_spec 16 (count_cpu_cores h)); [|lia].
    rewrite orb_true_r. discriminate.
  - intros Hle. apply Engine_new_accepts. split; [|split; assumption].
    cbn [validate_config num_cpu_cores].
    destruct (Z.ltb_spec 0 (count_cpu_cores h)); lia.
Qed.

Lemma detected_board_accepted_iff_witness :
  exists b,
    detect_board host_sample = inr b
    /\ ((exists e, Engine_new "/tmp/trace.bin" b EngineConfig_default = inr e)
        <-> count_cpu_cores host_sample <= 16).
Proof.
  eexists. split; [reflexivity|].
  apply (detected_board_accepted_iff host_sample _ "/tmp/trace.bin"
           EngineConfig_default eq_refl).
Defined.

(** [detect_board] reads the compatible file up to its first NUL only: two
    machines that differ in what follows it are told apart by nothing. *)
Theorem detect_board_reads_first_entry (h h' : Host) (s1 s2 : string) :
  (forall p, host_readable h p = host_readable h' p) ->
  host_file h "/proc/stat" = host_file h' "/proc/stat" ->
  host_file h "/proc/device-tree/compatible" = Some (s1 ++ String "000" s2)%string ->
  host_file h' "/proc/device-tree/compatible" = Some s1 ->
  detect_board h = detect_board h'.
Proof.
  intros Hr Hs Hc Hc'. unfold detect_board, read_file_string.
  rewrite Hc, Hc', until_nul_app.
  rewrite !(validate_config_ext h h' _ Hr Hs). reflexivity.
Qed.

Lemma detect_board_reads_first_entry_witness :
  detect_board host_sample = detect_board host_first_entry.
Proof.
  apply (detect_board_reads_first_entry host_sample host_first_entry
           "nvidia,p3737-0000+p3701-0005"
           ("nvidia,p3701-0005" ++ String "000" "nvidia,tegra234")%string).
  - intros p. reflexivity.
  - reflexivity.
  - reflexivity.
  - reflexivity.
Defined.

Section DetectAndStart.

Variable readable : string -> bool.
Hypothesis no_empty_path : readable "" = false.

Lemma try_open_readable (p : string) (w : World) :
  readable p = true -> 0 <= (try_open readable p w).1.
Proof.
  intros Hp. unfold try_open, os_open.
  destruct (String.eqb_spec p "") as [->|_]; [congruence|].
  rewrite Hp. cbn. lia.
Qed.

Lemma try_open_nonneg_iff (p : string) (w : World) :
  (p <> "" -> readable p = true) ->
  0 <= (try_open readable p w).1 <-> p <> "".
Proof.
  intros Hp. unfold try_open, os_open.
  destruct (String.eqb_spec p "") as [->|Hne]; [cbn; split; [lia|congruence]|].
  rewrite (Hp Hne). cbn. split; [auto|lia].
Qed.

Lemma open_all_nonneg (ps : list string) :
  forall (fds : list Z) (w : World),
  Forall (fun p => readable p = true) ps -> Forall (fun fd => 0 <= fd) fds ->
  Forall (fun fd => 0 <= fd) (open_all readable ps fds w).1
  /\ length (open_all readable ps fds w).1 = (length fds + length ps)%nat.
Proof.
  induction ps as [|p ps IH]; intros fds w Hps Hfds; cbn [open_all].
  - split; [exact Hfds|cbn; lia].
  - inversion Hps as [|? ? Hp Hps']; subst.
    pose proof (try_open_readable p w Hp) as H0.
    destruct (try_open readable p w) as [fd w1]. cbn [fst] in H0.
    destruct (IH (fds ++ [fd]) w1 Hps') as [H1 H2].
    { apply Forall_app. split; [exact Hfds|]. apply Forall_singleton. exact H0. }
    split; [exact H1|]. rewrite H2, length_app. cbn. lia.
Qed.

Lemma open_rails_nonneg (rails : list PowerRailConfig) :
  forall (fdv fdc : list Z) (w : World),
  Forall (fun r => readable (voltage_path r) = true
                   /\ readable (current_path r) = true) rails ->
  Forall (fun fd => 0 <= fd) fdv -> Forall (fun fd => 0 <= fd) fdc ->
  Forall (fun fd => 0 <= fd) (open_rails readable rails fdv fdc w).1.1
  /\ Forall (fun fd => 0 <= fd) (open_rails readable rails fdv fdc w).1.2
  /\ length (open_rails readable rails fdv fdc w).1.1 = (length fdv + length rails)%nat
  /\ length (open_rails readable rails fdv fdc w).1.2 = (length fdc + length rails)%nat.
Proof.
  induction rails as [|r rails IH]; intros fdv fdc w Hr Hv Hc; cbn [open_rails].
  - cbn. repeat split; auto; lia.
  - inversion Hr as [|? ? [Hrv Hrc] Hr']; subst.
    pose proof (try_open_readable (voltage_path r) w Hrv) as H0.
    destruct (try_open readable (voltage_path r) w) as [v w1]. cbn [fst] in H0.
    pose proof (try_open_readable (current_path r) w1 Hrc) as H1.
    destruct (try_open readable (current_path r) w1) as [c w2]. cbn [fst] in H1.
    destruct (IH (fdv ++ [v]) (fdc ++ [c]) w2 Hr') as (I1 & I2 & I3 & I4).
    { apply Forall_app. split; [exact Hv|]. apply Forall_singleton. exact H0. }
    { apply Forall_app. split; [exact Hc|]. apply Forall_singleton. exact H1. }
    split; [exact I1|]. split; [exact I2|].
    rewrite I3, I4, !length_app. cbn. lia.
Qed.

End DetectAndStart.

(** An engine made for the board that [detect_board] returned, started on
    the same machine, opens every file of the board: one descriptor for
    each rail's voltage, each rail's current and each zone, all of them
    valid, and the GPU and EMC descriptors are valid exactly when
    [detect_board] kept their paths. *)
Theorem detected_board_opens_everything
    (h : Host) (b : BoardConfig) (output_path : string) (config : EngineConfig)
    (e0 : Engine) (w : World) (env : Env) :
  host_readable h "" = false ->
  detect_board h = inr b ->
  Engine_new output_path b config = inr e0 ->
  exists s',
    step (CallStart (host_readable h) env) (boot e0 w) = Some (s', StartReturned)
    /\ length (fd_voltage_ (engine s')) = length (power_rails b)
    /\ length (fd_current_ (engine s')) = length (power_rails b)
    /\ length (fd_thermal_ (engine s')) = length (thermal_zones b)
    /\ Forall (fun fd => 0 <= fd)
         (fd_voltage_ (engine s') ++ fd_current_ (engine s') ++ fd_thermal_ (engine s'))
    /\ (0 <= fd_gpu_load_ (engine s') <-> gpu_load_path b <> "")
    /\ (0 <= fd_emc_ (engine s') <-> emc_actmon_path b <> "").
Proof.
  intros Hempty Hd Hnew.
  destruct (detect_board_inr h b Hd) as (c & _ & ->).
  destruct (validate_config_readable h c) as (Hg' & He' & Hr & Hz).
  set (b := validate_config h c) in *.
  destruct (Engine_new_inr _ _ _ _ Hnew)
    as (_ & Hb & _ & Hrun & _ & _ & Hf & Hm & Hs & _).
  assert (Hvec : fd_voltage_ e0 = [] /\ fd_current_ e0 = [] /\ fd_thermal_ e0 = []).
  { revert Hnew. unfold Engine_new. repeat case_match; try discriminate.
    intros Hinj. injection Hinj as <-. auto. }
  destruct Hvec as (Hv0 & Hc0 & Ht0).
  cbn [step boot stopping]. unfold start. unfold boot. cbn [engine os stopping].
  rewrite Hrun, Hf, Hm, Hs. cbn [joinable orb].
  unfold do_open_fds.
  change (board_ (start_reset e0)) with (board_ e0).
  change (fd_voltage_ (start_reset e0)) with (fd_voltage_ e0).
  change (fd_current_ (start_reset e0)) with (fd_current_ e0).
  change (fd_thermal_ (start_reset e0)) with (fd_thermal_ e0).
  rewrite Hb, Hv0, Hc0, Ht0.
  pose proof (try_open_nonneg_iff (host_readable h) (gpu_load_path b) w Hg') as Hgpu.
  destruct (try_open (host_readable h) (gpu_load_path b) w) as [gpu w1].
  destruct (try_open (host_readable h) "/proc/stat" w1) as [stat w2].
  destruct (try_open (host_readable h) "/proc/meminfo" w2) as [mem w3].
  pose proof (try_open_nonneg_iff (host_readable h) (emc_actmon_path b) w3 He') as Hemc.
  destruct (try_open (host_readable h) (emc_actmon_path b) w3) as [emc w4].
  pose proof (open_rails_nonneg (host_readable h) Hempty (power_rails b) [] [] w4 Hr
                (List.Forall_nil _) (List.Forall_nil _)) as (V1 & V2 & V3 & V4).
  destruct (open_rails (host_readable h) (power_rails b) [] [] w4) as [[fdv fdc] w5].
  assert (Hz' : Forall (fun p => host_readable h p = true) (temp_path <$> thermal_zones b)).
  { apply Forall_fmap. exact Hz. }
  pose proof (open_all_nonneg (host_readable h) Hempty (temp_path <$> thermal_zones b)
                [] w5 Hz' (List.Forall_nil _)) as (T1 & T2).
  destruct (open_all (host_readable h) (temp_path <$> thermal_zones b) [] w5)
    as [fdt w6].
  cbn [fst snd length Nat.add] in *. rewrite length_fmap in T2.
  eexists. split; [reflexivity|].
  cbn [engine start_spawn set_fds fd_voltage_ fd_current_ fd_thermal_
       fd_gpu_load_ fd_emc_].
  split; [exact V3|]. split; [exact V4|]. split; [exact T2|].
  split; [|split; assumption].
  apply Forall_app. split; [exact V1|]. apply Forall_app. split; assumption.
Qed.

Lemma detected_board_opens_everything_witness :
  exists b e0 s',
    detect_board host_sample = inr b
    /\ Engine_new "/tmp/trace.bin" b EngineConfig_default = inr e0
    /\ step (CallStart (host_readable host_sample) env_tick) (boot e0 world_sample)
       = Some (s', StartReturned)
    /\ length (fd_voltage_ (engine s')) = 4%nat
    /\ fd_emc_ (engine s') < 0.
Proof.
  pose proof (detected_board_opens_everything host_sample _ "/tmp/trace.bin"
                EngineConfig_default _ world_sample env_tick
                eq_refl eq_refl eq_refl)
    as (s' & Hstep & Hv & _ & _ & _ & _ & Hemc).
  eexists _, _, s'.
  split; [reflexivity|]. split; [reflexivity|]. split; [exact Hstep|].
  split; [rewrite Hv; reflexivity|].
  destruct (Z.lt_ge_cases (fd_emc_ (engine s')) 0) as [|Hge]; [assumption|].
  exfalso. apply Hemc in Hge. apply Hge. reflexivity.
Defined.

(** ** Runs of the statement-wise system *)

Section FineRuns.

Lemma fine_run_app (l1 l2 : list Fine.Label) (s : Fine.System) :
  Fine.run (l1 ++ l2) s = Fine.run l1 s ≫= Fine.run l2.
Proof.
  revert s. induction l1 as [|l l1 IH]; intros s; cbn; [reflexivity|].
  destruct (Fine.step l s) as [[s' ev]|]; [apply IH|reflexivity].
Qed.

Lemma fine_run_invariant (P : Fine.System -> Prop) :
  (forall l s s' ev, P s -> Fine.step l s = Some (s', ev) -> P s') ->
  forall ls s0 s, P s0 -> Fine.run ls s0 = Some s -> P s.
Proof.
  intros Hstep ls. induction ls as [|l ls IH]; intros s0 s H0 Hrun; cbn in Hrun.
  - congruence.
  - destruct (Fine.step l s0) as [[s1 ev]|] eqn:Hs; [|discriminate].
    eapply IH; [|exact Hrun]. eapply Hstep; eauto.
Qed.

Lemma read_fast_sample_ok (env : Env) (e : Engine) :
  fast_ok (read_fast_sample env e).1
  /\ length (read_fast_sample env e).2 = length (prev_cpu_ e).
Proof.
  unfold read_fast_sample.
  pose proof (length_read_cpu env (fd_proc_stat_ e) (num_cpu_cores (board_ e))
                (prev_cpu_ e) (cpu_util FastSample0)) as [H1 H2].
  destruct (read_cpu _ _ _ _ _) as [[cpu agg] prev]. cbn in H1, H2.
  destruct (read_ram env (fd_meminfo_ e)) as [used avail]. cbn.
  split; [|exact H2]. unfold fast_ok. cbn. rewrite H1. reflexivity.
Qed.

End FineRuns.

#[local] Opaque read_fast_sample.

(** The cases of a step of the statement-wise system. *)
Ltac fine_cases H :=
  unfold Fine.step, Fine.start_begin, Fine.start_step, Fine.stop_step,
    Fine.stop_begin, Fine.fast_step, Fine.with_engine, Fine.at_pc,
    medium_step, slow_step, join, sync, warmup_released in H;
  repeat (case_match; simplify_option_eq);
  simplify_option_eq;
  repeat match goal with
    | Ho : do_open_fds _ _ _ = (_, _) |- _ =>
        apply do_open_fds_set in Ho as (? & ? & ? & ? & ? & ? & ? & ->)
    | Hc : close_fds _ _ = (_, _) |- _ =>
        apply close_fds_set in Hc as (? & ? & ? & ? & ->)
    | |- context [take_medium_sample ?env ?e] =>
        let smp := fresh "smp" in
        let Hok := fresh "Hok" in
        destruct (take_medium_sample_push env e) as (smp & -> & Hok)
    | |- context [take_slow_sample ?env ?e] =>
        let smp := fresh "smp" in
        let Hok := fresh "Hok" in
        destruct (take_slow_sample_push env e) as (smp & -> & Hok)
    end.

Section FineInvariants.

Lemma fine_life_boot (e : Engine) (w : World) :
  running_ e = false -> joined e -> fine_life (Fine.boot e w).
Proof. intros Hr Hj. split; cbn; [discriminate|]. split; [congruence|auto]. Qed.

Lemma step_fine_life (l : Fine.Label) (s s' : Fine.System) (ev : Event) :
  fine_life s -> Fine.step l s = Some (s', ev) -> fine_life s'.
Proof.
  intros Hinv H.
  fine_cases H; unfold fine_life, joined, alive in *;
    destruct Hinv as (Hcnt & Hpc);
    cbn [Fine.engine Fine.driver Fine.counting] in *; cbn in *;
    repeat match goal with
           | Hd : Fine.driver _ = _ |- _ => rewrite Hd in *
           end;
    cbn in *.
  all: try solve [ intuition (eauto; try congruence; try discriminate) ].
  all: try solve [ split; [intros Hc; destruct (Hcnt Hc) as [? ?]; congruence|];
                   intuition (eauto; try congruence; try discriminate) ].
  all: try solve [ destruct (Fine.driver s); 
                   intuition (eauto; try congruence; try discriminate) ].
Qed.

Lemma run_fine_life (ls : list Fine.Label) (s0 s : Fine.System) :
  fine_life s0 -> Fine.run ls s0 = Some s -> fine_life s.
Proof. apply (fine_run_invariant fine_life). intros l s1 s2 ev. apply step_fine_life. Qed.

Lemma u64_succ (x : Z) : Int.u64 (Int.u64 x + 1) = Int.u64 (x + 1).
Proof. unfold Int.u64, Int.wrap. apply Zplus_mod_idemp_l. Qed.

Lemma step_fine_count (l : Fine.Label) (s s' : Fine.System) (ev : Event) :
  fine_life s -> fine_count s -> Fine.step l s = Some (s', ev) -> fine_count s'.
Proof.
  intros Hlife Hinv H.
  fine_cases H; unfold fine_life, fine_count, joined, alive in *;
    destruct Hlife as (Hcnt & Hpc); destruct Hinv as (Hc & Hne);
    cbn [Fine.engine Fine.driver Fine.counting] in *; cbn in *;
    repeat match goal with
           | Hd : Fine.driver _ = _ |- _ => rewrite Hd in *
           | Hd : Fine.counting _ = _ |- _ => rewrite Hd in *
           end;
    cbn in *.
  all: try solve [ split; [assumption|intros; auto; discriminate] ].
  all: try solve [ split; [|discriminate]; rewrite Hc, u64_succ; f_equal; lia ].
  all: try solve [ split; [|intros _; intros Happ; apply app_eq_nil in Happ as [_ ?];
                             discriminate];
                   rewrite Hc, length_app; cbn; f_equal; lia ].
  all: try solve [ destruct (Fine.counting s);
                   [destruct (Hcnt eq_refl) as [? ?]; intuition congruence
                   |split; [reflexivity|discriminate]] ].
Qed.

Lemma step_ids_dense (l : Fine.Label) (s s' : Fine.System) (ev : Event) :
  ids_dense (Fine.engine s) -> Fine.step l s = Some (s', ev) ->
  ids_dense (Fine.engine s').
Proof.
  intros Hinv H.
  fine_cases H; unfold ids_dense in *;
    cbn [Fine.engine Fine.driver Fine.counting] in *; cbn in *; try assumption.
  all: try solve [ intros i p Hi; rewrite lookup_nil in Hi; discriminate ].
  intros i p Hi. apply lookup_app_Some in Hi as [Hi|[Hlen Hi]]; [auto|].
  apply list_lookup_singleton_Some in Hi as [Hi <-]. cbn.
  f_equal. lia.
Qed.

Lemma step_fine_buffers_ok (l : Fine.Label) (s s' : Fine.System) (ev : Event) :
  buffers_ok (Fine.engine s) -> Fine.step l s = Some (s', ev) ->
  buffers_ok (Fine.engine s').
Proof.
  intros Hinv H.
  fine_cases H; unfold buffers_ok in *; destruct Hinv as (Hf & Hm & Hs);
    cbn [Fine.engine Fine.driver Fine.counting] in *; cbn in *;
    repeat split; try assumption; try constructor;
    try (apply Forall_app; split; [assumption|]; constructor; [|constructor]);
    try assumption.
  all: match goal with
       | Hr : read_fast_sample ?env ?e = (?smp, _) |- fast_ok ?smp =>
           pose proof (read_fast_sample_ok env e) as [Hok _];
           rewrite Hr in Hok; exact Hok
       end.
Qed.

Lemma step_fine_config (e0 : Engine) (l : Fine.Label) (s s' : Fine.System)
    (ev : Event) :
  fine_life s -> fine_config e0 s -> Fine.step l s = Some (s', ev) ->
  fine_config e0 s'.
Proof.
  intros Hlife Hinv H.
  fine_cases H; unfold fine_life, fine_config, joined, alive in *;
    destruct Hlife as (Hcnt & Hpc); destruct Hinv as (Hp & Hb & Hc & Hprev);
    cbn [Fine.engine Fine.driver Fine.counting] in *; cbn in *;
    repeat match goal with
           | Hd : Fine.driver _ = _ |- _ => rewrite Hd in *
           end;
    cbn in *;
    repeat split; try assumption; try congruence.
  all: try solve [ intros; apply Hprev; intuition congruence ].
  all: try solve [ intros; rewrite length_replicate; congruence ].
  all: try solve [ intuition congruence ].
  all: try match goal with
       | Hr : read_fast_sample ?env ?e = (_, ?prev) |- _ -> length ?prev = _ =>
           intros; pose proof (read_fast_sample_ok env e) as [_ Hl];
           rewrite Hr in Hl; cbn in Hl; rewrite Hl; apply Hprev; left; congruence
       end.
Qed.

Lemma step_fine_inv (e0 : Engine) (l : Fine.Label) (s s' : Fine.System)
    (ev : Event) :
  fine_inv e0 s -> Fine.step l s = Some (s', ev) -> fine_inv e0 s'.
Proof.
  intros (H1 & H2 & H3 & H4 & H5) H. unfold fine_inv.
  eauto 10 using step_fine_life, step_fine_count, step_ids_dense,
    step_fine_buffers_ok, step_fine_config.
Qed.

Lemma fine_inv_boot (output_path : string) (board : BoardConfig)
    (config : EngineConfig) (e0 : Engine) (w0 : World) :
  Engine_new output_path board config = inr e0 -> fine_inv e0 (Fine.boot e0 w0).
Proof.
  intros Hnew.
  destruct (Engine_new_inr _ _ _ _ Hnew)
    as (_ & _ & _ & Hr & _ & Hc & Hft & Hmt & Hst & Hf & Hm & Hs & Hsp).
  split; [apply fine_life_boot; [exact Hr|repeat split; assumption]|].
  split; [split; cbn; [rewrite Hc, Hf; reflexivity|discriminate]|].
  split; [intros i p Hi; cbn in Hi; rewrite Hsp in Hi; discriminate|].
  split; [unfold buffers_ok; cbn; rewrite Hf, Hm, Hs; auto|].
  unfold fine_config. cbn. repeat split. intros [H|H]; congruence.
Qed.

Lemma run_fine_inv (output_path : string) (board : BoardConfig)
    (config : EngineConfig) (e0 : Engine) (w0 : World) (ls : list Fine.Label)
    (s : Fine.System) :
  Engine_new output_path board config = inr e0 ->
  Fine.run ls (Fine.boot e0 w0) = Some s -> fine_inv e0 s.
Proof.
  intros Hnew. apply (fine_run_invariant (fine_inv e0)).
  - intros l s1 s2 ev. apply step_fine_inv.
  - eapply fine_inv_boot. exact Hnew.
Qed.

End FineInvariants.

(** ** The writer, statement by statement *)

Section FineWriter.

Lemma step_past_writer (l : Fine.Label) (s s' : Fine.System) (ev : Event) :
  past_writer (Fine.driver s) = true -> is_stop l = false ->
  Fine.step l s = Some (s', ev) -> past_writer (Fine.driver s') = true.
Proof.
  intros Hp Hl H. destruct l; try discriminate Hl; clear Hl;
    fine_cases H; cbn [Fine.driver] in *;
    repeat match goal with
           | Hd : Fine.driver _ = _ |- _ => rewrite Hd in *
           end;
    try reflexivity; try assumption; try discriminate.
Qed.

Lemma run_past_writer (ls : list Fine.Label) :
  forall s s',
  past_writer (Fine.driver s) = true -> Forall (fun l => is_stop l = false) ls ->
  Fine.run ls s = Some s' -> past_writer (Fine.driver s') = true.
Proof.
  induction ls as [|l ls IH]; intros s s' Hp Hns Hrun; cbn in Hrun.
  - congruence.
  - inversion Hns as [|? ? Hl Hns']; subst.
    destruct (Fine.step l s) as [[s1 ev]|] eqn:Hs; [|discriminate].
    exact (IH s1 s' (step_past_writer l s s1 ev Hp Hl Hs) Hns' Hrun).
Qed.

Lemma count_fine_cons (f : Fine.Label -> bool) (l : Fine.Label)
    (ls : list Fine.Label) :
  count_fine f (l :: ls) = ((if f l then 1 else 0) + count_fine f ls)%nat.
Proof.
  unfold count_fine. destruct (f l) eqn:Hf.
  - rewrite filter_cons_True by exact Hf. reflexivity.
  - rewrite filter_cons_False by congruence. reflexivity.
Qed.

(** From the header to the point before the sync points: the stream
    receives the three sample arrays, the engine changes by the sync points
    that are appended meanwhile and by nothing else. *)
Lemma run_writer (mid : list Fine.Label) :
  forall s s3,
  Fine.header_sent (Fine.driver s) = true -> joined (Fine.engine s) ->
  Forall (fun l => is_stop l = false) mid ->
  Fine.run mid s = Some s3 -> Fine.driver s3 = Fine.WriteSync ->
  Fine.stream s3 = Fine.stream s ++ to_send (Fine.driver s) (Fine.engine s)
  /\ output_path_ (Fine.engine s3) = output_path_ (Fine.engine s)
  /\ fast_samples_ (Fine.engine s3) = fast_samples_ (Fine.engine s)
  /\ medium_samples_ (Fine.engine s3) = medium_samples_ (Fine.engine s)
  /\ slow_samples_ (Fine.engine s3) = slow_samples_ (Fine.engine s)
  /\ exists extra,
       sync_points_ (Fine.engine s3) = sync_points_ (Fine.engine s) ++ extra
       /\ length extra = count_fine Fine.is_sync mid.
Proof.
  induction mid as [|l mid IH]; intros s s3 Hh Hj Hns Hrun Hend; cbn in Hrun.
  - injection Hrun as <-. rewrite Hend. cbn. rewrite !app_nil_r.
    repeat split. exists []. rewrite app_nil_r. auto.
  - inversion Hns as [|? ? Hl Hns']; subst.
    destruct (Fine.step l s) as [[s1 ev]|] eqn:Hs; [|discriminate].
    rewrite count_fine_cons.
    destruct Hj as (Jf & Jm & Js).
    destruct l; try discriminate Hl; clear Hl;
      fine_cases Hs; cbn [Fine.driver Fine.engine] in *;
      repeat match goal with
             | Hd : Fine.driver _ = _ |- _ => rewrite Hd in *
             end;
      try discriminate; try congruence.
    all: try match goal with
         | |- context [Fine.is_sync] => idtac
         end.
    all: try (match type of Hrun with
              | Fine.run ?m ?s1 = _ =>
                  first
                    [ (* the driving thread went past the writer *)
                      assert (Hpw : past_writer (Fine.driver s3) = true)
                        by (apply (run_past_writer m s1 s3);
                            [reflexivity|assumption|assumption]);
                      rewrite Hend in Hpw; discriminate Hpw
                    | destruct (IH s1 s3) as (I1 & I2 & I3 & I4 & I5 & extra & I6 & I7);
                        [first [reflexivity|assumption]
                        |repeat split; assumption|assumption
                        |assumption|assumption|] ]
              end).
    all: cbn [Fine.stream Fine.engine Fine.driver to_send] in *; cbn in *.
    all: try solve [ unfold fwrite in *; rewrite ?I1, ?app_nil_r, <- ?app_assoc;
                     repeat split; try assumption; eauto ].
    all: try solve [ repeat split; try assumption;
                     eexists (_ :: extra); rewrite I6, <- app_assoc; cbn;
                     split; [reflexivity|congruence] ].
  Qed.

(** The four counts as a reader finds them in a file that begins with the
    header the writer built. *)
Lemma header_counts_at (e : Engine) (rest : list Z) :
  let img := Header.bytes (build_header e) ++ rest in
  field_at 56 8 img = Z.of_nat (length (fast_samples_ e)) mod 2 ^ 64
  /\ field_at 64 8 img = Z.of_nat (length (medium_samples_ e)) mod 2 ^ 64
  /\ field_at 72 8 img = Z.of_nat (length (slow_samples_ e)) mod 2 ^ 64
  /\ field_at 80 8 img = Z.of_nat (length (sync_points_ e)) mod 2 ^ 64.
Proof.
  intros img. subst img.
  unfold field_at, Header.bytes, build_header.
  cbn [Header.magic Header.version
    Header.board_name Header.num_cpu_cores Header.num_power_rails
    Header.num_thermal_zones Header.emc_available Header.fast_hz
    Header.medium_hz Header.slow_hz Header.num_fast_samples
    Header.num_medium_samples Header.num_slow_samples Header.num_sync_points
    Header.power_rail_names Header.thermal_zone_names Header.reserved].
  rewrite <- !app_assoc.
  repeat match goal with |- _ /\ _ => split end;
    read_field; apply le_value_le_bytes.
Qed.

(** The step of the writer at [WriteOpen] with a path that can be
    opened. *)
Lemma step_write_open (s1 s2 : Fine.System) (ev : Event) :
  Fine.driver s1 = Fine.WriteOpen ->
  Fine.step (Fine.StopStep true) s1 = Some (s2, ev) ->
  Fine.engine s2 = Fine.engine s1 /\ Fine.driver s2 = Fine.WriteFast
  /\ Fine.stream s2 = Header.bytes (build_header (Fine.engine s1)).
Proof.
  intros Hd H. cbn in H. rewrite Hd in H. cbn in H. injection H as <- <-.
  cbn. auto.
Qed.

End FineWriter.

(** C1, at the failing input: a run in which another thread calls [sync()]
    while [stop()] is inside [write_file()], after the header was built and
    sent and before the sync points are sent.  [write_file()] reads
    [sync_points_.size()] once for the header and once more for the
    [fwrite] of the array, and does not hold [sync_mtx_].  In the file that
    [stop()] leaves, a reader finds the counts 11, 1, 1 and 1 in the header;
    behind the 11 + 1 + 1 samples the file holds the 2 sync points of the
    vector, so its size is [728 + 98 * 11 + 104 + 72 + 16 * 2] and not the
    size the counts of its header give.  When no other thread runs in
    between, the counts are the same and the size is the one they give. *)
Theorem sync_during_write_file :
  exists e0 s s' s'' img t t' t'' img',
    Engine_new "/tmp/trace.bin" board_sample EngineConfig_default = inr e0
    /\ Fine.run (trace_to_writer ++ sync_in_writer) (Fine.boot e0 world_sample)
       = Some s
    /\ Fine.driver s = Fine.WriteSync
    /\ Fine.step (Fine.StopStep true) s = Some (s', Silent)
    /\ Fine.step (Fine.StopStep true) s' = Some (s'', StopReturned)
    /\ files (Fine.os s'') !! "/tmp/trace.bin"%string = Some img
    /\ field_at 56 8 img = 11 /\ field_at 64 8 img = 1 /\ field_at 72 8 img = 1
    /\ field_at 80 8 img = 1
    /\ length (sync_points_ (Fine.engine s)) = 2%nat
    /\ drop (728 + 98 * 11 + 104 * 1 + 72 * 1) img
       = concat (SyncPoint_bytes <$> sync_points_ (Fine.engine s))
    /\ Z.of_nat (length img) = 728 + 98 * 11 + 104 * 1 + 72 * 1 + 16 * 2
    /\ Z.of_nat (length img)
       <> 728 + 98 * field_at 56 8 img + 104 * field_at 64 8 img
          + 72 * field_at 72 8 img + 16 * field_at 80 8 img
    /\ Fine.run (trace_to_writer ++ quiet_writer) (Fine.boot e0 world_sample)
       = Some t
    /\ Fine.step (Fine.StopStep true) t = Some (t', Silent)
    /\ Fine.step (Fine.StopStep true) t' = Some (t'', StopReturned)
    /\ files (Fine.os t'') !! "/tmp/trace.bin"%string = Some img'
    /\ field_at 56 8 img' = 11 /\ field_at 64 8 img' = 1
    /\ field_at 72 8 img' = 1 /\ field_at 80 8 img' = 1
    /\ Z.of_nat (length img')
       = 728 + 98 * field_at 56 8 img' + 104 * field_at 64 8 img'
         + 72 * field_at 72 8 img' + 16 * field_at 80 8 img'.
Proof.
  eexists _, _, _, _, _, _, _, _, _.
  split; [reflexivity|].
  split; [vm_compute; reflexivity|].
  split; [reflexivity|].
  do 10 (split; [vm_compute; reflexivity|]).
  split; [vm_compute; discriminate|].
  do 8 (split; [vm_compute; reflexivity|]).
  vm_compute. reflexivity.
Qed.

(** The file as [stop()] leaves it, in every run and whatever the other
    threads do meanwhile.  [s1] is the state in which [write_file()] is
    entered, [mid] the steps taken between the header and the sync points,
    [s3] the state before the [fwrite] of the sync points.  The file then
    written is the header built at [s1] followed by the fast, medium and
    slow samples and by the sync points the vector holds at [s3], which are
    those of [s1] and one more for each [sync()] of [mid].  A reader finds
    in the header the numbers [F], [M], [S] of samples that follow and the
    number [K] of sync points of [s1]; the size of the file is
    [728 + 98 F + 104 M + 72 S + 16 K'] for the number [K'] of sync points
    of [s3], which is the size the header announces exactly when [sync()]
    was not called in between; and behind the samples, record [i] of 16
    bytes holds the id [i + 1] and the index that [sync()] recorded.
    [close_fds()] then ends [stop()] and leaves the file as it is. *)
Theorem trace_file_read_back
    (output_path : string) (board : BoardConfig) (config : EngineConfig)
    (e0 : Engine) (w0 : World) (pre mid : list Fine.Label)
    (s1 s3 : Fine.System) (c : bool) :
  Engine_new output_path board config = inr e0 ->
  Fine.run pre (Fine.boot e0 w0) = Some s1 ->
  Fine.driver s1 = Fine.WriteOpen ->
  Fine.run (Fine.StopStep true :: mid) s1 = Some s3 ->
  Forall (fun l => is_stop l = false) mid ->
  Fine.driver s3 = Fine.WriteSync ->
  let e := Fine.engine s3 in
  let F := length (fast_samples_ e) in
  let M := length (medium_samples_ e) in
  let S := length (slow_samples_ e) in
  let K := length (sync_points_ (Fine.engine s1)) in
  let K' := length (sync_points_ e) in
  let base := (728 + 98 * F + 104 * M + 72 * S)%nat in
  K' = (K + count_fine Fine.is_sync mid)%nat
  /\ exists s4 s5 img,
       Fine.step (Fine.StopStep c) s3 = Some (s4, Silent)
       /\ Fine.step (Fine.StopStep c) s4 = Some (s5, StopReturned)
       /\ files (Fine.os s4) !! output_path = Some img
       /\ files (Fine.os s5) !! output_path = Some img
       /\ img = Header.bytes (build_header (Fine.engine s1))
                ++ concat (FastSample_bytes <$> fast_samples_ e)
                ++ concat (MediumSample_bytes <$> medium_samples_ e)
                ++ concat (SlowSample_bytes <$> slow_samples_ e)
                ++ concat (SyncPoint_bytes <$> sync_points_ e)
       /\ field_at 56 8 img = Z.of_nat F mod 2 ^ 64
       /\ field_at 64 8 img = Z.of_nat M mod 2 ^ 64
       /\ field_at 72 8 img = Z.of_nat S mod 2 ^ 64
       /\ field_at 80 8 img = Z.of_nat K mod 2 ^ 64
       /\ length img = (base + 16 * K')%nat
       /\ (length img = (base + 16 * K)%nat <-> count_fine Fine.is_sync mid = 0%nat)
       /\ forall i p, sync_points_ e !! i = Some p ->
            field_at (base + 16 * i) 8 img = (Z.of_nat i + 1) mod 2 ^ 64
            /\ field_at (base + 16 * i + 8) 8 img = fast_sample_idx p mod 2 ^ 64.
Proof.
  intros Hnew Hpre Hd1 Hrun Hns Hd3 e F M S K K' base.
  cbn [Fine.run] in Hrun.
  destruct (Fine.step (Fine.StopStep true) s1) as [[s2 ev]|] eqn:Hopen;
    [|discriminate].
  destruct (step_write_open s1 s2 ev Hd1 Hopen) as (He2 & Hd2 & Hst2).
  destruct (run_fine_inv _ _ _ _ _ _ _ Hnew Hpre)
    as ((_ & Hlife) & _ & _ & Hok1 & (Hpath & _)).
  rewrite Hd1 in Hlife. destruct Hlife as (_ & Hj1).
  assert (Hinv3 : fine_inv e0 s3).
  { apply (run_fine_inv output_path board config e0 w0
             (pre ++ Fine.StopStep true :: mid) s3 Hnew).
    rewrite fine_run_app, Hpre. cbn [mbind option_bind Fine.run].
    rewrite Hopen. exact Hrun. }
  destruct Hinv3 as (_ & _ & Hids & Hok3 & _).
  destruct (run_writer mid s2 s3) as (Hs & Hp & Hf & Hm & Hsl & extra & Hx & Hxl);
    try assumption.
  { rewrite Hd2. reflexivity. }
  { rewrite He2. exact Hj1. }
  rewrite Hst2, Hd2, He2 in Hs. rewrite He2 in Hp, Hf, Hm, Hsl, Hx.
  cbn [to_send] in Hs.
  destruct (Engine_new_inr _ _ _ _ Hnew) as (Hp0 & _).
  assert (Hpath3 : output_path_ e = output_path) by (unfold e; congruence).
  split; [unfold K', K, e; rewrite Hx, length_app, Hxl; reflexivity|].
  destruct (close_fds e (Fine.os
             {| Fine.engine := e;
                Fine.os := Fine.fclose (output_path_ e)
                             (fwrite (concat (SyncPoint_bytes <$> sync_points_ e))
                                     (Fine.stream s3)) (Fine.os s3);
                Fine.driver := Fine.CloseFds; Fine.counting := Fine.counting s3;
                Fine.stream := fwrite (concat (SyncPoint_bytes <$> sync_points_ e))
                                      (Fine.stream s3) |})) as [e5 w5] eqn:Hclose.
  pose proof (close_fds_files e (Fine.fclose (output_path_ e)
                (fwrite (concat (SyncPoint_bytes <$> sync_points_ e))
                        (Fine.stream s3)) (Fine.os s3))) as Hfiles.
  cbn [Fine.os] in Hclose. rewrite Hclose in Hfiles. cbn [snd] in Hfiles.
  eexists _, _, _.
  split; [cbn; rewrite Hd3; cbn; reflexivity|].
  split; [cbn; fold e; rewrite Hclose; reflexivity|].
  cbn [Fine.os]. rewrite Hfiles. unfold Fine.fclose. cbn [files]. fold e.
  rewrite Hpath3, lookup_insert_eq.
  split; [reflexivity|]. split; [reflexivity|].
  assert (Himg : fwrite (concat (SyncPoint_bytes <$> sync_points_ e)) (Fine.stream s3)
                 = (Header.bytes (build_header (Fine.engine s1))
                    ++ concat (FastSample_bytes <$> fast_samples_ e)
                    ++ concat (MediumSample_bytes <$> medium_samples_ e)
                    ++ concat (SlowSample_bytes <$> slow_samples_ e))
                   ++ concat (SyncPoint_bytes <$> sync_points_ e)).
  { unfold fwrite. rewrite Hs. unfold e. rewrite Hf, Hm, Hsl. reflexivity. }
  rewrite Himg.
  assert (Hbase : length (Header.bytes (build_header (Fine.engine s1))
                          ++ concat (FastSample_bytes <$> fast_samples_ e)
                          ++ concat (MediumSample_bytes <$> medium_samples_ e)
                          ++ concat (SlowSample_bytes <$> slow_samples_ e)) = base).
  { destruct Hok3 as (Bf & Bm & Bs). rewrite !length_app, length_header.
    rewrite (length_concat_fixed FastSample_bytes 98)
      by (eapply Forall_impl; [exact Bf|apply length_FastSample_bytes]).
    rewrite (length_concat_fixed MediumSample_bytes 104)
      by (eapply Forall_impl; [exact Bm|apply length_MediumSample_bytes]).
    rewrite (length_concat_fixed SlowSample_bytes 72)
      by (eapply Forall_impl; [exact Bs|apply length_SlowSample_bytes]).
    unfold base, F, M, S. lia. }
  assert (Hlen : length ((Header.bytes (build_header (Fine.engine s1))
                          ++ concat (FastSample_bytes <$> fast_samples_ e)
                          ++ concat (MediumSample_bytes <$> medium_samples_ e)
                          ++ concat (SlowSample_bytes <$> slow_samples_ e))
                         ++ concat (SyncPoint_bytes <$> sync_points_ e))
                 = (base + 16 * K')%nat).
  { rewrite length_app, Hbase.
    rewrite (length_concat_fixed SyncPoint_bytes 16)
      by (apply Forall_forall; intros; apply length_SyncPoint_bytes).
    reflexivity. }
  split; [rewrite <- !app_assoc; reflexivity|].
  pose proof (header_counts_at (Fine.engine s1)
                ((concat (FastSample_bytes <$> fast_samples_ e)
                  ++ concat (MediumSample_bytes <$> medium_samples_ e)
                  ++ concat (SlowSample_bytes <$> slow_samples_ e))
                 ++ concat (SyncPoint_bytes <$> sync_points_ e))) as Hc.
  cbv zeta in Hc. rewrite !app_assoc in Hc. rewrite <- !app_assoc in Hc.
  rewrite <- !app_assoc.
  destruct Hc as (C1 & C2 & C3 & C4).
  split; [rewrite C1; unfold F, e; rewrite Hf; reflexivity|].
  split; [rewrite C2; unfold M, e; rewrite Hm; reflexivity|].
  split; [rewrite C3; unfold S, e; rewrite Hsl; reflexivity|].
  split; [exact C4|].
  rewrite <- !app_assoc in Hlen.
  split; [exact Hlen|].
  split.
  { rewrite Hlen. unfold K', K, e. rewrite Hx, length_app, Hxl. lia. }
  intros i p Hi.
  pose proof (sync_record_at (sync_points_ e) i p
                (Header.bytes (build_header (Fine.engine s1))
                 ++ concat (FastSample_bytes <$> fast_samples_ e)
                 ++ concat (MediumSample_bytes <$> medium_samples_ e)
                 ++ concat (SlowSample_bytes <$> slow_samples_ e)) Hi) as Hrec.
  rewrite Hbase in Hrec. rewrite <- !app_assoc in Hrec.
  unfold field_at. split.
  - rewrite Hrec. rewrite take_app_length' by (rewrite length_le_bytes; reflexivity).
    rewrite le_value_le_bytes, (Hids i p Hi).
    unfold Int.u64, Int.wrap. change (256 ^ Z.of_nat 8) with (2 ^ 64).
    apply Z.mod_mod. lia.
  - rewrite <- drop_drop, Hrec.
    rewrite drop_app_length' by (rewrite length_le_bytes; reflexivity).
    rewrite take_app_length' by (rewrite length_le_bytes; reflexivity).
    apply le_value_le_bytes.
Qed.

Lemma trace_file_read_back_witness :
  exists e0 s1 s3,
    Engine_new "/tmp/trace.bin" board_sample EngineConfig_default = inr e0
    /\ Fine.run trace_to_writer (Fine.boot e0 world_sample) = Some s1
    /\ Fine.run sync_in_writer s1 = Some s3
    /\ length (sync_points_ (Fine.engine s1)) = 1%nat
    /\ length (sync_points_ (Fine.engine s3)) = (1 + 1)%nat.
Proof.
  eexists _, _, _.
  split; [reflexivity|].
  split; [vm_compute; reflexivity|].
  split; [vm_compute; reflexivity|].
  split; [vm_compute; reflexivity|].
  match goal with
  | |- length (sync_points_ (Fine.engine ?s3)) = _ =>
      pose proof (trace_file_read_back "/tmp/trace.bin" board_sample
                    EngineConfig_default _ world_sample trace_to_writer
                    (tail sync_in_writer) _ s3 true eq_refl
                    ltac:(vm_compute; reflexivity) ltac:(vm_compute; reflexivity)
                    ltac:(vm_compute; reflexivity) ltac:(repeat constructor)
                    ltac:(vm_compute; reflexivity)) as H
  end.
  cbv zeta in H. destruct H as [H _].
  exact (eq_trans H ltac:(vm_compute; reflexivity)).
Defined.

Section FineCount.



End FineCount.

(** While [is_running()] is true the driving thread is either outside
    [start()] and [stop()], and then the three threads are in their
    functions and [start()] throws without changing anything, or it is
    inside [start()], which raised [running_] with its first store: there
    the threads constructed so far are in their functions and the others do
    not exist yet. *)
Theorem running_threads_alive
    (output_path : string) (board : BoardConfig) (config : EngineConfig)
    (e0 : Engine) (w0 : World) (ls : list Fine.Label) (s : Fine.System) :
  Engine_new output_path board config = inr e0 ->
  Fine.run ls (Fine.boot e0 w0) = Some s ->
  is_running (Fine.engine s) = true ->
  let e := Fine.engine s in
  (Fine.driver s = Fine.Idle \/ Fine.in_start (Fine.driver s) = true)
  /\ (Fine.driver s = Fine.Idle ->
      alive (fast_thread_ e) /\ alive (medium_thread_ e)
      /\ alive (slow_thread_ e)
      /\ Fine.step Fine.CallStart s
         = Some (s, Threw (runtime_error "Engine already running")))
  /\ (Fine.in_start (Fine.driver s) = true ->
      Fine.step Fine.CallStart s = None
      /\ (fast_thread_ e = NoThread \/ alive (fast_thread_ e))
      /\ (medium_thread_ e = NoThread \/ alive (medium_thread_ e))
      /\ slow_thread_ e = NoThread
      /\ (fast_thread_ e = NoThread <->
          Fine.driver s <> Fine.SpawnMedium /\ Fine.driver s <> Fine.SpawnSlow)
      /\ (medium_thread_ e = NoThread <-> Fine.driver s <> Fine.SpawnSlow)).
Proof.
  intros Hnew Hrun Hup e. subst e. unfold is_running in Hup.
  destruct (run_fine_inv _ _ _ _ _ _ _ Hnew Hrun) as ((_ & Hpc) & _).
  unfold joined, alive in *.
  unfold Fine.step, Fine.start_begin. rewrite Hup.
  destruct (Fine.driver s); cbn in *;
    repeat match goal with
           | H : _ /\ _ |- _ => destruct H
           | H : exists _, _ |- _ => destruct H
           end;
    try congruence.
  all: repeat match goal with
              | H : ?a = true -> _, H' : ?a = true |- _ => specialize (H H')
              | H : _ /\ _ |- _ => destruct H
              | H : exists _, _ |- _ => destruct H
              end.
  all: split; [auto|]; (split; [intros Hd; try discriminate Hd; eauto 10|]);
         intros Hd; try discriminate Hd.
  all: repeat match goal with |- _ /\ _ => split end; eauto;
         try (split; intros; intuition congruence).
Qed.

Lemma running_threads_alive_witness :
  exists e0 s,
    Engine_new "/tmp/trace.bin" board_sample EngineConfig_default = inr e0
    /\ Fine.run [Fine.CallStart; Fine.StartStep readable_sample env_sample;
                 Fine.StartStep readable_sample env_sample; Fine.CallSync]
                (Fine.boot e0 world_sample) = Some s
    /\ is_running (Fine.engine s) = true
    /\ Fine.driver s = Fine.SpawnFast
    /\ slow_thread_ (Fine.engine s) = NoThread.
Proof.
  eexists _, _.
  split; [reflexivity|].
  split; [vm_compute; reflexivity|].
  split; [reflexivity|].
  split; [reflexivity|].
  match goal with
  | |- slow_thread_ (Fine.engine ?s) = _ =>
      refine (proj1 (proj2 (proj2 (proj2 (proj2 (proj2
                (running_threads_alive "/tmp/trace.bin" board_sample
                   EngineConfig_default _ world_sample
                   [Fine.CallStart; Fine.StartStep readable_sample env_sample;
                    Fine.StartStep readable_sample env_sample; Fine.CallSync] s
                   eq_refl _ _)) eq_refl)))))
  end.
  - vm_compute. reflexivity.
  - vm_compute. reflexivity.
Defined.



(** ** The blocks as runs of statements *)

Section Refinement.

#[local] Transparent take_fast_sample.

Ltac refined :=
  eexists; (split; [reflexivity|]);
  cbn [Fine.engine Fine.os Fine.driver Fine.counting engine os stopping];
  try match goal with Hs : stopping _ = _ |- _ => rewrite ?Hs end;
  repeat split; reflexivity.

Ltac fast_refined :=
  unfold Fine.run, Fine.step, Fine.fast_step;
  do 3 (cbn [Fine.engine Fine.os Fine.driver Fine.counting Fine.stream
             mbind option_bind fast_thread_ push_back_fast running_ config_];
        repeat match goal with
               | Hx : ?a = _ |- context [?a] => rewrite Hx
               end);
  refined.

Lemma block_step_refined (l : Label) (s s' : System) (ev : Event)
    (sf : Fine.System) :
  refines s sf -> step l s = Some (s', ev) ->
  exists sf', Fine.run (refine_label s l) sf = Some sf' /\ refines s' sf'.
Proof.
  intros (He & Hos & Hd & Hc) H.
  destruct sf as [ef wf df cf stf]. cbn in He, Hos, Hd, Hc. subst.
  unfold refines, refine_label.
  destruct l; cbn [step] in H.
  - (* start *)
    destruct (stopping s) eqn:Hst; [discriminate|]. unfold start in H.
    destruct (running_ (engine s)) eqn:Hup.
    + injection H as <- <-. unfold Fine.run, Fine.step, Fine.start_begin.
      cbn. rewrite Hup, Hst. refined.
    + destruct (joinable (fast_thread_ (engine s))) eqn:Jf; [discriminate|].
      destruct (joinable (medium_thread_ (engine s))) eqn:Jm; [discriminate|].
      destruct (joinable (slow_thread_ (engine s))) eqn:Js; [discriminate|].
      cbn [orb] in H.
      destruct (do_open_fds readable (start_reset (engine s)) (os s))
        as [e1 w1] eqn:Hopen.
      injection H as <- <-.
      cbn [replicate Fine.run Fine.step Fine.driver refine_pc].
      unfold Fine.start_begin. cbn [Fine.engine]. rewrite Hup.
      cbn [Fine.run Fine.step].
      cbn [Fine.start_step Fine.at_pc Fine.driver Fine.engine Fine.os
           Fine.counting Fine.stream].
      change (start_clear (set_running true (engine s))) with (start_reset (engine s)).
      rewrite Hopen.
      cbn [Fine.start_step Fine.at_pc Fine.driver Fine.engine Fine.os
           Fine.counting Fine.stream].
      apply do_open_fds_set in Hopen as (? & ? & ? & ? & ? & ? & ? & ->).
      do 3 (cbn [Fine.start_step Fine.at_pc Fine.driver Fine.engine Fine.os
                 Fine.counting Fine.stream fast_thread_ medium_thread_
                 slow_thread_ start_clock set_fds start_reset set_fast_thread
                 set_medium_thread];
            rewrite ?Jf, ?Jm, ?Js).
      refined.
  - (* stop *)
    destruct (stopping s) eqn:Hst; [discriminate|]. injection H as <- <-.
    cbn. refined.
  - (* a step of stop *)
    destruct (stopping s) as [pc|] eqn:Hst; [|discriminate]. cbn in H.
    destruct pc; cbn in H.
    1-3: cbn; match type of H with
              | context [join ?t] => destruct (join t) eqn:Hj; [|discriminate]
              end; cbn in H; injection H as <- <-; cbn; refined.
    unfold stop_finish, write_file in H. destruct can_create.
    + destruct (close_fds _ _) as [e1 w1] eqn:Hclose. injection H as <- <-.
      cbn [replicate Fine.run Fine.step Fine.driver refine_pc Fine.stop_step
           Fine.at_pc Fine.engine Fine.os Fine.counting Fine.stream].
      unfold Fine.fclose, Fine.fopen_wb. cbn [files open_fds next_fd].
      rewrite insert_insert_eq.
      change (fwrite _ (fwrite _ (fwrite _ (fwrite _ (fwrite _ [])))))
        with (file_image (engine s)).
      cbn [engine os] in Hclose. rewrite Hclose. cbn. refined.
    + injection H as <- <-. cbn. refined.
  - (* sync *)
    cbn in H. injection H as <- <-. cbn. refined.
  - (* wait *)
    cbn. destruct (warmup_released (engine s)); [|discriminate].
    injection H as <- <-. refined.
  - (* the fast thread *)
    destruct (fast_step env (engine s)) as [e1|] eqn:Hf; [|discriminate].
    cbn in H. injection H as <- <-. unfold fast_step in Hf. unfold takes_sample.
    unfold take_fast_sample in Hf.
    destruct (fast_thread_ (engine s)) as [|[i| |]|] eqn:Ht; try discriminate Hf.
    + destruct ((i =? 0)%nat && no_interval (fast_hz (config_ (engine s)))) eqn:Hz;
        [discriminate|].
      destruct ((i <? 10)%nat && running_ (engine s)) eqn:Hgo.
      * destruct (read_fast_sample env (engine s)) as [smp prev] eqn:Hr.
        injection Hf as <-. fast_refined.
      * injection Hf as <-. fast_refined.
    + injection Hf as <-. fast_refined.
    + destruct (running_ (engine s)) eqn:Hup.
      * destruct (read_fast_sample env (engine s)) as [smp prev] eqn:Hr.
        injection Hf as <-. fast_refined.
      * injection Hf as <-. fast_refined.
  - (* the medium thread *)
    destruct (medium_step env (engine s)) as [e1|] eqn:Hm; [|discriminate].
    cbn in H. injection H as <- <-. cbn. rewrite Hm. cbn. refined.
  - (* the slow thread *)
    destruct (slow_step env (engine s)) as [e1|] eqn:Hm; [|discriminate].
    cbn in H. injection H as <- <-. cbn. rewrite Hm. cbn. refined.
Qed.

End Refinement.

(** Every run of the system of blocks is a run of the statement-wise
    system: the one in which no other thread runs between the statements of
    [start()], between the [push_back] and the [fetch_add] of a tick, and
    between the statements of the writer and [close_fds()]. *)
Theorem block_runs_are_statement_runs
    (e0 : Engine) (w0 : World) (ls : list Label) (s : System) :
  run ls (boot e0 w0) = Some s ->
  exists ls' sf,
    Fine.run ls' (Fine.boot e0 w0) = Some sf
    /\ Fine.engine sf = engine s /\ Fine.os sf = os s
    /\ Fine.driver sf = refine_pc (stopping s) /\ Fine.counting sf = false.
Proof.
  assert (Hgen : forall ls s0 sf0 s,
             refines s0 sf0 -> run ls s0 = Some s ->
             exists ls' sf, Fine.run ls' sf0 = Some sf /\ refines s sf).
  { clear. induction ls as [|l ls IH]; intros s0 sf0 s Hr Hrun; cbn in Hrun.
    - injection Hrun as <-. exists [], sf0. auto.
    - destruct (step l s0) as [[s1 ev]|] eqn:Hs; [|discriminate].
      destruct (block_step_refined l s0 s1 ev sf0 Hr Hs) as (sf1 & Hf1 & Hr1).
      destruct (IH s1 sf1 s Hr1 Hrun) as (ls' & sf & Hf & Hr').
      exists (refine_label s0 l ++ ls'), sf. split; [|exact Hr'].
      rewrite fine_run_app, Hf1. exact Hf. }
  intros Hrun. apply (Hgen ls (boot e0 w0) (Fine.boot e0 w0) s); [|exact Hrun].
  repeat split.
Qed.

Lemma block_runs_are_statement_runs_witness :
  exists e0 s,
    Engine_new "/tmp/trace.bin" board_sample EngineConfig_default = inr e0
    /\ run trace_early_stop (boot e0 world_sample) = Some s
    /\ exists ls' sf,
         Fine.run ls' (Fine.boot e0 world_sample) = Some sf
         /\ Fine.engine sf = engine s.
Proof.
  eexists _, _.
  split; [reflexivity|].
  split; [vm_compute; reflexivity|].
  match goal with
  | |- exists ls' sf, Fine.run ls' (Fine.boot ?e0 _) = _ /\ _ = engine ?s =>
      destruct (block_runs_are_statement_runs e0 world_sample trace_early_stop s
                  ltac:(vm_compute; reflexivity))
        as (ls' & sf & Hrun & He & _)
  end.
  exists ls', sf. split; [exact Hrun|exact He].
Defined.
